(** * Multi-agent orchestration: Coordinator / Researcher / Critic / Executor / Evaluator

    A shallow embedding of the two multi-agent implementations of the
    repository,

    - [course/Labs/12_multi_agent_systems.py]          (module [Lab]),
    - [Lessons/Chapter06/advanced_multi_agent.py]      (module [Adv]),

    followed by the properties of the orchestration engine.

    Conventions of the embedding.

    - A [MultiAgentState] is a Python [TypedDict] with [total=False]: keys may
      be absent and every read goes through [state.get(key, default)].  Fields
      whose absence is observable are [option]s, [None] standing for an absent
      key (or for the value [None], which every read treats alike); the
      accessors [get_*] apply the default of the source.
    - Python [int] is [Z]; Python [float] is a binary64 float ([PrimFloat]).
    - Python [str] is [string] (the UTF-8 bytes of the text).
    - [time.time()] is an oracle [time_time]: it is read once for every message
      that is appended, and is indexed by the position the message takes in
      the log.
    - [print] and [time.sleep] do not touch the state and are left out, as are
      local variables that only feed a [print].
    - A call that can raise has an [outcome]: the value returned or the
      exception raised.  The class [StateGraph] of LangGraph is library code
      and a parameter ([Adv.StateGraphClass]); [Adv.placeholder] is the
      [object] the advanced file binds the name to when the import fails. *)

From Stdlib Require Import ZArith String Ascii List Floats Lia.
From stdpp Require Import base decidable countable gmap sets list strings sorting.

Set Warnings "-inexact-float".
Set Default Proof Using "Type".

Open Scope string_scope.
Open Scope list_scope.
Open Scope Z_scope.

(* ------------------------------------------------------------------------- *)
(** ** Strings, the way the source uses them *)
(* ------------------------------------------------------------------------- *)

(** The character written [\n] in the source. *)
Definition nl : string := String (ascii_of_nat 10) EmptyString.

(** [a + b + c + ...], also the result of a run of [s += ...]. *)
Definition cat (pieces : list string) : string := String.concat "" pieces.

(** A literal that ends in [\n], respectively in [\n\n]. *)
Definition ln (s : string) : string := s +:+ nl.
Definition ln2 (s : string) : string := s +:+ nl +:+ nl.

(** [sep.join(l)]. *)
Definition join (sep : string) (l : list string) : string := String.concat sep l.

Definition is_upper (c : ascii) : bool :=
  (65 <=? nat_of_ascii c)%nat && (nat_of_ascii c <=? 90)%nat.

Definition is_lower (c : ascii) : bool :=
  (97 <=? nat_of_ascii c)%nat && (nat_of_ascii c <=? 122)%nat.

Definition lower_ascii (c : ascii) : ascii :=
  if is_upper c then ascii_of_nat (nat_of_ascii c + 32) else c.

Definition upper_ascii (c : ascii) : ascii :=
  if is_lower c then ascii_of_nat (nat_of_ascii c - 32) else c.

(** [s.lower()], on the ASCII letters of [s]. *)
Fixpoint lower (s : string) : string :=
  match s with
  | EmptyString => EmptyString
  | String c s' => String (lower_ascii c) (lower s')
  end.

(** [s.replace(a, b)] for single characters [a] and [b]. *)
Fixpoint replace (a b : ascii) (s : string) : string :=
  match s with
  | EmptyString => EmptyString
  | String c s' => String (if Ascii.eqb c a then b else c) (replace a b s')
  end.

(** [s.title()]: a letter that follows a non-letter is upper-cased, every other
    letter is lower-cased. *)
Fixpoint title_from (after_letter : bool) (s : string) : string :=
  match s with
  | EmptyString => EmptyString
  | String c s' =>
      let letter := is_upper c || is_lower c in
      String (if after_letter then lower_ascii c else upper_ascii c)
             (title_from letter s')
  end.

Definition title (s : string) : string := title_from false s.

(** [needle in hay]. *)
Fixpoint contains (needle hay : string) : bool :=
  String.prefix needle hay ||
  match hay with
  | EmptyString => false
  | String _ hay' => contains needle hay'
  end.

(** [l[-2:]]. *)
Definition last_two {A : Type} (l : list A) : list A :=
  skipn (length l - 2)%nat l.

(* ------------------------------------------------------------------------- *)
(** ** Agent types and data structures (shared by both files) *)
(* ------------------------------------------------------------------------- *)

Inductive AgentRole : Type :=
  | COORDINATOR
  | RESEARCHER
  | CRITIC
  | EXECUTOR
  | EVALUATOR.

#[global] Instance AgentRole_eq_dec : EqDecision AgentRole.
Proof. solve_decision. Defined.

Definition role_code (r : AgentRole) : nat :=
  match r with
  | COORDINATOR => 0 | RESEARCHER => 1 | CRITIC => 2 | EXECUTOR => 3 | EVALUATOR => 4
  end%nat.

Definition code_role (n : nat) : AgentRole :=
  match n with
  | 0 => COORDINATOR | 1 => RESEARCHER | 2 => CRITIC | 3 => EXECUTOR | _ => EVALUATOR
  end%nat.

#[global] Instance AgentRole_countable : Countable AgentRole.
Proof. refine (inj_countable' role_code code_role _). by intros []. Defined.

(** [AgentMessage]: [to_agent = None] is a broadcast. *)
Record AgentMessage : Type := mkMessage {
  from_agent : AgentRole;
  to_agent : option AgentRole;
  content : string;
  timestamp : float;
  msg_type : string;
  iteration : Z
}.

(** [msg["from_agent"] == r and msg["msg_type"] == t]. *)
Definition from_with_type (r : AgentRole) (t : string) (m : AgentMessage) : bool :=
  bool_decide (from_agent m = r) && String.eqb (msg_type m) t.

(** [msg["to_agent"] == r and msg["msg_type"] == t]. *)
Definition to_with_type (r : AgentRole) (t : string) (m : AgentMessage) : bool :=
  bool_decide (to_agent m = Some r) && String.eqb (msg_type m) t.

(** [next((m["content"] for m in reversed(messages) if p(m)), "")]. *)
Definition latest_content (p : AgentMessage -> bool) (messages : list AgentMessage)
  : string :=
  match List.find p (rev messages) with
  | Some m => content m
  | None => ""
  end.

(** [[m["content"] for m in messages if p(m)]]. *)
Definition contents_where (p : AgentMessage -> bool) (messages : list AgentMessage)
  : list string :=
  List.map content (List.filter p messages).

(** [[m for m in messages if m["iteration"] == k]]. *)
Definition with_iteration (k : Z) (messages : list AgentMessage) : list AgentMessage :=
  List.filter (fun m => iteration m =? k) messages.

(** The threshold of the quality-based exit, [0.9]. *)
Definition threshold : float := 0.9%float.

(** [x >= 0.9]. *)
Definition reaches_threshold (x : float) : bool := PrimFloat.leb threshold x.

(** The plan the Coordinator files under ["plan"], the same text in both files. *)
Definition initial_plan : string :=
  cat [ ln "1. Research phase: Gather information";
        ln "2. Analysis phase: Evaluate options";
        ln "3. Planning phase: Develop solution";
        "4. Execution phase: Implement solution" ].

(** The evaluation metrics: a [dict] literal, in insertion order. *)
Definition metrics : Type := list (string * float).

(** [evaluation[key]]; both literals of the source hold every key that is read. *)
Fixpoint metric (key : string) (evaluation : metrics) : float :=
  match evaluation with
  | [] => 0%float
  | (k, v) :: rest => if String.eqb k key then v else metric key rest
  end.

(** The lines [- {metric.replace('_', ' ').title()}: {score:.2f}/1.00\n], one for
    each item of [evaluation]; [fmt d x] is [format(x, ".df")]. *)
Definition metric_lines (fmt : nat -> float -> string) (evaluation : metrics) : string :=
  cat (List.map
         (fun '(name, score) =>
            ln ("- " +:+ title (replace "_" " " name) +:+ ": " +:+ fmt 2%nat score +:+ "/1.00"))
         evaluation).

(** [f"\nOverall assessment: {evaluation['overall_quality'] * 100:.1f}% optimal solution"]. *)
Definition overall_line (fmt : nat -> float -> string) (evaluation : metrics) : string :=
  nl +:+ "Overall assessment: " +:+
  fmt 1%nat (PrimFloat.mul (metric "overall_quality" evaluation) 100%float) +:+
  "% optimal solution".

(** What a call does: it returns a value or raises an exception. *)
Inductive exception : Type :=
  | TypeError
  | OtherException (class_name : string).

Inductive outcome (A : Type) : Type :=
  | Returned (value : A)
  | Raised (error : exception).

Arguments Returned {A} value.
Arguments Raised {A} error.

(** Statements in sequence: the first exception raised ends the sequence. *)
#[global] Instance outcome_bind : MBind outcome :=
  fun A B k c => match c with Returned a => k a | Raised e => Raised e end.

#[global] Instance outcome_ret : MRet outcome := fun A a => Returned a.

(** The iteration order of a Python [set] of roles.  It depends on the hashes of
    the elements, which vary from one process to the next; what the language
    guarantees is that iterating a set visits each element once, and that two
    iterations of an unmodified set agree. *)
Record SetOrder : Type := mkSetOrder {
  set_iter : gset (option AgentRole) -> list (option AgentRole);
  set_iter_perm : forall X, set_iter X ≡ₚ elements X
}.

(* ------------------------------------------------------------------------- *)
(** ** [course/Labs/12_multi_agent_systems.py] *)
(* ------------------------------------------------------------------------- *)

Module Lab.

(** [MultiAgentState].  [current_agent] holds [None] for the Python value [None]
    (a broadcast address picked up from a message); an absent key reads as
    [COORDINATOR] in [router] and is identified with it. *)
Record MultiAgentState : Type := mkState {
  task : string;
  messages : list AgentMessage;
  artifacts : gmap string string;
  current_agent : option AgentRole;
  convergence_score : option float;
  solution : option string;
  evaluation : option metrics;
  max_iterations : option Z;
  current_iteration : option Z
}.

(** [state[key] = value] *)
Definition set_messages (v : list AgentMessage) (s : MultiAgentState) :=
  mkState (task s) v (artifacts s) (current_agent s) (convergence_score s)
          (solution s) (evaluation s) (max_iterations s) (current_iteration s).
Definition set_artifacts (v : gmap string string) (s : MultiAgentState) :=
  mkState (task s) (messages s) v (current_agent s) (convergence_score s)
          (solution s) (evaluation s) (max_iterations s) (current_iteration s).
Definition set_current_agent (v : option AgentRole) (s : MultiAgentState) :=
  mkState (task s) (messages s) (artifacts s) v (convergence_score s)
          (solution s) (evaluation s) (max_iterations s) (current_iteration s).
Definition set_convergence_score (v : float) (s : MultiAgentState) :=
  mkState (task s) (messages s) (artifacts s) (current_agent s) (Some v)
          (solution s) (evaluation s) (max_iterations s) (current_iteration s).
Definition set_solution (v : string) (s : MultiAgentState) :=
  mkState (task s) (messages s) (artifacts s) (current_agent s) (convergence_score s)
          (Some v) (evaluation s) (max_iterations s) (current_iteration s).
Definition set_evaluation (v : metrics) (s : MultiAgentState) :=
  mkState (task s) (messages s) (artifacts s) (current_agent s) (convergence_score s)
          (solution s) (Some v) (max_iterations s) (current_iteration s).
Definition set_current_iteration (v : Z) (s : MultiAgentState) :=
  mkState (task s) (messages s) (artifacts s) (current_agent s) (convergence_score s)
          (solution s) (evaluation s) (max_iterations s) (Some v).

(** [state.get("current_iteration", 0)] *)
Definition get_current_iteration (s : MultiAgentState) : Z :=
  default 0 (current_iteration s).
(** [state.get("max_iterations", 5)] *)
Definition get_max_iterations (s : MultiAgentState) : Z :=
  default 5 (max_iterations s).
(** [state.get("convergence_score", 0)] *)
Definition get_convergence_score (s : MultiAgentState) : float :=
  default 0%float (convergence_score s).

Section Agents.

Variable time_time : nat -> float.
Variable fmt : nat -> float -> string.
Variable order : SetOrder.

(** [messages.append({...})] for a request of the Coordinator. *)
Definition send_request (to : option AgentRole) (text : string) (it : Z)
    (messages : list AgentMessage) : list AgentMessage :=
  messages ++ [mkMessage COORDINATOR to text (time_time (length messages)) "request" it].

(** [messages.append({...})] for a response sent back to the Coordinator. *)
Definition send_response (from : AgentRole) (text : string) (it : Z)
    (messages : list AgentMessage) : list AgentMessage :=
  messages ++
  [mkMessage from (Some COORDINATOR) text (time_time (length messages)) "response" (it - 1)].

(** The roles the Coordinator asked in the messages of one iteration. *)
Definition needed_responses (recent_messages : list AgentMessage)
  : gset (option AgentRole) :=
  list_to_set (List.map to_agent
                 (List.filter (from_with_type COORDINATOR "request") recent_messages)).

(** The roles that answered the Coordinator in the messages of one iteration. *)
Definition received_responses (recent_messages : list AgentMessage)
  : gset (option AgentRole) :=
  list_to_set (List.map (fun m => Some (from_agent m))
                 (List.filter (fun m => String.eqb (msg_type m) "response" &&
                                        bool_decide (to_agent m = Some COORDINATOR))
                              recent_messages)).

(** [needed_responses and not needed_responses.issubset(received_responses)] *)
Definition responses_missing (needed received : gset (option AgentRole)) : bool :=
  bool_decide (needed ≠ ∅) && negb (bool_decide (needed ⊆ received)).

(** [for agent in missing: messages.append({...})] *)
Definition follow_up (missing : list (option AgentRole)) (it : Z)
    (messages : list AgentMessage) : list AgentMessage :=
  fold_left
    (fun msgs agent =>
       send_request agent "Following up on my previous request. Please respond." it msgs)
    missing messages.

Definition coordinator_agent (state : MultiAgentState) : MultiAgentState :=
  let current_iteration := get_current_iteration state in
  let max_iterations := get_max_iterations state in
  let messages := messages state in
  let artifacts := artifacts state in
  if current_iteration =? 0 then
    (* First iteration: initialize the task *)
    let task := task state in
    let artifacts := <["plan" := initial_plan]> artifacts in
    let messages :=
      send_request (Some RESEARCHER) ("Please research the following task: " +:+ task)
                   current_iteration messages in
    set_current_agent (Some RESEARCHER)
      (set_current_iteration (current_iteration + 1)
         (set_artifacts artifacts (set_messages messages state)))
  else if current_iteration <? max_iterations - 1 then
    (* Middle iterations: manage the process *)
    let recent_messages := with_iteration (current_iteration - 1) messages in
    let needed := needed_responses recent_messages in
    let received := received_responses recent_messages in
    let '(messages, state) :=
      if responses_missing needed received then
        (* If we're missing responses, request them again *)
        let missing := set_iter order (needed ∖ received) in
        let messages := follow_up missing current_iteration messages in
        (* [list(missing)[0]]; [missing] is not empty on this branch *)
        (messages, set_current_agent (default None (head missing)) state)
      else
        (* Determine next phase based on iteration *)
        let phase := current_iteration mod 3 in
        if phase =? 0 then
          (send_request (Some RESEARCHER)
             "Please continue researching and provide additional information."
             current_iteration messages,
           set_current_agent (Some RESEARCHER) state)
        else if phase =? 1 then
          let research := latest_content (from_with_type RESEARCHER "response") messages in
          (send_request (Some CRITIC)
             (ln2 "Please critique this research and suggest improvements:" +:+ research)
             current_iteration messages,
           set_current_agent (Some CRITIC) state)
        else
          let critique := latest_content (from_with_type CRITIC "response") messages in
          (send_request (Some EXECUTOR)
             (ln2 "Based on our research and critique, please develop a solution:" +:+ critique)
             current_iteration messages,
           set_current_agent (Some EXECUTOR) state) in
    set_current_iteration (current_iteration + 1) (set_messages messages state)
  else
    (* Final iteration: conclude the task *)
    let execution_results := contents_where (from_with_type EXECUTOR "response") messages in
    let solution :=
      ln2 "FINAL SOLUTION:" +:+
      match execution_results with
      | [] => "No solution developed."
      | _ :: _ => join nl (last_two execution_results)
      end in
    let messages :=
      send_request (Some EVALUATOR) (ln2 "Please evaluate this solution:" +:+ solution)
                   current_iteration messages in
    set_current_agent (Some EVALUATOR)
      (set_current_iteration (current_iteration + 1)
         (set_messages messages (set_solution solution state))).

Definition researcher_agent (state : MultiAgentState) : MultiAgentState :=
  let task := task state in
  let messages := messages state in
  let current_iteration := get_current_iteration state in
  let request := latest_content (to_with_type RESEARCHER "request") messages in
  let research :=
    if contains "research" (lower request) || contains "information" (lower request) then
      if current_iteration <=? 1 then
        cat [ ln2 ("Initial research on '" +:+ task +:+ "':");
              ln "1. Key aspects of the problem:";
              ln "   - The problem involves multiple stakeholders";
              ln "   - There are technical and non-technical components";
              ln2 "   - Time constraints will affect the solution";
              ln "2. Potential approaches:";
              ln "   - Approach A: Quick implementation, moderate results";
              ln "   - Approach B: Longer timeline, more comprehensive";
              "   - Approach C: Hybrid solution with phased delivery" ]
      else
        cat [ ln2 ("Additional research on '" +:+ task +:+ "':");
              ln "3. Detailed analysis of approaches:";
              ln "   - Approach A strengths: faster implementation, lower cost";
              ln "   - Approach B strengths: more complete solution, better long-term results";
              ln2 "   - Approach C strengths: balances time constraints with solution quality";
              ln "4. Related case studies:";
              ln "   - Case Study X demonstrated a 40% improvement using a hybrid approach";
              ln2 "   - Case Study Y showed technical challenges with rapid implementation";
              "5. Recommended approach based on research: Approach C (Hybrid solution)" ]
    else
      cat [ ln2 ("Research findings for task '" +:+ task +:+ "':");
            ln "The task requires balancing multiple factors including time, quality, and resources.";
            "Based on analysis, a flexible approach with regular evaluation points is recommended." ] in
  let messages := send_response RESEARCHER research current_iteration messages in
  set_current_agent (Some COORDINATOR) (set_messages messages state).

Definition critic_agent (state : MultiAgentState) : MultiAgentState :=
  let messages := messages state in
  let current_iteration := get_current_iteration state in
  let critique :=
    cat [ ln2 "Critique of the research:";
          ln "Strengths:";
          ln "- Good identification of multiple approaches";
          ln "- Consideration of stakeholder needs";
          ln2 "- Evidence-based recommendations";
          ln "Weaknesses:";
          ln "- Insufficient detail on implementation steps";
          ln "- Limited consideration of resource constraints";
          ln2 "- Missing risk assessment for each approach";
          ln "Suggestions for improvement:";
          ln "1. Develop a more detailed implementation plan for the hybrid approach";
          ln "2. Add a section on required resources and potential constraints";
          ln "3. Include a risk assessment and mitigation strategies";
          ln2 "4. Consider a phased implementation with clear milestones";
          "Recommended focus: Develop a phased implementation plan with risk mitigation strategies." ] in
  let messages := send_response CRITIC critique current_iteration messages in
  set_current_agent (Some COORDINATOR) (set_messages messages state).

Definition executor_agent (state : MultiAgentState) : MultiAgentState :=
  let messages := messages state in
  let current_iteration := get_current_iteration state in
  let task := task state in
  let solution :=
    cat [ ln2 ("Implementation plan for task '" +:+ task +:+ "':");
          ln "Phase 1: Setup and Initial Implementation (Weeks 1-2)";
          ln "- Action 1.1: Establish project team and roles";
          ln "- Action 1.2: Define success metrics and KPIs";
          ln "- Action 1.3: Set up basic infrastructure";
          ln2 "- Milestone: Basic framework operational";
          ln "Phase 2: Core Development (Weeks 3-6)";
          ln "- Action 2.1: Implement primary functionality";
          ln "- Action 2.2: Develop integration points";
          ln "- Action 2.3: Create monitoring system";
          ln2 "- Milestone: Core system operational";
          ln "Phase 3: Refinement and Expansion (Weeks 7-10)";
          ln "- Action 3.1: Add advanced features";
          ln "- Action 3.2: Optimize performance";
          ln "- Action 3.3: Implement feedback from early phases";
          ln2 "- Milestone: Complete solution deployed";
          ln "Risk Mitigation:";
          ln "- Risk 1: Resource constraints â†’ Prioritization framework established";
          ln "- Risk 2: Technical challenges â†’ Expert advisors identified";
          ln2 "- Risk 3: Timeline pressure â†’ Buffer periods built into schedule";
          ln "Required Resources:";
          ln "- Team: 1 project manager, 2 senior developers, 1 QA specialist";
          ln "- Infrastructure: Cloud hosting, CI/CD pipeline";
          "- Budget: Estimated at $X for initial 3 months" ] in
  let messages := send_response EXECUTOR solution current_iteration messages in
  set_current_agent (Some COORDINATOR) (set_messages messages state).

(** The metrics the Evaluator reports. *)
Definition evaluation_metrics : metrics :=
  [ ("comprehensiveness", 0.85%float);
    ("feasibility", 0.78%float);
    ("clarity", 0.91%float);
    ("risk_management", 0.72%float);
    ("resource_allocation", 0.80%float);
    ("overall_quality", 0.82%float) ].

Definition evaluator_agent (state : MultiAgentState) : MultiAgentState :=
  let messages := messages state in
  let current_iteration := get_current_iteration state in
  let evaluation := evaluation_metrics in
  let evaluation_text :=
    cat [ ln2 "Solution Evaluation:";
          ln "Strengths:";
          ln "- Well-structured phased approach";
          ln "- Clear milestones and deliverables";
          ln "- Good consideration of risks";
          ln2 "- Realistic timeline";
          ln "Areas for improvement:";
          ln "- More detail needed on specific technologies";
          ln "- Budget estimates could be more precise";
          ln2 "- Additional contingency planning recommended";
          ln "Metrics:";
          metric_lines fmt evaluation;
          overall_line fmt evaluation ] in
  let messages := send_response EVALUATOR evaluation_text current_iteration messages in
  (* Mark as complete *)
  set_convergence_score 1.0%float
    (set_evaluation evaluation (set_messages messages state)).

End Agents.

(** [router]: the next agent is the [current_agent] field. *)
Definition router (state : MultiAgentState) : option AgentRole :=
  current_agent state.

Definition decide_if_finished (state : MultiAgentState) : bool :=
  (* Check if we've reached a convergence score threshold *)
  if reaches_threshold (get_convergence_score state) then true
  else
    (* Check if we've done a complete final iteration *)
    let current_iteration := get_current_iteration state in
    let max_iterations := get_max_iterations state in
    if max_iterations <? current_iteration then
      (* Check if we have an evaluation *)
      if bool_decide (evaluation state <> None) then true else false
    else false.

(** The node table of [build_multi_agent_graph]: the function bound to each
    role by [graph.add_node]. *)
Definition node (time_time : nat -> float) (fmt : nat -> float -> string)
    (order : SetOrder) (role : AgentRole) : MultiAgentState -> MultiAgentState :=
  match role with
  | COORDINATOR => coordinator_agent time_time order
  | RESEARCHER => researcher_agent time_time
  | CRITIC => critic_agent time_time
  | EXECUTOR => executor_agent time_time
  | EVALUATOR => evaluator_agent time_time fmt
  end.

(** [initial_state] of [main]. *)
Definition initial_state (task : string) (iterations : Z) : MultiAgentState :=
  mkState task [] ∅ (Some COORDINATOR) (Some 0.0%float) None None
          (Some iterations) (Some 0).

(** The states a run can pass through: the nodes are invoked by the graph
    engine of LangGraph, which is not part of the repository; whatever order it
    picks, a run is a sequence of node invocations from the initial state. *)
Inductive invoked (time_time : nat -> float) (fmt : nat -> float -> string)
    (order : SetOrder) (task : string) (iterations : Z) : MultiAgentState -> Prop :=
  | invoked_initial :
      invoked time_time fmt order task iterations (initial_state task iterations)
  | invoked_node role state :
      invoked time_time fmt order task iterations state ->
      invoked time_time fmt order task iterations (node time_time fmt order role state).

End Lab.

(* ------------------------------------------------------------------------- *)
(** ** [Lessons/Chapter06/advanced_multi_agent.py] *)
(* ------------------------------------------------------------------------- *)

Module Adv.

(** [MultiAgentState].  An absent [current_agent] reads as [COORDINATOR] in
    [router] and is identified with it; no agent of this file stores anything
    but a role there. *)
Record MultiAgentState : Type := mkState {
  task : string;
  messages : list AgentMessage;
  artifacts : gmap string string;
  current_agent : AgentRole;
  current_phase : option string;
  convergence_score : option float;
  solution : option string;
  evaluation : option metrics;
  max_iterations : option Z;
  current_iteration : option Z
}.

(** [state[key] = value] *)
Definition set_messages (v : list AgentMessage) (s : MultiAgentState) :=
  mkState (task s) v (artifacts s) (current_agent s) (current_phase s)
          (convergence_score s) (solution s) (evaluation s) (max_iterations s)
          (current_iteration s).
Definition set_artifacts (v : gmap string string) (s : MultiAgentState) :=
  mkState (task s) (messages s) v (current_agent s) (current_phase s)
          (convergence_score s) (solution s) (evaluation s) (max_iterations s)
          (current_iteration s).
Definition set_current_agent (v : AgentRole) (s : MultiAgentState) :=
  mkState (task s) (messages s) (artifacts s) v (current_phase s)
          (convergence_score s) (solution s) (evaluation s) (max_iterations s)
          (current_iteration s).
Definition set_current_phase (v : string) (s : MultiAgentState) :=
  mkState (task s) (messages s) (artifacts s) (current_agent s) (Some v)
          (convergence_score s) (solution s) (evaluation s) (max_iterations s)
          (current_iteration s).
Definition set_convergence_score (v : float) (s : MultiAgentState) :=
  mkState (task s) (messages s) (artifacts s) (current_agent s) (current_phase s)
          (Some v) (solution s) (evaluation s) (max_iterations s)
          (current_iteration s).
Definition set_solution (v : string) (s : MultiAgentState) :=
  mkState (task s) (messages s) (artifacts s) (current_agent s) (current_phase s)
          (convergence_score s) (Some v) (evaluation s) (max_iterations s)
          (current_iteration s).
Definition set_evaluation (v : metrics) (s : MultiAgentState) :=
  mkState (task s) (messages s) (artifacts s) (current_agent s) (current_phase s)
          (convergence_score s) (solution s) (Some v) (max_iterations s)
          (current_iteration s).
Definition set_current_iteration (v : Z) (s : MultiAgentState) :=
  mkState (task s) (messages s) (artifacts s) (current_agent s) (current_phase s)
          (convergence_score s) (solution s) (evaluation s) (max_iterations s)
          (Some v).

(** [state.get("current_iteration", 0)] *)
Definition get_current_iteration (s : MultiAgentState) : Z :=
  default 0 (current_iteration s).
(** [state.get("max_iterations", 5)] *)
Definition get_max_iterations (s : MultiAgentState) : Z :=
  default 5 (max_iterations s).
(** [state.get("convergence_score", 0)] *)
Definition get_convergence_score (s : MultiAgentState) : float :=
  default 0%float (convergence_score s).

(** [state.get("current_phase") == "final_evaluation"] *)
Definition in_final_evaluation (s : MultiAgentState) : bool :=
  match current_phase s with
  | Some phase => String.eqb phase "final_evaluation"
  | None => false
  end.

Section Agents.

Variable time_time : nat -> float.
Variable fmt : nat -> float -> string.

(** [messages.append({...})] for a request of the Coordinator. *)
Definition send_request (to : AgentRole) (text : string) (it : Z)
    (messages : list AgentMessage) : list AgentMessage :=
  messages ++
  [mkMessage COORDINATOR (Some to) text (time_time (length messages)) "request" it].

(** [messages.append({...})] for a response sent back to the Coordinator. *)
Definition send_response (from : AgentRole) (text : string) (it : Z)
    (messages : list AgentMessage) : list AgentMessage :=
  messages ++
  [mkMessage from (Some COORDINATOR) text (time_time (length messages)) "response" (it - 1)].

Definition coordinator_agent (state : MultiAgentState) : MultiAgentState :=
  let current_iteration := get_current_iteration state in
  let max_iterations := get_max_iterations state in
  let messages := messages state in
  let artifacts := artifacts state in
  if current_iteration =? 0 then
    (* First iteration: initialize the task *)
    let task := task state in
    let artifacts := <["plan" := initial_plan]> artifacts in
    let messages :=
      send_request RESEARCHER ("Please research the following task: " +:+ task)
                   current_iteration messages in
    set_current_phase "research"
      (set_current_agent RESEARCHER
         (set_current_iteration (current_iteration + 1)
            (set_artifacts artifacts (set_messages messages state))))
  else if current_iteration <? max_iterations - 1 then
    (* Middle iterations: manage the process *)
    let phase := current_iteration mod 4 in
    let '(messages, state) :=
      if phase =? 0 then
        (* Research phase *)
        (send_request RESEARCHER
           "Please continue researching and provide additional information."
           current_iteration messages,
         set_current_phase "research" (set_current_agent RESEARCHER state))
      else if phase =? 1 then
        (* Critique phase *)
        let research := latest_content (from_with_type RESEARCHER "response") messages in
        (send_request CRITIC
           (ln2 "Please critique this research and suggest improvements:" +:+ research)
           current_iteration messages,
         set_current_phase "critique" (set_current_agent CRITIC state))
      else if phase =? 2 then
        (* Execution planning phase *)
        let critique := latest_content (from_with_type CRITIC "response") messages in
        (send_request EXECUTOR
           (ln2 "Based on our research and critique, please develop a solution:" +:+ critique)
           current_iteration messages,
         set_current_phase "execution" (set_current_agent EXECUTOR state))
      else
        (* Evaluation phase: early evaluation to gauge progress *)
        let execution_results :=
          contents_where (from_with_type EXECUTOR "response") messages in
        match rev execution_results with
        | latest_execution :: _ =>
            (send_request EVALUATOR
               (ln2 "Please evaluate this solution draft:" +:+ latest_execution)
               current_iteration messages,
             set_current_phase "evaluation" (set_current_agent EVALUATOR state))
        | [] =>
            (* Fallback if we don't have execution results yet *)
            (send_request RESEARCHER
               "Let's explore the problem space further. Please provide more detailed research."
               current_iteration messages,
             set_current_phase "research" (set_current_agent RESEARCHER state))
        end in
    set_current_iteration (current_iteration + 1) (set_messages messages state)
  else
    (* Final iteration: conclude the task *)
    let execution_results := contents_where (from_with_type EXECUTOR "response") messages in
    let solution :=
      ln2 "FINAL SOLUTION:" +:+
      match execution_results with
      | [] => "No solution developed."
      | _ :: _ => join nl (last_two execution_results)
      end in
    let messages :=
      send_request EVALUATOR (ln2 "Please evaluate this final solution:" +:+ solution)
                   current_iteration messages in
    set_current_phase "final_evaluation"
      (set_current_agent EVALUATOR
         (set_current_iteration (current_iteration + 1)
            (set_messages messages (set_solution solution state)))).

Definition researcher_agent (state : MultiAgentState) : MultiAgentState :=
  let task := task state in
  let messages := messages state in
  let current_iteration := get_current_iteration state in
  let research :=
    if contains "onboarding" (lower task) then
      if current_iteration <=? 1 then
        cat [ ln2 ("Initial research on '" +:+ task +:+ "':");
              ln "1. Key aspects of employee onboarding:";
              ln "   - Administrative processes (paperwork, IT setup, etc.)";
              ln "   - Cultural integration and company values communication";
              ln2 "   - Role-specific training and knowledge transfer";
              ln "2. Potential approaches:";
              ln "   - Approach A: Digital-first onboarding with minimal in-person components";
              ln "   - Approach B: High-touch mentorship model with extensive shadowing";
              "   - Approach C: Hybrid approach with digital tools and structured in-person activities" ]
      else
        cat [ ln2 ("Additional research on '" +:+ task +:+ "':");
              ln "3. Detailed analysis of approaches:";
              ln "   - Digital-first strengths: Scalability, consistency, self-paced learning";
              ln "   - Mentorship strengths: Better cultural integration, personalized experience";
              ln2 "   - Hybrid strengths: Balance of efficiency and personalization";
              ln "4. Industry benchmarks:";
              ln "   - Companies with similar hybrid systems report 65% faster time-to-productivity";
              ln2 "   - Retention rates improve 40% with structured mentorship components";
              "5. Recommended approach: Hybrid system with digital core and structured mentorship" ]
    else
      (* Generic research for other tasks *)
      if current_iteration <=? 1 then
        cat [ ln2 ("Initial research on '" +:+ task +:+ "':");
              ln "1. Key aspects of the problem:";
              ln "   - The problem involves multiple stakeholders";
              ln "   - There are technical and non-technical components";
              ln2 "   - Time constraints will affect the solution";
              ln "2. Potential approaches:";
              ln "   - Approach A: Quick implementation, moderate results";
              ln "   - Approach B: Longer timeline, more comprehensive";
              "   - Approach C: Hybrid solution with phased delivery" ]
      else
        cat [ ln2 ("Additional research on '" +:+ task +:+ "':");
              ln "3. Detailed analysis of approaches:";
              ln "   - Approach A strengths: faster implementation, lower cost";
              ln "   - Approach B strengths: more complete solution, better long-term results";
              ln2 "   - Approach C strengths: balances time constraints with solution quality";
              ln "4. Related case studies:";
              ln "   - Case Study X demonstrated a 40% improvement using a hybrid approach";
              ln2 "   - Case Study Y showed technical challenges with rapid implementation";
              "5. Recommended approach based on research: Approach C (Hybrid solution)" ] in
  let messages := send_response RESEARCHER research current_iteration messages in
  set_current_agent COORDINATOR (set_messages messages state).

Definition critic_agent (state : MultiAgentState) : MultiAgentState :=
  let messages := messages state in
  let current_iteration := get_current_iteration state in
  let task := task state in
  let critique :=
    if contains "onboarding" (lower task) then
      cat [ ln2 "Critique of the onboarding research:";
            ln "Strengths:";
            ln "- Comprehensive consideration of multiple onboarding dimensions";
            ln "- Evidence-based comparison of different approaches";
            ln2 "- Clear recommendations with supporting data";
            ln "Weaknesses:";
            ln "- Insufficient attention to department-specific needs";
            ln "- Limited discussion of cost implications and ROI";
            ln2 "- No consideration of remote vs. in-office employee differences";
            ln "Suggestions for improvement:";
            ln "1. Develop department-specific onboarding modules within the hybrid framework";
            ln "2. Add cost analysis for each approach with expected ROI calculations";
            ln "3. Include specific adaptations for remote employees";
            ln2 "4. Consider phased implementation timeline with clear milestones";
            "Recommended focus: Develop a customizable hybrid system with clear ROI metrics and remote employee considerations." ]
    else
      (* Generic critique for other tasks *)
      cat [ ln2 "Critique of the research:";
            ln "Strengths:";
            ln "- Good identification of multiple approaches";
            ln "- Consideration of stakeholder needs";
            ln2 "- Evidence-based recommendations";
            ln "Weaknesses:";
            ln "- Insufficient detail on implementation steps";
            ln "- Limited consideration of resource constraints";
            ln2 "- Missing risk assessment for each approach";
            ln "Suggestions for improvement:";
            ln "1. Develop a more detailed implementation plan for the hybrid approach";
            ln "2. Add a section on required resources and potential constraints";
            ln "3. Include a risk assessment and mitigation strategies";
            ln2 "4. Consider a phased implementation with clear milestones";
            "Recommended focus: Develop a phased implementation plan with risk mitigation strategies." ] in
  let messages := send_response CRITIC critique current_iteration messages in
  set_current_agent COORDINATOR (set_messages messages state).

Definition executor_agent (state : MultiAgentState) : MultiAgentState :=
  let messages := messages state in
  let current_iteration := get_current_iteration state in
  let task := task state in
  let solution :=
    if contains "onboarding" (lower task) then
      cat [ ln2 "Implementation plan for employee onboarding system:";
            ln "Phase 1: Digital Foundation (Weeks 1-4)";
            ln "- Action 1.1: Select and customize digital onboarding platform";
            ln "- Action 1.2: Develop core modules (company overview, policies, benefits)";
            ln "- Action 1.3: Create department-specific content templates";
            ln "- Action 1.4: Set up automated workflows for paperwork and IT provisioning";
            ln2 "- Milestone: Digital platform ready for initial testing";
            ln "Phase 2: Mentorship Structure (Weeks 5-8)";
            ln "- Action 2.1: Develop mentor selection criteria and training";
            ln "- Action 2.2: Create structured shadowing schedules by department";
            ln "- Action 2.3: Build check-in templates and milestone tracking";
            ln "- Action 2.4: Implement feedback mechanisms for continuous improvement";
            ln2 "- Milestone: Mentorship program documented and ready for launch";
            ln "Phase 3: Integration and Rollout (Weeks 9-12)";
            ln "- Action 3.1: Integrate digital platform with mentorship program";
            ln "- Action 3.2: Pilot with 5 new hires across departments";
            ln "- Action 3.3: Refine based on feedback";
            ln "- Action 3.4: Full deployment with ongoing monitoring";
            ln2 "- Milestone: Complete system deployed company-wide";
            ln "Special Adaptations for Remote Employees:";
            ln "- Virtual office tours and team introductions";
            ln "- Scheduled video check-ins to replace in-person shadowing";
            ln2 "- Digital collaboration tools training";
            ln "Cost and ROI:";
            ln "- Implementation cost: $X for platform, $Y for staff time";
            "- Expected ROI: 35% reduction in time-to-productivity, 25% improvement in 90-day retention" ]
    else
      (* Generic solution for other tasks *)
      cat [ ln2 ("Implementation plan for '" +:+ task +:+ "':");
            ln "Phase 1: Setup and Initial Implementation (Weeks 1-2)";
            ln "- Action 1.1: Establish project team and roles";
            ln "- Action 1.2: Define success metrics and KPIs";
            ln "- Action 1.3: Set up basic infrastructure";
            ln2 "- Milestone: Basic framework operational";
            ln "Phase 2: Core Development (Weeks 3-6)";
            ln "- Action 2.1: Implement primary functionality";
            ln "- Action 2.2: Develop integration points";
            ln "- Action 2.3: Create monitoring system";
            ln2 "- Milestone: Core system operational";
            ln "Phase 3: Refinement and Expansion (Weeks 7-10)";
            ln "- Action 3.1: Add advanced features";
            ln "- Action 3.2: Optimize performance";
            ln "- Action 3.3: Implement feedback from early phases";
            ln2 "- Milestone: Complete solution deployed";
            ln "Risk Mitigation:";
            ln "- Risk 1: Resource constraints → Prioritization framework established";
            ln "- Risk 2: Technical challenges → Expert advisors identified";
            "- Risk 3: Timeline pressure → Buffer periods built into schedule" ] in
  let messages := send_response EXECUTOR solution current_iteration messages in
  set_current_agent COORDINATOR (set_messages messages state).

(** The metrics the Evaluator reports for an onboarding task, and for any other. *)
Definition onboarding_metrics : metrics :=
  [ ("comprehensiveness", 0.88%float);
    ("feasibility", 0.82%float);
    ("clarity", 0.90%float);
    ("cost_effectiveness", 0.75%float);
    ("adaptability", 0.85%float);
    ("overall_quality", 0.84%float) ].

Definition generic_metrics : metrics :=
  [ ("comprehensiveness", 0.85%float);
    ("feasibility", 0.78%float);
    ("clarity", 0.91%float);
    ("risk_management", 0.72%float);
    ("resource_allocation", 0.80%float);
    ("overall_quality", 0.82%float) ].

Definition evaluator_agent (state : MultiAgentState) : MultiAgentState :=
  let messages := messages state in
  let current_iteration := get_current_iteration state in
  let task := task state in
  (* Generate evaluation metrics *)
  let evaluation :=
    if contains "onboarding" (lower task) then onboarding_metrics else generic_metrics in
  (* Generate evaluation text *)
  let evaluation_text :=
    cat [ ln2 "Solution Evaluation:";
          if contains "onboarding" (lower task) then
            cat [ ln "Strengths:";
                  ln "- Comprehensive phased approach with clear milestones";
                  ln "- Good balance of digital and human elements";
                  ln "- Specific adaptations for remote employees";
                  ln2 "- Clear ROI metrics identified";
                  ln "Areas for improvement:";
                  ln "- Consider adding cross-departmental collaboration opportunities";
                  ln "- More detail needed on mentor selection and training";
                  ln2 "- Consider long-term maintenance of the system" ]
          else
            cat [ ln "Strengths:";
                  ln "- Well-structured phased approach";
                  ln "- Clear milestones and deliverables";
                  ln2 "- Good consideration of risks";
                  ln "Areas for improvement:";
                  ln "- More detail needed on specific technologies";
                  ln "- Budget estimates could be more precise";
                  ln2 "- Additional contingency planning recommended" ];
          ln "Metrics:";
          metric_lines fmt evaluation;
          overall_line fmt evaluation ] in
  let messages := send_response EVALUATOR evaluation_text current_iteration messages in
  (* Set convergence score based on current phase:
     if we're in the final evaluation, mark as complete *)
  let convergence_score :=
    if in_final_evaluation state then 1.0%float else 0.5%float in
  set_current_agent COORDINATOR
    (set_convergence_score convergence_score
       (set_evaluation evaluation (set_messages messages state))).

End Agents.

(** [router]: the next agent is the [current_agent] field. *)
Definition router (state : MultiAgentState) : AgentRole :=
  current_agent state.

Definition decide_if_finished (state : MultiAgentState) : bool :=
  (* Check if we've reached a convergence score threshold *)
  if reaches_threshold (get_convergence_score state) then true
  (* Check if we've done a complete final iteration *)
  else if get_max_iterations state <=? get_current_iteration state then true
  else false.

(** The state [run_multi_agent_system] starts from. *)
Definition initial_state (task : string) (max_iterations : Z) : MultiAgentState :=
  mkState task [] ∅ COORDINATOR None None None None (Some max_iterations) (Some 0).

(** One pass through the body of the [while] loop: the agent [router] names
    takes its turn. *)
Definition turn (time_time : nat -> float) (fmt : nat -> float -> string)
    (current_state : MultiAgentState) : MultiAgentState :=
  match router current_state with
  | COORDINATOR => coordinator_agent time_time current_state
  | RESEARCHER => researcher_agent time_time current_state
  | CRITIC => critic_agent time_time current_state
  | EXECUTOR => executor_agent time_time current_state
  | EVALUATOR => evaluator_agent time_time fmt current_state
  end.

(** [while not decide_if_finished(current_state): ...], with the number of
    passes bounded by [fuel]; [None] when the fuel runs out before the loop
    exits.  Next to the state the loop records, in order, the roles that took
    a turn (a ghost trace, not part of the Python state). *)
Fixpoint run_loop (time_time : nat -> float) (fmt : nat -> float -> string)
    (fuel : nat) (current_state : MultiAgentState) (trace : list AgentRole)
  : option (MultiAgentState * list AgentRole) :=
  if decide_if_finished current_state then Some (current_state, trace)
  else
    match fuel with
    | O => None
    | S fuel' =>
        run_loop time_time fmt fuel' (turn time_time fmt current_state)
                 (trace ++ [router current_state])
    end.

(** The class [StateGraph] of LangGraph, as far as [build_multi_agent_graph]
    uses it: the constructor and the methods it calls, each at the arguments of
    its call site.  The class is library code, outside the repository, and a
    parameter here; a method mutates the graph, so it maps the graph to the graph
    after the call, or raises. *)
Record StateGraphClass : Type := mkStateGraphClass {
  graph : Type;
  (** [StateGraph(MultiAgentState)] *)
  new_graph : outcome graph;
  (** [g.add_node(role, agent)] *)
  add_node : AgentRole -> graph -> outcome graph;
  (** [g.add_conditional_edges(AgentRole.COORDINATOR, router, {...})] *)
  add_conditional_edges : graph -> outcome graph;
  (** [g.add_edge(start, end)] *)
  add_edge : AgentRole -> AgentRole -> graph -> outcome graph;
  (** [g.set_entry_point(role)] *)
  set_entry_point : AgentRole -> graph -> outcome graph;
  (** [g.add_edge(AgentRole.COORDINATOR, "end", decide_if_finished)], the call
      with three arguments *)
  add_edge_to_end : graph -> outcome graph
}.

(** What the name [StateGraph] is bound to when the module has been loaded: the
    class of LangGraph, or [object] when the import failed
    ([StateGraph = object]). *)
Inductive StateGraph_binding : Type :=
  | imported (langgraph : StateGraphClass)
  | placeholder.

Definition graph_of (StateGraph : StateGraph_binding) : Type :=
  match StateGraph with
  | imported langgraph => graph langgraph
  | placeholder => Empty_set
  end.

(** [build_multi_agent_graph()].  With the placeholder the first statement is
    [object(MultiAgentState)], and [object] takes no arguments. *)
Definition build_multi_agent_graph (StateGraph : StateGraph_binding)
  : outcome (graph_of StateGraph) :=
  match StateGraph return outcome (graph_of StateGraph) with
  | placeholder => Raised TypeError
  | imported langgraph =>
      g ← new_graph langgraph;
      (* Add all agent nodes *)
      g ← add_node langgraph COORDINATOR g;
      g ← add_node langgraph RESEARCHER g;
      g ← add_node langgraph CRITIC g;
      g ← add_node langgraph EXECUTOR g;
      g ← add_node langgraph EVALUATOR g;
      (* Connect via dynamic routing *)
      g ← add_conditional_edges langgraph g;
      (* All other agents return to coordinator *)
      g ← add_edge langgraph RESEARCHER COORDINATOR g;
      g ← add_edge langgraph CRITIC COORDINATOR g;
      g ← add_edge langgraph EXECUTOR COORDINATOR g;
      g ← add_edge langgraph EVALUATOR COORDINATOR g;
      (* Set entry and terminal state *)
      g ← set_entry_point langgraph COORDINATOR g;
      g ← add_edge_to_end langgraph g;
      mret g
  end.

(** [run_multi_agent_system(task, max_iterations)]: the initial state, the call
    of [build_multi_agent_graph], whose exception is not caught, then the
    [while] loop; the graph is not used by the loop and the summary is only
    printed.  [None] when the fuel of the loop runs out. *)
Definition run_multi_agent_system (time_time : nat -> float)
    (fmt : nat -> float -> string) (StateGraph : StateGraph_binding)
    (fuel : nat) (task : string) (max_iterations : Z)
  : option (outcome (MultiAgentState * list AgentRole)) :=
  let state := initial_state task max_iterations in
  match build_multi_agent_graph StateGraph with
  | Raised error => Some (Raised error)
  | Returned graph =>
      match run_loop time_time fmt fuel state [] with
      | Some result => Some (Returned result)
      | None => None
      end
  end.

(** The number of turns the Coordinator took. *)
Definition coordinator_turns (trace : list AgentRole) : nat :=
  length (List.filter (fun r => bool_decide (r = COORDINATOR)) trace).

(** The node table of [build_multi_agent_graph]: the function bound to each
    role by [g.add_node]. *)
Definition node (time_time : nat -> float) (fmt : nat -> float -> string)
    (role : AgentRole) : MultiAgentState -> MultiAgentState :=
  match role with
  | COORDINATOR => coordinator_agent time_time
  | RESEARCHER => researcher_agent time_time
  | CRITIC => critic_agent time_time
  | EXECUTOR => executor_agent time_time
  | EVALUATOR => evaluator_agent time_time fmt
  end.

(** The states the [while] loop of [run_multi_agent_system] passes through. *)
Inductive visited (time_time : nat -> float) (fmt : nat -> float -> string)
    (task : string) (max_iterations : Z) : MultiAgentState -> Prop :=
  | visited_initial :
      visited time_time fmt task max_iterations (initial_state task max_iterations)
  | visited_turn state :
      visited time_time fmt task max_iterations state ->
      decide_if_finished state = false ->
      visited time_time fmt task max_iterations (turn time_time fmt state).

End Adv.

(* ------------------------------------------------------------------------- *)
(** ** Vocabulary of the properties *)
(* ------------------------------------------------------------------------- *)

(** Oracles used where a statement is evaluated on a concrete input: a clock
    that always reads [0.0], a number format that prints nothing, and the
    iteration order [elements] for sets. *)
Definition clock0 : nat -> float := fun _ => 0%float.
Definition fmt0 : nat -> float -> string := fun _ _ => "".
Definition order0 : SetOrder := mkSetOrder elements (fun X => reflexivity (elements X)).

(** The three branches of the Coordinator. *)
Variant coordinator_branch : Type := Bootstrap | Middle | Final.

Definition adv_branch (s : Adv.MultiAgentState) : coordinator_branch :=
  if Adv.get_current_iteration s =? 0 then Bootstrap
  else if Adv.get_current_iteration s <? Adv.get_max_iterations s - 1 then Middle
  else Final.

Definition lab_branch (s : Lab.MultiAgentState) : coordinator_branch :=
  if Lab.get_current_iteration s =? 0 then Bootstrap
  else if Lab.get_current_iteration s <? Lab.get_max_iterations s - 1 then Middle
  else Final.

(** The response [from] appends to the log of [s]. *)
Definition adv_response (time_time : nat -> float) (from : AgentRole) (text : string) (s : Adv.MultiAgentState)
  : AgentMessage :=
  mkMessage from (Some COORDINATOR) text (time_time (length (Adv.messages s)))
            "response" (Adv.get_current_iteration s - 1).

(** The request the Coordinator appends to the log of [s]. *)
Definition adv_request (time_time : nat -> float) (to : AgentRole) (text : string) (s : Adv.MultiAgentState)
  : AgentMessage :=
  mkMessage COORDINATOR (Some to) text (time_time (length (Adv.messages s)))
            "request" (Adv.get_current_iteration s).

(** The response [from] appends to the log of [s]. *)
Definition lab_response (time_time : nat -> float) (from : AgentRole) (text : string) (s : Lab.MultiAgentState)
  : AgentMessage :=
  mkMessage from (Some COORDINATOR) text (time_time (length (Lab.messages s)))
            "response" (Lab.get_current_iteration s - 1).

(** A request of the Coordinator tagged with the iteration [it]. *)
Definition request_at (it : Z) (m : AgentMessage) : Prop :=
  from_agent m = COORDINATOR /\ msg_type m = "request" /\ iteration m = it.

(** A response of [role], addressed to the Coordinator. *)
Definition response_of (role : AgentRole) (m : AgentMessage) : Prop :=
  msg_type m = "response" /\ from_agent m = role /\ to_agent m = Some COORDINATOR.

(** The messages of the previous iteration, as the Coordinator selects them. *)
Definition lab_recent (s : Lab.MultiAgentState) : list AgentMessage :=
  with_iteration (Lab.get_current_iteration s - 1) (Lab.messages s).

(** The roles whose answer the Coordinator finds missing, in the order it
    iterates over them. *)
Definition lab_missing (order : SetOrder) (s : Lab.MultiAgentState) : list (option AgentRole) :=
  set_iter order (Lab.needed_responses (lab_recent s) ∖ Lab.received_responses (lab_recent s)).

(** What holds of every state of a run with budget [m], at iteration [k]: the
    score is absent or [0.5], and the phase is not the final evaluation while
    the budget lasts. *)
Definition within_budget (m k : Z) (s : Adv.MultiAgentState) : Prop :=
  Adv.max_iterations s = Some m /\
  Adv.current_iteration s = Some k /\
  (Adv.convergence_score s = None \/ Adv.convergence_score s = Some 0.5%float) /\
  (k < m -> Adv.in_final_evaluation s = false).

(** The Executor responses of a log, oldest first. *)
Definition executor_responses (messages : list AgentMessage) : list string :=
  contents_where (from_with_type EXECUTOR "response") messages.

(** What the claim says of the draft solution: the fixed header, followed by
    the most recent two Executor responses (one, if there is only one), or by
    the fixed text when there is none. *)
Definition is_final_draft (messages : list AgentMessage) (solution : option string) : Prop :=
  let header := "FINAL SOLUTION:" +:+ nl +:+ nl in
  (executor_responses messages = [] ->
   solution = Some (header +:+ "No solution developed.")) /\
  (forall only, executor_responses messages = [only] ->
   solution = Some (header +:+ only)) /\
  (forall older previous latest,
     executor_responses messages = older ++ [previous; latest] ->
     solution = Some (header +:+ previous +:+ nl +:+ latest)).

(** What it means for a log to have grown only at its end. *)
Definition extends (before after : list AgentMessage) : Prop :=
  (exists new, after = before ++ new) /\
  (forall i m, before !! i = Some m -> after !! i = Some m) /\
  (length before <= length after)%nat.

(** The tags of one cycle: the Coordinator takes its turn on [log] at
    iteration [k], a worker answers, and the Coordinator is up again at
    iteration [k']. *)
Definition cycle_is_tagged (k k' : Z) (log log' : list AgentMessage)
    (worker : AgentRole) : Prop :=
  exists requests response,
    log' = (log ++ requests) ++ [response] /\
    Forall (request_at k) requests /\
    response_of worker response /\
    iteration response = k' - 1 /\
    Forall (fun request => iteration response = iteration request) requests /\
    with_iteration (k' - 1) log' = requests ++ [response] /\
    Forall (fun m => iteration m < k') log'.

(** [a <= b] on scores. *)
Definition score_le (a b : float) : Prop := PrimFloat.leb a b = true.

(** The log of [s] has all its tags below the iteration counter. *)
Definition tags_below_counter (s : Lab.MultiAgentState) : Prop :=
  Forall (fun m => iteration m < Lab.get_current_iteration s) (Lab.messages s).

(** Every message of the log carries a tag that is at most the tag of every
    later message. *)
Definition tags_in_order (log : list AgentMessage) : Prop :=
  StronglySorted (fun earlier later => iteration earlier <= iteration later) log.

(** A trace in which the Coordinator and the other agents take turns, the
    Coordinator first and last. *)
Inductive alternates : list AgentRole -> Prop :=
  | alternates_last : alternates [COORDINATOR]
  | alternates_cycle worker rest :
      worker <> COORDINATOR -> alternates rest ->
      alternates (COORDINATOR :: worker :: rest).

(** Where a run of the advanced file with budget [m] stands on its way to the
    first evaluation: the Executor is asked at iteration 2 and its response is
    in the log when the Coordinator is up at iteration 3, the Evaluator is asked
    at iteration 3, and an evaluation is stored from then on. *)
Definition staged (m : Z) (s : Adv.MultiAgentState) : Prop :=
  exists k,
    within_budget m k s /\ 0 <= k /\
    (Adv.convergence_score s = None <-> Adv.evaluation s = None) /\
    (k < m -> Adv.current_agent s = COORDINATOR ->
     (k = 3 -> executor_responses (Adv.messages s) <> []) /\
     (Adv.evaluation s <> None <-> 4 <= k)) /\
    (k < m -> Adv.current_agent s <> COORDINATOR ->
     (k = 3 -> Adv.current_agent s = EXECUTOR) /\
     (k = 4 -> Adv.current_agent s = EVALUATOR) /\
     (Adv.current_agent s = EVALUATOR -> 4 <= k) /\
     (Adv.evaluation s <> None <-> 5 <= k)).

(** [text] is the content of the last message of [log] that satisfies [p], or
    the empty string when no message does. *)
Definition most_recent (p : AgentMessage -> bool) (log : list AgentMessage)
    (text : string) : Prop :=
  (exists before m after,
     log = before ++ m :: after /\ p m = true /\
     Forall (fun x => p x = false) after /\ text = content m) \/
  (Forall (fun x => p x = false) log /\ text = "").

(** [request] asks [to] and reads [heading], a blank line, and the most recent
    response of [quoted] in [log] (nothing, when there is none). *)
Definition quotes_latest (request : AgentMessage) (to quoted : AgentRole)
    (heading : string) (log : list AgentMessage) : Prop :=
  to_agent request = Some to /\
  exists quote,
    content request = heading +:+ nl +:+ nl +:+ quote /\
    most_recent (from_with_type quoted "response") log quote.

(** The worker of a phase: the order in which the advanced file cycles through
    the roles. *)
Definition phase_role (phase : Z) : AgentRole :=
  if phase =? 0 then RESEARCHER
  else if phase =? 1 then CRITIC
  else if phase =? 2 then EXECUTOR
  else EVALUATOR.

(** Where a run of the advanced file with budget [m] stands in its cycle: a
    worker that is up answers the request of iteration [k - 1] and is the worker
    of phase [(k - 1) mod 4]; from iteration 3 on the log holds an Executor
    response. *)
Definition in_rotation (m : Z) (s : Adv.MultiAgentState) : Prop :=
  exists k,
    within_budget m k s /\ 0 <= k /\
    (k < m -> Adv.current_agent s = COORDINATOR ->
     3 <= k -> executor_responses (Adv.messages s) <> []) /\
    (k < m -> Adv.current_agent s <> COORDINATOR ->
     1 <= k /\
     Adv.current_agent s = phase_role ((k - 1) mod 4) /\
     (4 <= k -> executor_responses (Adv.messages s) <> [])).

(** *** Sample inputs *)

(** A lab state whose iteration budget is used up, and the same state one
    iteration later with and without an evaluation. *)
Definition lab_at (current_iteration : Z) (evaluation : option metrics)
  : Lab.MultiAgentState :=
  Lab.mkState "X" [] ∅ (Some COORDINATOR) (Some 0%float) None evaluation
              (Some 5) (Some current_iteration).

Definition sample_message (from : AgentRole) (to : AgentRole) (text kind : string)
    (it : Z) : AgentMessage :=
  mkMessage from (Some to) text 0%float kind it.

(** A log with three Executor responses among other messages. *)
Definition drafted_log : list AgentMessage :=
  [ sample_message COORDINATOR EXECUTOR "draft" "request" 0;
    sample_message EXECUTOR COORDINATOR "plan A" "response" 0;
    sample_message EXECUTOR COORDINATOR "plan B" "response" 1;
    sample_message CRITIC COORDINATOR "too vague" "response" 1;
    sample_message EXECUTOR COORDINATOR "plan C" "response" 2 ].

Definition lab_sample (max_iterations current_iteration : Z) : Lab.MultiAgentState :=
  Lab.mkState "X" drafted_log ∅ (Some COORDINATOR) (Some 0%float) None None
              (Some max_iterations) (Some current_iteration).

Definition adv_sample (max_iterations current_iteration : Z) : Adv.MultiAgentState :=
  Adv.mkState "X" drafted_log ∅ COORDINATOR None None None None
              (Some max_iterations) (Some current_iteration).

(** The lab state after the first turn of the Coordinator, and after the
    Researcher has answered it. *)
Definition lab_asked : Lab.MultiAgentState :=
  Lab.coordinator_agent clock0 order0 (Lab.initial_state "X" 5).

Definition lab_answered : Lab.MultiAgentState :=
  Lab.researcher_agent clock0 lab_asked.

(* ------------------------------------------------------------------------- *)
(** A class in the shape of LangGraph's: a graph is the list of the calls made
    on it, every call is accepted, but [add_edge] takes two arguments, so the
    call with three raises. *)
Definition two_argument_edges : Adv.StateGraphClass :=
  {| Adv.graph := list string;
     Adv.new_graph := Returned [];
     Adv.add_node := fun _ g => Returned (g ++ ["add_node"]);
     Adv.add_conditional_edges := fun g => Returned (g ++ ["add_conditional_edges"]);
     Adv.add_edge := fun _ _ g => Returned (g ++ ["add_edge"]);
     Adv.set_entry_point := fun _ g => Returned (g ++ ["set_entry_point"]);
     Adv.add_edge_to_end := fun _ => Raised TypeError |}.

(** * Properties *)
(* ------------------------------------------------------------------------- *)

(** ** The termination predicate *)

Lemma reaches_threshold_half : reaches_threshold 0.5%float = false.
Proof. reflexivity. Qed.

Lemma reaches_threshold_one : reaches_threshold 1.0%float = true.
Proof. reflexivity. Qed.

Lemma reaches_threshold_zero : reaches_threshold 0%float = false.
Proof. reflexivity. Qed.

Lemma adv_decide_if_finished_iff (s : Adv.MultiAgentState) :
  Adv.decide_if_finished s = true <->
  reaches_threshold (Adv.get_convergence_score s) = true \/
  Adv.get_max_iterations s <= Adv.get_current_iteration s.
Proof.
  unfold Adv.decide_if_finished.
  destruct (reaches_threshold (Adv.get_convergence_score s)); [tauto|].
  destruct (Z.leb_spec (Adv.get_max_iterations s) (Adv.get_current_iteration s)).
  - tauto.
  - split; [discriminate|]. intros [?|?]; [discriminate|lia].
Qed.

Lemma lab_decide_if_finished_iff (s : Lab.MultiAgentState) :
  Lab.decide_if_finished s = true <->
  reaches_threshold (Lab.get_convergence_score s) = true \/
  (Lab.get_max_iterations s < Lab.get_current_iteration s /\ Lab.evaluation s <> None).
Proof.
  unfold Lab.decide_if_finished.
  destruct (reaches_threshold (Lab.get_convergence_score s)); [tauto|].
  destruct (Z.ltb_spec (Lab.get_max_iterations s) (Lab.get_current_iteration s)).
  - case_bool_decide; split; try tauto; discriminate.
  - split; [discriminate|]. intros [?|[? _]]; [discriminate|lia].
Qed.

(** C1, counterexample: in the lab file a state with
    [current_iteration >= max_iterations] is not finished (the test is strict),
    and past the budget the result depends on the presence of an evaluation. *)
Lemma lab_decide_if_finished_counterexample :
  (Lab.get_max_iterations (lab_at 5 None) <= Lab.get_current_iteration (lab_at 5 None) /\
   reaches_threshold (Lab.get_convergence_score (lab_at 5 None)) = false /\
   Lab.decide_if_finished (lab_at 5 None) = false) /\
  (Lab.decide_if_finished (lab_at 6 None) = false /\
   Lab.decide_if_finished (lab_at 6 (Some Lab.evaluation_metrics)) = true).
Proof. repeat split; vm_compute; congruence. Qed.

(** C1, as amended: in the advanced file [decide_if_finished] is true exactly
    when [convergence_score >= 0.9] or [current_iteration >= max_iterations],
    and nothing else is read; in the lab file it is true exactly when
    [convergence_score >= 0.9], or [current_iteration > max_iterations] and an
    evaluation is present. *)
Theorem decide_if_finished_iff :
  (forall s : Adv.MultiAgentState,
      Adv.decide_if_finished s = true <->
      reaches_threshold (Adv.get_convergence_score s) = true \/
      Adv.get_max_iterations s <= Adv.get_current_iteration s) /\
  (forall s : Lab.MultiAgentState,
      Lab.decide_if_finished s = true <->
      reaches_threshold (Lab.get_convergence_score s) = true \/
      (Lab.get_max_iterations s < Lab.get_current_iteration s /\
       Lab.evaluation s <> None)).
Proof. split; [exact adv_decide_if_finished_iff | exact lab_decide_if_finished_iff]. Qed.

(** ** One turn of each agent, advanced file *)

Section AdvTurns.

Context (time_time : nat -> float) (fmt : nat -> float -> string).

Abbreviation coordinator_agent := (Adv.coordinator_agent time_time).
Abbreviation researcher_agent := (Adv.researcher_agent time_time).
Abbreviation critic_agent := (Adv.critic_agent time_time).
Abbreviation executor_agent := (Adv.executor_agent time_time).
Abbreviation evaluator_agent := (Adv.evaluator_agent time_time fmt).

Lemma adv_researcher_turn s :
  exists text,
    researcher_agent s =
    Adv.set_current_agent COORDINATOR
      (Adv.set_messages (Adv.messages s ++ [adv_response time_time RESEARCHER text s]) s).
Proof. eexists. reflexivity. Qed.

Lemma adv_critic_turn s :
  exists text,
    critic_agent s =
    Adv.set_current_agent COORDINATOR
      (Adv.set_messages (Adv.messages s ++ [adv_response time_time CRITIC text s]) s).
Proof. eexists. reflexivity. Qed.

Lemma adv_executor_turn s :
  exists text,
    executor_agent s =
    Adv.set_current_agent COORDINATOR
      (Adv.set_messages (Adv.messages s ++ [adv_response time_time EXECUTOR text s]) s).
Proof. eexists. reflexivity. Qed.

Lemma adv_evaluator_turn s :
  exists text metrics,
    evaluator_agent s =
    Adv.set_current_agent COORDINATOR
      (Adv.set_convergence_score
         (if Adv.in_final_evaluation s then 1.0%float else 0.5%float)
         (Adv.set_evaluation metrics
            (Adv.set_messages (Adv.messages s ++ [adv_response time_time EVALUATOR text s]) s))).
Proof. eexists. eexists. reflexivity. Qed.

(** Splits a goal about [coordinator_agent s] along the branches of its
    source, down to the four phases of a middle iteration. *)
Ltac adv_coordinator_cases s :=
  unfold Adv.coordinator_agent, adv_branch in *; cbv zeta;
  destruct (Adv.get_current_iteration s =? 0) eqn:Hboot;
  [ | destruct (Adv.get_current_iteration s <? Adv.get_max_iterations s - 1) eqn:Hmid;
      [ destruct (Adv.get_current_iteration s mod 4 =? 0) eqn:Hp0;
        [ | destruct (Adv.get_current_iteration s mod 4 =? 1) eqn:Hp1;
            [ | destruct (Adv.get_current_iteration s mod 4 =? 2) eqn:Hp2;
                [ | destruct (rev (contents_where (from_with_type EXECUTOR "response")
                                                  (Adv.messages s))) eqn:Hexec ] ] ]
      | ] ].

Lemma adv_coordinator_request s :
  exists to text,
    Adv.messages (coordinator_agent s) = Adv.messages s ++ [adv_request time_time to text s] /\
    Adv.current_agent (coordinator_agent s) = to /\
    to <> COORDINATOR.
Proof.
  adv_coordinator_cases s; eexists; eexists; (split; [reflexivity | split; [reflexivity | discriminate]]).
Qed.

Lemma adv_coordinator_iteration s :
  Adv.current_iteration (coordinator_agent s) = Some (Adv.get_current_iteration s + 1).
Proof. adv_coordinator_cases s; reflexivity. Qed.

Lemma adv_coordinator_frame s :
  Adv.convergence_score (coordinator_agent s) = Adv.convergence_score s /\
  Adv.max_iterations (coordinator_agent s) = Adv.max_iterations s /\
  Adv.evaluation (coordinator_agent s) = Adv.evaluation s /\
  Adv.task (coordinator_agent s) = Adv.task s.
Proof. adv_coordinator_cases s; repeat split; reflexivity. Qed.

Lemma adv_coordinator_phase s :
  Adv.in_final_evaluation (coordinator_agent s) =
  match adv_branch s with Final => true | _ => false end.
Proof. adv_coordinator_cases s; reflexivity. Qed.

End AdvTurns.

(** ** The orchestration loop of the advanced file *)

Section AdvRun.

Context (time_time : nat -> float) (fmt : nat -> float -> string).

Abbreviation turn := (Adv.turn time_time fmt).
Abbreviation run_loop := (Adv.run_loop time_time fmt).

Lemma within_budget_score m k s :
  within_budget m k s -> reaches_threshold (Adv.get_convergence_score s) = false.
Proof.
  intros (_ & _ & [H|H] & _); unfold Adv.get_convergence_score; rewrite H; reflexivity.
Qed.

Lemma within_budget_finished m k s :
  within_budget m k s -> Adv.decide_if_finished s = (m <=? k).
Proof.
  intros H. unfold Adv.decide_if_finished.
  rewrite (within_budget_score _ _ _ H).
  destruct H as (Hm & Hk & _).
  unfold Adv.get_max_iterations, Adv.get_current_iteration. rewrite Hm, Hk. cbn.
  by destruct (m <=? k).
Qed.

Lemma within_budget_initial task m : within_budget m 0 (Adv.initial_state task m).
Proof. repeat split; auto. Qed.

Lemma within_budget_coordinator m k s :
  within_budget m k s -> 0 <= k < m ->
  within_budget m (k + 1) (Adv.coordinator_agent time_time s).
Proof.
  intros (Hm & Hk & Hs & _) Hlt.
  destruct (adv_coordinator_frame time_time s) as (Fs & Fm & _).
  assert (Hit : Adv.get_current_iteration s = k)
    by (unfold Adv.get_current_iteration; by rewrite Hk).
  assert (Hmax : Adv.get_max_iterations s = m)
    by (unfold Adv.get_max_iterations; by rewrite Hm).
  repeat split.
  - by rewrite Fm.
  - by rewrite adv_coordinator_iteration, Hit.
  - by rewrite Fs.
  - intros Hnext. rewrite adv_coordinator_phase. unfold adv_branch.
    rewrite Hit, Hmax.
    destruct (Z.eqb_spec k 0); [done|].
    destruct (Z.ltb_spec k (m - 1)); [done|lia].
Qed.

Lemma within_budget_worker m k s :
  within_budget m k s -> k < m -> Adv.current_agent s <> COORDINATOR ->
  within_budget m k (turn s) /\ Adv.current_agent (turn s) = COORDINATOR.
Proof.
  intros (Hm & Hk & Hs & Hp) Hlt Hagent. specialize (Hp Hlt).
  unfold Adv.turn, Adv.router.
  destruct (Adv.current_agent s) eqn:Hrole; [done|..].
  - destruct (adv_researcher_turn time_time s) as [? ->]. by repeat split.
  - destruct (adv_critic_turn time_time s) as [? ->]. by repeat split.
  - destruct (adv_executor_turn time_time s) as [? ->]. by repeat split.
  - destruct (adv_evaluator_turn time_time fmt s) as (? & ? & ->).
    rewrite Hp. repeat split; auto.
Qed.

(** More fuel does not change the result of a loop that has exited. *)
Lemma run_loop_more_fuel fuel fuel' s trace result :
  run_loop fuel s trace = Some result -> (fuel <= fuel')%nat ->
  run_loop fuel' s trace = Some result.
Proof.
  revert fuel' s trace. induction fuel as [|fuel IH]; intros fuel' s trace Hrun Hle.
  - cbn in Hrun. destruct fuel'; cbn;
      destruct (Adv.decide_if_finished s); congruence.
  - destruct fuel' as [|fuel']; [lia|]. cbn in *.
    destruct (Adv.decide_if_finished s); [done|].
    apply IH; [done|lia].
Qed.

(** A loop that stands at a finished state returns it without another turn. *)
Lemma run_loop_finished fuel s trace :
  Adv.decide_if_finished s = true -> run_loop fuel s trace = Some (s, trace).
Proof. intros H. destruct fuel; cbn; by rewrite H. Qed.

Lemma run_loop_turn fuel s trace :
  Adv.decide_if_finished s = false ->
  run_loop (S fuel) s trace = run_loop fuel (turn s) (trace ++ [Adv.current_agent s]).
Proof. intros H. cbn. by rewrite H. Qed.

Lemma coordinator_turns_app t1 t2 :
  Adv.coordinator_turns (t1 ++ t2) = (Adv.coordinator_turns t1 + Adv.coordinator_turns t2)%nat.
Proof. unfold Adv.coordinator_turns. by rewrite List.filter_app, length_app. Qed.

(** From a state where the Coordinator is up with [S d] iterations of budget
    left, the loop makes [S d] Coordinator turns and [d] worker turns, and
    exits. *)
Lemma run_loop_from_coordinator m d :
  forall k s trace,
    within_budget m k s -> Adv.current_agent s = COORDINATOR ->
    0 <= k -> m = k + Z.of_nat (S d) ->
    exists final trace',
      run_loop (2 * d + 1) s trace = Some (final, trace ++ trace') /\
      Adv.coordinator_turns trace' = S d /\
      length trace' = (2 * d + 1)%nat /\
      within_budget m m final.
Proof.
  induction d as [|d IH]; intros k s trace Hinv Hagent Hk Hm.
  - (* the last Coordinator turn *)
    assert (Hnot : Adv.decide_if_finished s = false).
    { rewrite (within_budget_finished _ _ _ Hinv). apply Z.leb_gt. lia. }
    pose proof (within_budget_coordinator m k s Hinv ltac:(lia)) as Hinv'.
    replace (k + 1) with m in Hinv' by lia.
    exists (Adv.coordinator_agent time_time s), [COORDINATOR].
    change (2 * 0 + 1)%nat with 1%nat.
    rewrite run_loop_turn by done.
    unfold Adv.turn at 1, Adv.router. rewrite Hagent.
    rewrite run_loop_finished.
    + by split_and!.
    + rewrite (within_budget_finished _ _ _ Hinv'). apply Z.leb_le. lia.
  - assert (Hnot : Adv.decide_if_finished s = false).
    { rewrite (within_budget_finished _ _ _ Hinv). apply Z.leb_gt. lia. }
    pose proof (within_budget_coordinator m k s Hinv ltac:(lia)) as Hinv1.
    set (s1 := Adv.coordinator_agent time_time s) in *.
    assert (Hworker : Adv.current_agent s1 <> COORDINATOR).
    { destruct (adv_coordinator_request time_time s) as (to & ? & _ & Hto & Hne).
      subst s1. by rewrite Hto. }
    assert (Hnot1 : Adv.decide_if_finished s1 = false).
    { rewrite (within_budget_finished _ _ _ Hinv1). apply Z.leb_gt. lia. }
    destruct (within_budget_worker m (k + 1) s1 Hinv1 ltac:(lia) Hworker)
      as [Hinv2 Hagent2].
    destruct (IH (k + 1) (turn s1) ((trace ++ [COORDINATOR]) ++ [Adv.current_agent s1])
                Hinv2 Hagent2 ltac:(lia) ltac:(lia))
      as (final & trace' & Hrun & Hturns & Hlen & Hfinal).
    exists final, ([COORDINATOR; Adv.current_agent s1] ++ trace').
    replace (2 * S d + 1)%nat with (S (S (2 * d + 1))) by lia.
    rewrite run_loop_turn by done.
    assert (Hs1 : turn s = s1).
    { unfold Adv.turn at 1, Adv.router. by rewrite Hagent. }
    rewrite Hs1, Hagent.
    rewrite run_loop_turn by done.
    rewrite Hrun. split_and!.
    + f_equal. f_equal. by rewrite <- !app_assoc.
    + rewrite coordinator_turns_app, Hturns.
      unfold Adv.coordinator_turns. cbn.
      destruct (Adv.current_agent s1); try done.
    + rewrite length_app, Hlen. cbn. lia.
    + done.
Qed.

(** The score stays below the threshold in every state the loop passes
    through, and the iteration counter stays within the budget. *)
Lemma visited_within_budget task m s :
  Adv.visited time_time fmt task m s ->
  exists k, within_budget m k s /\ 0 <= k.
Proof.
  induction 1 as [|s Hvis (k & Hinv & Hk) Hnot].
  - exists 0. split; [apply within_budget_initial | lia].
  - rewrite (within_budget_finished _ _ _ Hinv) in Hnot. apply Z.leb_gt in Hnot.
    destruct (decide (Adv.current_agent s = COORDINATOR)) as [Hc|Hw].
    + exists (k + 1). split; [|lia].
      unfold Adv.turn, Adv.router. rewrite Hc.
      apply within_budget_coordinator; [done|lia].
    + exists k. split; [|done]. by apply within_budget_worker.
Qed.

End AdvRun.

(** ** The call of [build_multi_agent_graph] *)

Lemma build_multi_agent_graph_placeholder :
  Adv.build_multi_agent_graph Adv.placeholder = Raised TypeError.
Proof. reflexivity. Qed.

Lemma bind_raises {A B : Type} (c : outcome A) (k : A -> outcome B) :
  (forall a, exists error, k a = Raised error) ->
  exists error, c ≫= k = Raised error.
Proof.
  intros Hk. destruct c as [a|error]; [apply Hk|by exists error].
Qed.

(** A class whose [add_edge] refuses a third argument never returns a graph:
    the statements before the last may raise or not, the last one does. *)
Lemma build_multi_agent_graph_raises (langgraph : Adv.StateGraphClass) :
  (forall g, Adv.add_edge_to_end langgraph g = Raised TypeError) ->
  exists error, Adv.build_multi_agent_graph (Adv.imported langgraph) = Raised error.
Proof.
  intros Hlast. unfold Adv.build_multi_agent_graph.
  do 12 (apply bind_raises; intros ?).
  rewrite Hlast. by exists TypeError.
Qed.

(** The exception of [build_multi_agent_graph] leaves [run_multi_agent_system]
    before the loop has started, whatever the fuel. *)
Lemma run_multi_agent_system_raised (time_time : nat -> float)
    (fmt : nat -> float -> string) (StateGraph : Adv.StateGraph_binding)
    (fuel : nat) (task : string) (max_iterations : Z) (error : exception) :
  Adv.build_multi_agent_graph StateGraph = Raised error ->
  Adv.run_multi_agent_system time_time fmt StateGraph fuel task max_iterations =
  Some (Raised error).
Proof.
  intros Hbuild. unfold Adv.run_multi_agent_system. by rewrite Hbuild.
Qed.

(** Where the graph is built, the function is its loop. *)
Lemma run_multi_agent_system_built (time_time : nat -> float)
    (fmt : nat -> float -> string) (StateGraph : Adv.StateGraph_binding)
    (fuel : nat) (task : string) (max_iterations : Z)
    (g : Adv.graph_of StateGraph) :
  Adv.build_multi_agent_graph StateGraph = Returned g ->
  Adv.run_multi_agent_system time_time fmt StateGraph fuel task max_iterations =
  (Returned <$> Adv.run_loop time_time fmt fuel (Adv.initial_state task max_iterations) []).
Proof.
  intros Hbuild. unfold Adv.run_multi_agent_system. rewrite Hbuild.
  by destruct (Adv.run_loop _ _ _ _ _).
Qed.

(** The sample class raises at the last statement of the builder, after all the
    others have returned. *)
Lemma build_multi_agent_graph_sample :
  (forall g, Adv.add_edge_to_end two_argument_edges g = Raised TypeError) /\
  Adv.build_multi_agent_graph (Adv.imported two_argument_edges) = Raised TypeError /\
  Adv.run_multi_agent_system clock0 fmt0 (Adv.imported two_argument_edges) 5 "X" 3 =
  Some (Raised TypeError).
Proof. split_and!; reflexivity. Qed.

(** C2, the code: [run_multi_agent_system] does not return.  It calls
    [build_multi_agent_graph] before its loop, and the call raises: a
    [TypeError] where [StateGraph] is the placeholder [object], for every task
    and every [max_iterations]; some exception where [StateGraph] is a class
    whose [add_edge] refuses the third argument of the builder's last statement.
    The loop the function would go on with does what the claim says from its
    initial state: for [max_iterations >= 1] it exits after exactly
    [max_iterations] turns of the Coordinator, the score never reaches [0.9] on
    the way, and it exits at once at a state whose score has reached [0.9]. *)
Theorem run_multi_agent_system_raises_before_its_loop
    (time_time : nat -> float) (fmt : nat -> float -> string) :
  (forall fuel task max_iterations,
     Adv.run_multi_agent_system time_time fmt Adv.placeholder fuel task max_iterations =
     Some (Raised TypeError)) /\
  (forall langgraph fuel task max_iterations,
     (forall g, Adv.add_edge_to_end langgraph g = Raised TypeError) ->
     exists error,
       Adv.run_multi_agent_system time_time fmt (Adv.imported langgraph) fuel task
         max_iterations = Some (Raised error)) /\
  (forall task max_iterations,
     1 <= max_iterations ->
     exists final trace,
       (forall fuel, (Z.to_nat (2 * max_iterations - 1) <= fuel)%nat ->
          Adv.run_loop time_time fmt fuel (Adv.initial_state task max_iterations) [] =
          Some (final, trace)) /\
       Adv.coordinator_turns trace = Z.to_nat max_iterations /\
       (forall s, Adv.visited time_time fmt task max_iterations s ->
          reaches_threshold (Adv.get_convergence_score s) = false) /\
       (forall fuel s tr,
          reaches_threshold (Adv.get_convergence_score s) = true ->
          Adv.run_loop time_time fmt fuel s tr = Some (s, tr))).
Proof.
  split_and!.
  - intros fuel task max_iterations.
    apply run_multi_agent_system_raised, build_multi_agent_graph_placeholder.
  - intros langgraph fuel task max_iterations Hlast.
    destruct (build_multi_agent_graph_raises langgraph Hlast) as [error Hbuild].
    exists error. by apply run_multi_agent_system_raised.
  - intros task max_iterations Hm.
    set (d := Z.to_nat (max_iterations - 1)).
    destruct (run_loop_from_coordinator time_time fmt max_iterations d 0
                (Adv.initial_state task max_iterations) []
                (within_budget_initial task max_iterations) eq_refl ltac:(lia)
                ltac:(subst d; lia))
      as (final & trace & Hrun & Hturns & _ & _).
    exists final, trace. split_and!.
    + intros fuel Hfuel.
      apply run_loop_more_fuel with (fuel := (2 * d + 1)%nat); [exact Hrun|].
      subst d. lia.
    + rewrite Hturns. subst d. lia.
    + intros s Hs.
      destruct (visited_within_budget _ _ _ _ _ Hs) as (k & Hinv & _).
      exact (within_budget_score _ _ _ Hinv).
    + intros fuel s tr Hs. apply run_loop_finished.
      apply adv_decide_if_finished_iff. by left.
Qed.

(** C3, the code at [run("X", 3)]: the call raises a [TypeError] from
    [build_multi_agent_graph] where [StateGraph] is the placeholder, so nothing
    is returned.  The loop it would go on with, from the initial state of that
    call, exits after the third turn of the Coordinator, which has drafted the
    solution and addressed the Evaluator; the Evaluator never takes its turn, so
    no score and no evaluation are stored, although the Evaluator would have set
    the score to [1.0]. *)
Theorem run_three_iterations_skips_evaluator
    (time_time : nat -> float) (fmt : nat -> float -> string) :
  Adv.run_multi_agent_system time_time fmt Adv.placeholder 5 "X" 3 =
  Some (Raised TypeError) /\
  exists final,
    Adv.run_loop time_time fmt 5 (Adv.initial_state "X" 3) [] =
    Some (final, [COORDINATOR; RESEARCHER; COORDINATOR; CRITIC; COORDINATOR]) /\
    Adv.current_iteration final = Some 3 /\
    Adv.current_agent final = EVALUATOR /\
    Adv.current_phase final = Some "final_evaluation" /\
    Adv.solution final = Some (ln2 "FINAL SOLUTION:" +:+ "No solution developed.") /\
    Adv.convergence_score final = None /\
    Adv.evaluation final = None /\
    Adv.convergence_score (Adv.evaluator_agent time_time fmt final) = Some 1.0%float.
Proof.
  split; [reflexivity|].
  eexists. split; [vm_compute; reflexivity|].
  split_and!; reflexivity.
Qed.

(** ** One turn of each agent, lab file *)

Section LabTurns.

Context (time_time : nat -> float) (fmt : nat -> float -> string) (order : SetOrder).

Abbreviation lab_coordinator_agent := (Lab.coordinator_agent time_time order).
Abbreviation lab_researcher_agent := (Lab.researcher_agent time_time).
Abbreviation lab_critic_agent := (Lab.critic_agent time_time).
Abbreviation lab_executor_agent := (Lab.executor_agent time_time).
Abbreviation lab_evaluator_agent := (Lab.evaluator_agent time_time fmt).

Lemma lab_researcher_turn s :
  exists text,
    lab_researcher_agent s =
    Lab.set_current_agent (Some COORDINATOR)
      (Lab.set_messages (Lab.messages s ++ [lab_response time_time RESEARCHER text s]) s).
Proof. eexists. reflexivity. Qed.

Lemma lab_critic_turn s :
  exists text,
    lab_critic_agent s =
    Lab.set_current_agent (Some COORDINATOR)
      (Lab.set_messages (Lab.messages s ++ [lab_response time_time CRITIC text s]) s).
Proof. eexists. reflexivity. Qed.

Lemma lab_executor_turn s :
  exists text,
    lab_executor_agent s =
    Lab.set_current_agent (Some COORDINATOR)
      (Lab.set_messages (Lab.messages s ++ [lab_response time_time EXECUTOR text s]) s).
Proof. eexists. reflexivity. Qed.

Lemma lab_evaluator_turn s :
  exists text,
    lab_evaluator_agent s =
    Lab.set_convergence_score 1.0%float
      (Lab.set_evaluation Lab.evaluation_metrics
         (Lab.set_messages (Lab.messages s ++ [lab_response time_time EVALUATOR text s]) s)).
Proof. eexists. reflexivity. Qed.

Lemma responses_missing_true needed received :
  Lab.responses_missing needed received = true <-> needed <> ∅ /\ ~ needed ⊆ received.
Proof.
  unfold Lab.responses_missing. rewrite andb_true_iff, negb_true_iff.
  rewrite bool_decide_eq_true, bool_decide_eq_false. tauto.
Qed.

(** An empty set of requested roles is a subset of anything: the test of the
    source fails exactly when every requested role has answered. *)
Lemma responses_missing_false needed received :
  Lab.responses_missing needed received = false <-> needed ⊆ received.
Proof.
  unfold Lab.responses_missing. rewrite andb_false_iff, negb_false_iff.
  rewrite bool_decide_eq_false, bool_decide_eq_true. split.
  - intros [Hempty|Hsub]; [|done].
    destruct (decide (needed = ∅)) as [->|]; [set_solver|done].
  - auto.
Qed.

(** The follow-up loop appends one request for each role it is given, in the
    order given. *)
Lemma follow_up_appends missing it messages :
  exists new,
    Lab.follow_up time_time missing it messages = messages ++ new /\
    List.map to_agent new = missing /\
    Forall (fun m => request_at it m /\
                     content m = "Following up on my previous request. Please respond.")
           new.
Proof.
  unfold Lab.follow_up. revert messages.
  induction missing as [|agent missing IH]; intros messages.
  - exists []. cbn. by rewrite app_nil_r.
  - cbn. destruct (IH (Lab.send_request time_time agent
             "Following up on my previous request. Please respond." it messages))
      as (new & Hnew & Hto & Hall).
    eexists (_ :: new). rewrite Hnew. unfold Lab.send_request.
    rewrite <- app_assoc. split; [reflexivity|]. cbn. split; [by rewrite Hto|].
    constructor; [|done]. by repeat split.
Qed.

(** The roles found missing are exactly those requested and not heard from,
    each once; there is at least one when the test of the source succeeds. *)
Lemma lab_missing_spec s :
  NoDup (lab_missing order s) /\
  forall role, role ∈ lab_missing order s <->
               role ∈ Lab.needed_responses (lab_recent s) /\
               role ∉ Lab.received_responses (lab_recent s).
Proof.
  unfold lab_missing. split.
  - rewrite (set_iter_perm order). apply NoDup_elements.
  - intros role. rewrite (set_iter_perm order), elem_of_elements. set_solver.
Qed.

Lemma lab_missing_nonempty s :
  ~ Lab.needed_responses (lab_recent s) ⊆ Lab.received_responses (lab_recent s) ->
  exists first rest, lab_missing order s = first :: rest.
Proof.
  intros Hsub. destruct (lab_missing order s) as [|first rest] eqn:Hm; [|by eauto].
  exfalso. apply Hsub. intros role Hrole.
  destruct (decide (role ∈ Lab.received_responses (lab_recent s))) as [|Hnot]; [done|].
  assert (role ∈ lab_missing order s) as Hin by (apply lab_missing_spec; done).
  rewrite Hm in Hin. by apply elem_of_nil in Hin.
Qed.

(** Splits a goal about [coordinator_agent s] along the branches of its
    source: bootstrap, follow-up, the three phases, final. *)
Ltac lab_coordinator_cases s :=
  unfold Lab.coordinator_agent, lab_branch in *; cbv zeta;
  destruct (Lab.get_current_iteration s =? 0) eqn:Hboot;
  [ | destruct (Lab.get_current_iteration s <? Lab.get_max_iterations s - 1) eqn:Hmid;
      [ fold (lab_recent s); fold (lab_missing order s);
        destruct (Lab.responses_missing (Lab.needed_responses (lab_recent s))
                                        (Lab.received_responses (lab_recent s))) eqn:Hmiss;
        [ | destruct (Lab.get_current_iteration s mod 3 =? 0) eqn:Hp0;
            [ | destruct (Lab.get_current_iteration s mod 3 =? 1) eqn:Hp1 ] ]
      | ] ].

(** Whatever the branch, the Coordinator only appends requests of its own,
    tagged with the current iteration. *)
Lemma lab_coordinator_requests s :
  exists new,
    Lab.messages (lab_coordinator_agent s) = Lab.messages s ++ new /\
    Forall (request_at (Lab.get_current_iteration s)) new.
Proof.
  lab_coordinator_cases s;
    try (eexists [_]; split; [reflexivity|]; by repeat constructor).
  destruct (follow_up_appends (lab_missing order s) (Lab.get_current_iteration s) (Lab.messages s))
    as (new & Hnew & _ & Hall).
  exists new. split; [exact Hnew|].
  eapply Forall_impl; [exact Hall|]. by intros ? [? _].
Qed.

Lemma lab_coordinator_iteration s :
  Lab.current_iteration (lab_coordinator_agent s) = Some (Lab.get_current_iteration s + 1).
Proof. lab_coordinator_cases s; reflexivity. Qed.

Lemma lab_coordinator_frame s :
  Lab.convergence_score (lab_coordinator_agent s) = Lab.convergence_score s /\
  Lab.max_iterations (lab_coordinator_agent s) = Lab.max_iterations s /\
  Lab.evaluation (lab_coordinator_agent s) = Lab.evaluation s /\
  Lab.task (lab_coordinator_agent s) = Lab.task s.
Proof. lab_coordinator_cases s; repeat split; reflexivity. Qed.

End LabTurns.

(** ** The final iteration *)

Lemma executor_response_in messages text :
  text ∈ executor_responses messages <->
  exists m, m ∈ messages /\ from_agent m = EXECUTOR /\ msg_type m = "response" /\
            content m = text.
Proof.
  unfold executor_responses, contents_where.
  rewrite list_elem_of_In, in_map_iff. split.
  - intros (m & Hc & Hin). apply filter_In in Hin as [Hin Hp].
    unfold from_with_type in Hp. apply andb_true_iff in Hp as [Hf Ht].
    apply bool_decide_eq_true in Hf. apply String.eqb_eq in Ht.
    exists m. by rewrite list_elem_of_In.
  - intros (m & Hin & Hf & Ht & Hc). exists m. split; [done|].
    apply filter_In. split; [by apply list_elem_of_In|].
    unfold from_with_type. rewrite Hf, Ht. by rewrite bool_decide_eq_true_2, String.eqb_refl.
Qed.

Lemma last_two_snoc2 {A} (older : list A) previous latest :
  last_two (older ++ [previous; latest]) = [previous; latest].
Proof.
  unfold last_two. rewrite length_app. cbn.
  replace (length older + 2 - 2)%nat with (length older) by lia.
  by rewrite skipn_app, skipn_all, Nat.sub_diag.
Qed.

Lemma final_draft_shape messages :
  is_final_draft messages
    (Some (ln2 "FINAL SOLUTION:" +:+
           match executor_responses messages with
           | [] => "No solution developed."
           | _ :: _ => join nl (last_two (executor_responses messages))
           end)).
Proof.
  unfold is_final_draft. cbv zeta. split_and!.
  - by intros ->.
  - intros only ->. reflexivity.
  - intros older previous latest ->. rewrite last_two_snoc2.
    destruct older; reflexivity.
Qed.

(** C4: in the final branch (the iteration is not 0 and is at least
    [max_iterations - 1]) the Coordinator of either file hands over to the
    Evaluator and stores as solution the fixed header followed by the last two
    Executor responses, or by "No solution developed." when the log holds
    none. *)
Theorem final_iteration_drafts_solution
    (time_time : nat -> float) (order : SetOrder) :
  (forall s : Lab.MultiAgentState,
     Lab.get_current_iteration s <> 0 ->
     Lab.get_max_iterations s - 1 <= Lab.get_current_iteration s ->
     Lab.current_agent (Lab.coordinator_agent time_time order s) = Some EVALUATOR /\
     is_final_draft (Lab.messages s)
                    (Lab.solution (Lab.coordinator_agent time_time order s))) /\
  (forall s : Adv.MultiAgentState,
     Adv.get_current_iteration s <> 0 ->
     Adv.get_max_iterations s - 1 <= Adv.get_current_iteration s ->
     Adv.current_agent (Adv.coordinator_agent time_time s) = EVALUATOR /\
     is_final_draft (Adv.messages s)
                    (Adv.solution (Adv.coordinator_agent time_time s))).
Proof.
  split; intros s Hboot Hfinal.
  - unfold Lab.coordinator_agent. cbv zeta.
    destruct (Z.eqb_spec (Lab.get_current_iteration s) 0); [done|].
    destruct (Z.ltb_spec (Lab.get_current_iteration s) (Lab.get_max_iterations s - 1)); [lia|].
    split; [reflexivity|]. apply final_draft_shape.
  - unfold Adv.coordinator_agent. cbv zeta.
    destruct (Z.eqb_spec (Adv.get_current_iteration s) 0); [done|].
    destruct (Z.ltb_spec (Adv.get_current_iteration s) (Adv.get_max_iterations s - 1)); [lia|].
    split; [reflexivity|]. apply final_draft_shape.
Qed.

(** ** Middle iterations *)

(** C5: in a middle iteration ([0 < current_iteration < max_iterations - 1])
    with no requested response missing, the Coordinator picks the next role by
    [current_iteration mod N]: remainder 0 is the Researcher, 1 the Critic, 2 the
    Executor.  N is 3 in the lab file; it is 4 in the advanced file, whose fourth
    phase is the evaluation check (the Evaluator when an Executor response
    exists, the Researcher otherwise). *)
Theorem middle_iteration_selects_by_phase
    (time_time : nat -> float) (order : SetOrder) :
  (forall s : Lab.MultiAgentState,
     0 < Lab.get_current_iteration s < Lab.get_max_iterations s - 1 ->
     Lab.needed_responses (lab_recent s) ⊆ Lab.received_responses (lab_recent s) ->
     let next := Lab.current_agent (Lab.coordinator_agent time_time order s) in
     let phase := Lab.get_current_iteration s mod 3 in
     (phase = 0 \/ phase = 1 \/ phase = 2) /\
     (phase = 0 -> next = Some RESEARCHER) /\
     (phase = 1 -> next = Some CRITIC) /\
     (phase = 2 -> next = Some EXECUTOR)) /\
  (forall s : Adv.MultiAgentState,
     0 < Adv.get_current_iteration s < Adv.get_max_iterations s - 1 ->
     let next := Adv.current_agent (Adv.coordinator_agent time_time s) in
     let phase := Adv.get_current_iteration s mod 4 in
     (phase = 0 \/ phase = 1 \/ phase = 2 \/ phase = 3) /\
     (phase = 0 -> next = RESEARCHER) /\
     (phase = 1 -> next = CRITIC) /\
     (phase = 2 -> next = EXECUTOR) /\
     (phase = 3 ->
      next = match executor_responses (Adv.messages s) with
             | [] => RESEARCHER
             | _ :: _ => EVALUATOR
             end)).
Proof.
  split.
  - intros s Hmid Hall next phase. subst next phase.
    apply responses_missing_false in Hall.
    pose proof (Z.mod_pos_bound (Lab.get_current_iteration s) 3 ltac:(lia)) as Hphase.
    unfold Lab.coordinator_agent. cbv zeta. fold (lab_recent s). rewrite Hall.
    destruct (Z.eqb_spec (Lab.get_current_iteration s) 0); [lia|].
    destruct (Z.ltb_spec (Lab.get_current_iteration s) (Lab.get_max_iterations s - 1)); [|lia].
    destruct (Z.eqb_spec (Lab.get_current_iteration s mod 3) 0);
      [|destruct (Z.eqb_spec (Lab.get_current_iteration s mod 3) 1)];
      (split; [lia|]); split_and!; intros; (reflexivity || lia).
  - intros s Hmid next phase. subst next phase.
    pose proof (Z.mod_pos_bound (Adv.get_current_iteration s) 4 ltac:(lia)) as Hphase.
    unfold Adv.coordinator_agent, executor_responses. cbv zeta.
    destruct (Z.eqb_spec (Adv.get_current_iteration s) 0); [lia|].
    destruct (Z.ltb_spec (Adv.get_current_iteration s) (Adv.get_max_iterations s - 1)); [|lia].
    destruct (Z.eqb_spec (Adv.get_current_iteration s mod 4) 0);
      [|destruct (Z.eqb_spec (Adv.get_current_iteration s mod 4) 1);
        [|destruct (Z.eqb_spec (Adv.get_current_iteration s mod 4) 2)]];
      (split; [lia|]); split_and!; intros; try (reflexivity || lia).
    destruct (contents_where (from_with_type EXECUTOR "response") (Adv.messages s))
      as [|e es] using rev_ind; [reflexivity|].
    rewrite rev_app_distr. cbn. by destruct es.
Qed.

(** C6: in a middle iteration, when the roles the Coordinator asked in the
    previous iteration are not all among those that answered it, the Coordinator
    appends one follow-up request for each missing role and nothing else, and
    makes the first missing role the current agent. *)
Theorem missing_responses_are_requested_again
    (time_time : nat -> float) (order : SetOrder) (s : Lab.MultiAgentState) :
  Lab.get_current_iteration s <> 0 ->
  Lab.get_current_iteration s < Lab.get_max_iterations s - 1 ->
  Lab.needed_responses (lab_recent s) <> ∅ ->
  ~ Lab.needed_responses (lab_recent s) ⊆ Lab.received_responses (lab_recent s) ->
  exists first rest new,
    lab_missing order s = first :: rest /\
    NoDup (first :: rest) /\
    (forall role, role ∈ first :: rest <->
                  role ∈ Lab.needed_responses (lab_recent s) /\
                  role ∉ Lab.received_responses (lab_recent s)) /\
    Lab.messages (Lab.coordinator_agent time_time order s) = Lab.messages s ++ new /\
    List.map to_agent new = first :: rest /\
    Forall (fun m => request_at (Lab.get_current_iteration s) m /\
                     content m = "Following up on my previous request. Please respond.")
           new /\
    Lab.current_agent (Lab.coordinator_agent time_time order s) = first /\
    Lab.current_iteration (Lab.coordinator_agent time_time order s) =
    Some (Lab.get_current_iteration s + 1).
Proof.
  intros Hboot Hmid Hneeded Hsub.
  destruct (lab_missing_nonempty order s Hsub) as (first & rest & Hmissing).
  destruct (follow_up_appends time_time (lab_missing order s)
              (Lab.get_current_iteration s) (Lab.messages s))
    as (new & Hnew & Hto & Hall).
  pose proof (lab_missing_spec order s) as [Hnodup Hin].
  assert (Hmiss : Lab.responses_missing (Lab.needed_responses (lab_recent s))
                                        (Lab.received_responses (lab_recent s)) = true)
    by (by apply responses_missing_true).
  exists first, rest, new. rewrite <- Hmissing. split_and!; try done.
  - unfold Lab.coordinator_agent. cbv zeta.
    destruct (Z.eqb_spec (Lab.get_current_iteration s) 0); [done|].
    destruct (Z.ltb_spec (Lab.get_current_iteration s) (Lab.get_max_iterations s - 1)); [|lia].
    fold (lab_recent s). fold (lab_missing order s). rewrite Hmiss. exact Hnew.
  - unfold Lab.coordinator_agent. cbv zeta.
    destruct (Z.eqb_spec (Lab.get_current_iteration s) 0); [done|].
    destruct (Z.ltb_spec (Lab.get_current_iteration s) (Lab.get_max_iterations s - 1)); [|lia].
    fold (lab_recent s). fold (lab_missing order s). rewrite Hmiss, Hmissing. reflexivity.
  - apply lab_coordinator_iteration.
Qed.

(** ** The message log *)

Lemma lab_worker_appends time_time fmt order role (s : Lab.MultiAgentState) :
  role <> COORDINATOR ->
  exists text,
    Lab.messages (Lab.node time_time fmt order role s) =
    Lab.messages s ++ [lab_response time_time role text s] /\
    Lab.current_iteration (Lab.node time_time fmt order role s) = Lab.current_iteration s.
Proof.
  intros Hrole. destruct role; [done|..]; cbn [Lab.node].
  - destruct (lab_researcher_turn time_time s) as [text ->]. by exists text.
  - destruct (lab_critic_turn time_time s) as [text ->]. by exists text.
  - destruct (lab_executor_turn time_time s) as [text ->]. by exists text.
  - destruct (lab_evaluator_turn time_time fmt s) as [text ->]. by exists text.
Qed.

Lemma adv_worker_appends time_time fmt role (s : Adv.MultiAgentState) :
  role <> COORDINATOR ->
  exists text,
    Adv.messages (Adv.node time_time fmt role s) =
    Adv.messages s ++ [adv_response time_time role text s] /\
    Adv.current_iteration (Adv.node time_time fmt role s) = Adv.current_iteration s.
Proof.
  intros Hrole. destruct role; [done|..]; cbn [Adv.node].
  - destruct (adv_researcher_turn time_time s) as [text ->]. by exists text.
  - destruct (adv_critic_turn time_time s) as [text ->]. by exists text.
  - destruct (adv_executor_turn time_time s) as [text ->]. by exists text.
  - destruct (adv_evaluator_turn time_time fmt s) as (text & ? & ->). by exists text.
Qed.

Lemma extends_app before new : extends before (before ++ new).
Proof.
  split_and!.
  - by exists new.
  - intros i m H. by apply lookup_app_l_Some.
  - rewrite length_app. lia.
Qed.

(** C8: every agent of either file leaves the entries of the log as they are
    and only appends to it; the Researcher, the Critic, the Executor and the
    Evaluator append exactly one message, a response of their own addressed to
    the Coordinator. *)
Theorem message_log_is_append_only
    (time_time : nat -> float) (fmt : nat -> float -> string) (order : SetOrder) :
  (forall role (s : Lab.MultiAgentState),
     extends (Lab.messages s) (Lab.messages (Lab.node time_time fmt order role s)) /\
     (role <> COORDINATOR ->
      exists m, Lab.messages (Lab.node time_time fmt order role s) = Lab.messages s ++ [m] /\
                response_of role m)) /\
  (forall role (s : Adv.MultiAgentState),
     extends (Adv.messages s) (Adv.messages (Adv.node time_time fmt role s)) /\
     (role <> COORDINATOR ->
      exists m, Adv.messages (Adv.node time_time fmt role s) = Adv.messages s ++ [m] /\
                response_of role m)).
Proof.
  split; intros role s.
  - split.
    + destruct (decide (role = COORDINATOR)) as [->|Hrole].
      * destruct (lab_coordinator_requests time_time order s) as (new & Hnew & _).
        cbn [Lab.node]. rewrite Hnew. apply extends_app.
      * destruct (lab_worker_appends time_time fmt order role s Hrole) as (text & -> & _).
        apply extends_app.
    + intros Hrole.
      destruct (lab_worker_appends time_time fmt order role s Hrole) as (text & -> & _).
      eexists. split; [reflexivity|]. by repeat split.
  - split.
    + destruct (decide (role = COORDINATOR)) as [->|Hrole].
      * destruct (adv_coordinator_request time_time s) as (to & text & Hnew & _).
        cbn [Adv.node]. rewrite Hnew. apply extends_app.
      * destruct (adv_worker_appends time_time fmt role s Hrole) as (text & -> & _).
        apply extends_app.
    + intros Hrole.
      destruct (adv_worker_appends time_time fmt role s Hrole) as (text & -> & _).
      eexists. split; [reflexivity|]. by repeat split.
Qed.

(** ** Iteration tags *)

Lemma with_iteration_app k l1 l2 :
  with_iteration k (l1 ++ l2) = with_iteration k l1 ++ with_iteration k l2.
Proof. apply List.filter_app. Qed.

Lemma with_iteration_older k l :
  Forall (fun m => iteration m < k) l -> with_iteration k l = [].
Proof.
  induction 1 as [|m l Hm _ IH]; [done|]. cbn.
  destruct (Z.eqb_spec (iteration m) k); [lia|done].
Qed.

Lemma with_iteration_same k l :
  Forall (fun m => iteration m = k) l -> with_iteration k l = l.
Proof.
  induction 1 as [|m l Hm _ IH]; [done|]. cbn.
  destruct (Z.eqb_spec (iteration m) k); [by f_equal|done].
Qed.

(** One request-response cycle on a log whose tags all lie below [k]: the
    messages tagged [k] are the requests and the response, and every tag lies
    below [k + 1] afterwards. *)
Lemma cycle_tags k log requests response :
  Forall (fun m => iteration m < k) log ->
  Forall (fun m => iteration m = k) requests ->
  iteration response = k ->
  with_iteration k ((log ++ requests) ++ [response]) = requests ++ [response] /\
  Forall (fun m => iteration m < k + 1) ((log ++ requests) ++ [response]).
Proof.
  intros Hlog Hreq Hresp. split.
  - rewrite !with_iteration_app, (with_iteration_older _ _ Hlog),
      (with_iteration_same _ _ Hreq). cbn. by rewrite Hresp, Z.eqb_refl.
  - rewrite !Forall_app. split_and!.
    + eapply Forall_impl; [exact Hlog|]. intros; cbn in *; lia.
    + eapply Forall_impl; [exact Hreq|]. intros; cbn in *; lia.
    + repeat constructor. lia.
Qed.

Lemma adv_turn_node time_time fmt (s : Adv.MultiAgentState) :
  Adv.turn time_time fmt s = Adv.node time_time fmt (Adv.current_agent s) s.
Proof. unfold Adv.turn, Adv.router. by destruct (Adv.current_agent s). Qed.

(** The hypothesis of [cycle_tags] holds of every state a run reaches: all
    tags of the log lie below the iteration counter. *)
Lemma lab_node_tags_below time_time fmt order role (s : Lab.MultiAgentState) :
  Forall (fun m => iteration m < Lab.get_current_iteration s) (Lab.messages s) ->
  Forall (fun m => iteration m <
                   Lab.get_current_iteration (Lab.node time_time fmt order role s))
         (Lab.messages (Lab.node time_time fmt order role s)).
Proof.
  intros Hlog. destruct (decide (role = COORDINATOR)) as [->|Hrole].
  - cbn [Lab.node].
    destruct (lab_coordinator_requests time_time order s) as (new & -> & Hnew).
    unfold Lab.get_current_iteration at 1. rewrite lab_coordinator_iteration. cbn.
    apply Forall_app. split.
    + eapply Forall_impl; [exact Hlog|]. intros; cbn in *; lia.
    + eapply Forall_impl; [exact Hnew|]. intros ? (_ & _ & ->). lia.
  - destruct (lab_worker_appends time_time fmt order role s Hrole) as (text & -> & Hit).
    unfold Lab.get_current_iteration at 1. rewrite Hit.
    fold (Lab.get_current_iteration s).
    apply Forall_app. split; [exact Hlog|]. repeat constructor. cbn. lia.
Qed.

Lemma adv_node_tags_below time_time fmt role (s : Adv.MultiAgentState) :
  Forall (fun m => iteration m < Adv.get_current_iteration s) (Adv.messages s) ->
  Forall (fun m => iteration m <
                   Adv.get_current_iteration (Adv.node time_time fmt role s))
         (Adv.messages (Adv.node time_time fmt role s)).
Proof.
  intros Hlog. destruct (decide (role = COORDINATOR)) as [->|Hrole].
  - cbn [Adv.node].
    destruct (adv_coordinator_request time_time s) as (to & text & -> & _).
    unfold Adv.get_current_iteration at 1. rewrite adv_coordinator_iteration. cbn.
    apply Forall_app. split.
    + eapply Forall_impl; [exact Hlog|]. intros; cbn in *; lia.
    + repeat constructor. cbn. lia.
  - destruct (adv_worker_appends time_time fmt role s Hrole) as (text & -> & Hit).
    unfold Adv.get_current_iteration at 1. rewrite Hit.
    fold (Adv.get_current_iteration s).
    apply Forall_app. split; [exact Hlog|]. repeat constructor. cbn. lia.
Qed.

Lemma lab_invoked_tags_below time_time fmt order task iterations s :
  Lab.invoked time_time fmt order task iterations s ->
  Forall (fun m => iteration m < Lab.get_current_iteration s) (Lab.messages s).
Proof.
  induction 1 as [|role s _ IH]; [constructor|]. by apply lab_node_tags_below.
Qed.

Lemma adv_visited_tags_below time_time fmt task max_iterations s :
  Adv.visited time_time fmt task max_iterations s ->
  Forall (fun m => iteration m < Adv.get_current_iteration s) (Adv.messages s).
Proof.
  induction 1 as [|s _ IH _]; [constructor|].
  rewrite adv_turn_node. by apply adv_node_tags_below.
Qed.

(** C9: a worker tags its response with [current_iteration - 1], which is the
    tag the Coordinator gave to the request(s) of that cycle before it
    incremented the counter; on a log whose earlier tags are all smaller, the
    filter [iteration == current_iteration - 1] the Coordinator applies at its
    next turn returns the requests and the response of that cycle and nothing
    else, and the tags of the log are again smaller than the counter; the
    logs of the states a run reaches have that property. *)
Theorem response_carries_request_iteration
    (time_time : nat -> float) (fmt : nat -> float -> string) (order : SetOrder) :
  (forall worker (s : Lab.MultiAgentState),
     worker <> COORDINATOR ->
     exists response,
       Lab.messages (Lab.node time_time fmt order worker s) = Lab.messages s ++ [response] /\
       iteration response = Lab.get_current_iteration s - 1) /\
  (forall worker (s : Adv.MultiAgentState),
     worker <> COORDINATOR ->
     exists response,
       Adv.messages (Adv.node time_time fmt worker s) = Adv.messages s ++ [response] /\
       iteration response = Adv.get_current_iteration s - 1) /\
  (forall worker (s : Lab.MultiAgentState),
     worker <> COORDINATOR ->
     Forall (fun m => iteration m < Lab.get_current_iteration s) (Lab.messages s) ->
     let s' := Lab.node time_time fmt order worker (Lab.coordinator_agent time_time order s) in
     cycle_is_tagged (Lab.get_current_iteration s) (Lab.get_current_iteration s')
                     (Lab.messages s) (Lab.messages s') worker) /\
  (forall worker (s : Adv.MultiAgentState),
     worker <> COORDINATOR ->
     Forall (fun m => iteration m < Adv.get_current_iteration s) (Adv.messages s) ->
     let s' := Adv.node time_time fmt worker (Adv.coordinator_agent time_time s) in
     cycle_is_tagged (Adv.get_current_iteration s) (Adv.get_current_iteration s')
                     (Adv.messages s) (Adv.messages s') worker) /\
  (forall task iterations s,
     Lab.invoked time_time fmt order task iterations s ->
     Forall (fun m => iteration m < Lab.get_current_iteration s) (Lab.messages s)) /\
  (forall task max_iterations s,
     Adv.visited time_time fmt task max_iterations s ->
     Forall (fun m => iteration m < Adv.get_current_iteration s) (Adv.messages s)).
Proof.
  split_and!; [intros worker s Hworker | intros worker s Hworker
              | intros worker s Hworker Hlog s'; subst s'
              | intros worker s Hworker Hlog s'; subst s'
              | apply lab_invoked_tags_below | apply adv_visited_tags_below].
  - destruct (lab_worker_appends time_time fmt order worker s Hworker) as (text & -> & _).
    by eexists.
  - destruct (adv_worker_appends time_time fmt worker s Hworker) as (text & -> & _).
    by eexists.
  - destruct (lab_coordinator_requests time_time order s) as (requests & Hreq & Hall).
    pose proof (lab_coordinator_iteration time_time order s) as Hit.
    set (s1 := Lab.coordinator_agent time_time order s) in *.
    destruct (lab_worker_appends time_time fmt order worker s1 Hworker)
      as (text & Hresp & Hit2).
    assert (Hk1 : Lab.get_current_iteration s1 = Lab.get_current_iteration s + 1)
      by (unfold Lab.get_current_iteration at 1; by rewrite Hit).
    assert (Hk2 : Lab.get_current_iteration (Lab.node time_time fmt order worker s1) =
                  Lab.get_current_iteration s + 1)
      by (unfold Lab.get_current_iteration at 1; by rewrite Hit2, Hit).
    assert (Htags : Forall (fun m => iteration m = Lab.get_current_iteration s) requests)
      by (eapply Forall_impl; [exact Hall|]; by intros ? (_ & _ & ?)).
    assert (Htag : iteration (lab_response time_time worker text s1) =
                   Lab.get_current_iteration s) by (cbn; lia).
    destruct (cycle_tags _ _ _ _ Hlog Htags Htag) as [Hfilter Hbelow].
    exists requests, (lab_response time_time worker text s1).
    rewrite Hresp, Hreq, Hk2.
    replace (Lab.get_current_iteration s + 1 - 1) with (Lab.get_current_iteration s) by lia.
    split_and!; try done.
    eapply Forall_impl; [exact Htags|]. cbn. intros; lia.
  - destruct (adv_coordinator_request time_time s) as (to & rtext & Hreq & _).
    pose proof (adv_coordinator_iteration time_time s) as Hit.
    set (s1 := Adv.coordinator_agent time_time s) in *.
    destruct (adv_worker_appends time_time fmt worker s1 Hworker)
      as (text & Hresp & Hit2).
    assert (Hk1 : Adv.get_current_iteration s1 = Adv.get_current_iteration s + 1)
      by (unfold Adv.get_current_iteration at 1; by rewrite Hit).
    assert (Hk2 : Adv.get_current_iteration (Adv.node time_time fmt worker s1) =
                  Adv.get_current_iteration s + 1)
      by (unfold Adv.get_current_iteration at 1; by rewrite Hit2, Hit).
    assert (Htags : Forall (fun m => iteration m = Adv.get_current_iteration s)
                           [adv_request time_time to rtext s])
      by (by repeat constructor).
    assert (Htag : iteration (adv_response time_time worker text s1) =
                   Adv.get_current_iteration s) by (cbn; lia).
    destruct (cycle_tags _ _ _ _ Hlog Htags Htag) as [Hfilter Hbelow].
    exists [adv_request time_time to rtext s], (adv_response time_time worker text s1).
    rewrite Hresp, Hreq, Hk2.
    replace (Adv.get_current_iteration s + 1 - 1) with (Adv.get_current_iteration s) by lia.
    split_and!; try done.
    + by repeat constructor.
    + repeat constructor. cbn. lia.
Qed.

(** ** The convergence score *)

Lemma lab_invoked_score time_time fmt order task iterations s :
  Lab.invoked time_time fmt order task iterations s ->
  Lab.convergence_score s = Some 0%float \/ Lab.convergence_score s = Some 1.0%float.
Proof.
  induction 1 as [|role s _ IH]; [by left|].
  destruct role; cbn [Lab.node].
  - by rewrite (proj1 (lab_coordinator_frame time_time order s)).
  - by destruct (lab_researcher_turn time_time s) as [? ->].
  - by destruct (lab_critic_turn time_time s) as [? ->].
  - by destruct (lab_executor_turn time_time s) as [? ->].
  - destruct (lab_evaluator_turn time_time fmt s) as [? ->]. by right.
Qed.

Lemma lab_node_frame time_time fmt order role (s : Lab.MultiAgentState) :
  role <> EVALUATOR ->
  Lab.convergence_score (Lab.node time_time fmt order role s) = Lab.convergence_score s.
Proof.
  intros Hrole. destruct role; cbn [Lab.node]; [| | | |done].
  - apply lab_coordinator_frame.
  - by destruct (lab_researcher_turn time_time s) as [? ->].
  - by destruct (lab_critic_turn time_time s) as [? ->].
  - by destruct (lab_executor_turn time_time s) as [? ->].
Qed.

Lemma adv_node_frame time_time fmt role (s : Adv.MultiAgentState) :
  role <> EVALUATOR ->
  Adv.convergence_score (Adv.node time_time fmt role s) = Adv.convergence_score s.
Proof.
  intros Hrole. destruct role; cbn [Adv.node]; [| | | |done].
  - apply adv_coordinator_frame.
  - by destruct (adv_researcher_turn time_time s) as [? ->].
  - by destruct (adv_critic_turn time_time s) as [? ->].
  - by destruct (adv_executor_turn time_time s) as [? ->].
Qed.

(** C7: in both files the Coordinator, the Researcher, the Critic and the
    Executor return the score they were given; the Evaluator is the one agent
    that stores a score; and the score never goes down, neither along the loop
    of [run_multi_agent_system] nor along any sequence of node invocations from
    the initial state of the lab file. *)
Theorem convergence_score_is_the_evaluators
    (time_time : nat -> float) (fmt : nat -> float -> string) (order : SetOrder) :
  (forall role (s : Lab.MultiAgentState),
     role <> EVALUATOR ->
     Lab.convergence_score (Lab.node time_time fmt order role s) = Lab.convergence_score s) /\
  (forall role (s : Adv.MultiAgentState),
     role <> EVALUATOR ->
     Adv.convergence_score (Adv.node time_time fmt role s) = Adv.convergence_score s) /\
  (forall s : Lab.MultiAgentState,
     Lab.convergence_score (Lab.evaluator_agent time_time fmt s) = Some 1.0%float) /\
  (forall s : Adv.MultiAgentState,
     Adv.convergence_score (Adv.evaluator_agent time_time fmt s) =
     Some (if Adv.in_final_evaluation s then 1.0%float else 0.5%float)) /\
  (forall task iterations role s,
     Lab.invoked time_time fmt order task iterations s ->
     score_le (Lab.get_convergence_score s)
              (Lab.get_convergence_score (Lab.node time_time fmt order role s))) /\
  (forall task max_iterations s,
     Adv.visited time_time fmt task max_iterations s ->
     Adv.decide_if_finished s = false ->
     score_le (Adv.get_convergence_score s)
              (Adv.get_convergence_score (Adv.turn time_time fmt s))).
Proof.
  split_and!.
  - apply lab_node_frame.
  - apply adv_node_frame.
  - reflexivity.
  - reflexivity.
  - intros task iterations role s Hs.
    pose proof (lab_invoked_score _ _ _ _ _ _ Hs) as Hscore.
    destruct (decide (role = EVALUATOR)) as [->|Hrole].
    + unfold Lab.get_convergence_score. cbn [Lab.node].
      destruct (lab_evaluator_turn time_time fmt s) as [? ->].
      destruct Hscore as [-> | ->]; reflexivity.
    + unfold Lab.get_convergence_score. rewrite (lab_node_frame _ _ _ _ _ Hrole).
      destruct Hscore as [-> | ->]; reflexivity.
  - intros task m s Hs Hnot.
    destruct (visited_within_budget _ _ _ _ _ Hs) as (k & Hinv & Hk).
    rewrite (within_budget_finished _ _ _ Hinv) in Hnot. apply Z.leb_gt in Hnot.
    destruct Hinv as (_ & _ & Hscore & Hphase). specialize (Hphase Hnot).
    rewrite adv_turn_node. unfold Adv.get_convergence_score.
    destruct (decide (Adv.current_agent s = EVALUATOR)) as [->|Hrole].
    + cbn [Adv.node]. destruct (adv_evaluator_turn time_time fmt s) as (? & ? & ->).
      rewrite Hphase. destruct Hscore as [-> | ->]; reflexivity.
    + rewrite (adv_node_frame _ _ _ _ Hrole).
      destruct Hscore as [-> | ->]; reflexivity.
Qed.

(** C10: an Evaluator turn of the advanced file taken outside the phase
    "final_evaluation" stores the score [0.5], which is below [0.9]; whether the
    run is finished after that turn depends on the iteration budget alone. *)
Theorem intermediate_evaluation_stays_below_threshold
    (time_time : nat -> float) (fmt : nat -> float -> string)
    (s : Adv.MultiAgentState) :
  Adv.current_phase s <> Some "final_evaluation" ->
  Adv.convergence_score (Adv.evaluator_agent time_time fmt s) = Some 0.5%float /\
  reaches_threshold 0.5%float = false /\
  (Adv.decide_if_finished (Adv.evaluator_agent time_time fmt s) = true <->
   Adv.get_max_iterations s <= Adv.get_current_iteration s).
Proof.
  intros Hphase.
  assert (Hfinal : Adv.in_final_evaluation s = false).
  { unfold Adv.in_final_evaluation. destruct (Adv.current_phase s) as [phase|]; [|done].
    apply String.eqb_neq. congruence. }
  destruct (adv_evaluator_turn time_time fmt s) as (text & metrics & ->).
  rewrite Hfinal. split_and!; [reflexivity..|].
  rewrite adv_decide_if_finished_iff. split; [|by right].
  intros [Habs|Hbudget]; [discriminate Habs|exact Hbudget].
Qed.

Lemma intermediate_evaluation_stays_below_threshold_witness :
  Adv.current_phase (Adv.initial_state "X" 5) <> Some "final_evaluation" /\
  Adv.convergence_score (Adv.evaluator_agent clock0 fmt0 (Adv.initial_state "X" 5)) =
  Some 0.5%float /\
  reaches_threshold 0.5%float = false /\
  (Adv.decide_if_finished (Adv.evaluator_agent clock0 fmt0 (Adv.initial_state "X" 5)) = true <->
   Adv.get_max_iterations (Adv.initial_state "X" 5) <=
   Adv.get_current_iteration (Adv.initial_state "X" 5)).
Proof.
  split; [discriminate|].
  apply (intermediate_evaluation_stays_below_threshold clock0 fmt0 (Adv.initial_state "X" 5)).
  discriminate.
Defined.

(** ** The statements above at concrete inputs *)

Lemma final_iteration_drafts_solution_witness :
  (Lab.get_current_iteration (lab_sample 4 3) <> 0 /\
   Lab.get_max_iterations (lab_sample 4 3) - 1 <= Lab.get_current_iteration (lab_sample 4 3) /\
   Lab.current_agent (Lab.coordinator_agent clock0 order0 (lab_sample 4 3)) = Some EVALUATOR /\
   Lab.solution (Lab.coordinator_agent clock0 order0 (lab_sample 4 3)) =
   Some ("FINAL SOLUTION:" +:+ nl +:+ nl +:+ "plan B" +:+ nl +:+ "plan C")) /\
  (Adv.get_current_iteration (adv_sample 4 3) <> 0 /\
   Adv.get_max_iterations (adv_sample 4 3) - 1 <= Adv.get_current_iteration (adv_sample 4 3) /\
   Adv.current_agent (Adv.coordinator_agent clock0 (adv_sample 4 3)) = EVALUATOR /\
   Adv.solution (Adv.coordinator_agent clock0 (adv_sample 4 3)) =
   Some ("FINAL SOLUTION:" +:+ nl +:+ nl +:+ "plan B" +:+ nl +:+ "plan C")).
Proof.
  destruct (final_iteration_drafts_solution clock0 order0) as [Hlab Hadv].
  split.
  - destruct (Hlab (lab_sample 4 3)) as [Hnext (_ & _ & Hdraft)];
      [discriminate | discriminate |].
    split; [discriminate|]. split; [discriminate|]. split; [exact Hnext|].
    exact (Hdraft ["plan A"] "plan B" "plan C" eq_refl).
  - destruct (Hadv (adv_sample 4 3)) as [Hnext (_ & _ & Hdraft)];
      [discriminate | discriminate |].
    split; [discriminate|]. split; [discriminate|]. split; [exact Hnext|].
    exact (Hdraft ["plan A"] "plan B" "plan C" eq_refl).
Defined.

Lemma middle_iteration_selects_by_phase_witness :
  (0 < Lab.get_current_iteration lab_answered < Lab.get_max_iterations lab_answered - 1 /\
   Lab.needed_responses (lab_recent lab_answered) ⊆
   Lab.received_responses (lab_recent lab_answered) /\
   Lab.get_current_iteration lab_answered mod 3 = 1 /\
   Lab.current_agent (Lab.coordinator_agent clock0 order0 lab_answered) = Some CRITIC) /\
  (0 < Adv.get_current_iteration (adv_sample 6 3) < Adv.get_max_iterations (adv_sample 6 3) - 1 /\
   Adv.get_current_iteration (adv_sample 6 3) mod 4 = 3 /\
   Adv.current_agent (Adv.coordinator_agent clock0 (adv_sample 6 3)) = EVALUATOR).
Proof.
  destruct (middle_iteration_selects_by_phase clock0 order0) as [Hlab Hadv].
  assert (Hmid : 0 < Lab.get_current_iteration lab_answered <
                 Lab.get_max_iterations lab_answered - 1) by (split; reflexivity).
  assert (Hall : Lab.needed_responses (lab_recent lab_answered) ⊆
                 Lab.received_responses (lab_recent lab_answered))
    by (refine (bool_decide_unpack _ _); vm_compute; exact I).
  assert (Hmid' : 0 < Adv.get_current_iteration (adv_sample 6 3) <
                  Adv.get_max_iterations (adv_sample 6 3) - 1) by (split; reflexivity).
  split.
  - destruct (Hlab lab_answered Hmid Hall) as (_ & _ & Hcritic & _).
    split; [exact Hmid|]. split; [exact Hall|]. split; [reflexivity|].
    exact (Hcritic eq_refl).
  - destruct (Hadv (adv_sample 6 3) Hmid') as (_ & _ & _ & _ & Hcheck).
    split; [exact Hmid'|]. split; [reflexivity|]. exact (Hcheck eq_refl).
Defined.

Lemma missing_responses_are_requested_again_witness :
  Lab.get_current_iteration lab_asked <> 0 /\
  Lab.get_current_iteration lab_asked < Lab.get_max_iterations lab_asked - 1 /\
  Lab.needed_responses (lab_recent lab_asked) <> ∅ /\
  ~ Lab.needed_responses (lab_recent lab_asked) ⊆ Lab.received_responses (lab_recent lab_asked) /\
  exists first rest new,
    lab_missing order0 lab_asked = first :: rest /\
    NoDup (first :: rest) /\
    (forall role, role ∈ first :: rest <->
                  role ∈ Lab.needed_responses (lab_recent lab_asked) /\
                  role ∉ Lab.received_responses (lab_recent lab_asked)) /\
    Lab.messages (Lab.coordinator_agent clock0 order0 lab_asked) =
    Lab.messages lab_asked ++ new /\
    List.map to_agent new = first :: rest /\
    Forall (fun m => request_at (Lab.get_current_iteration lab_asked) m /\
                     content m = "Following up on my previous request. Please respond.")
           new /\
    Lab.current_agent (Lab.coordinator_agent clock0 order0 lab_asked) = first /\
    Lab.current_iteration (Lab.coordinator_agent clock0 order0 lab_asked) =
    Some (Lab.get_current_iteration lab_asked + 1).
Proof.
  assert (H1 : Lab.get_current_iteration lab_asked <> 0) by discriminate.
  assert (H2 : Lab.get_current_iteration lab_asked < Lab.get_max_iterations lab_asked - 1)
    by reflexivity.
  assert (H3 : Lab.needed_responses (lab_recent lab_asked) <> ∅)
    by (refine (bool_decide_unpack _ _); vm_compute; exact I).
  assert (H4 : ~ Lab.needed_responses (lab_recent lab_asked) ⊆
                 Lab.received_responses (lab_recent lab_asked))
    by (refine (bool_decide_unpack _ _); vm_compute; exact I).
  split; [exact H1|]. split; [exact H2|]. split; [exact H3|]. split; [exact H4|].
  exact (missing_responses_are_requested_again clock0 order0 lab_asked H1 H2 H3 H4).
Defined.

Lemma response_carries_request_iteration_witness :
  (RESEARCHER <> COORDINATOR /\
   Forall (fun m => iteration m < Lab.get_current_iteration (Lab.initial_state "X" 5))
          (Lab.messages (Lab.initial_state "X" 5)) /\
   cycle_is_tagged 0 1 [] (Lab.messages lab_answered) RESEARCHER) /\
  (Forall (fun m => iteration m < Adv.get_current_iteration (Adv.initial_state "X" 5))
          (Adv.messages (Adv.initial_state "X" 5)) /\
   cycle_is_tagged 0 1 []
     (Adv.messages (Adv.researcher_agent clock0
                      (Adv.coordinator_agent clock0 (Adv.initial_state "X" 5))))
     RESEARCHER).
Proof.
  destruct (response_carries_request_iteration clock0 fmt0 order0)
    as (_ & _ & Hlab & Hadv & _).
  split.
  - split; [discriminate|]. split; [constructor|].
    apply (Hlab RESEARCHER (Lab.initial_state "X" 5)); [discriminate|constructor].
  - split; [constructor|].
    apply (Hadv RESEARCHER (Adv.initial_state "X" 5)); [discriminate|constructor].
Defined.

(* ------------------------------------------------------------------------- *)
(** * Further properties of the code *)
(* ------------------------------------------------------------------------- *)

(** ** Which agent writes which field *)

(** Splits a goal about a Coordinator turn along the branches of its source. *)
Ltac adv_coordinator_split s :=
  unfold Adv.coordinator_agent, adv_branch in *; cbv zeta;
  destruct (Adv.get_current_iteration s =? 0) eqn:Hboot;
  [ | destruct (Adv.get_current_iteration s <? Adv.get_max_iterations s - 1) eqn:Hmid;
      [ destruct (Adv.get_current_iteration s mod 4 =? 0) eqn:Hp0;
        [ | destruct (Adv.get_current_iteration s mod 4 =? 1) eqn:Hp1;
            [ | destruct (Adv.get_current_iteration s mod 4 =? 2) eqn:Hp2;
                [ | destruct (rev (contents_where (from_with_type EXECUTOR "response")
                                                  (Adv.messages s))) eqn:Hexec ] ] ]
      | ] ].

Ltac lab_coordinator_split order s :=
  unfold Lab.coordinator_agent, lab_branch in *; cbv zeta;
  destruct (Lab.get_current_iteration s =? 0) eqn:Hboot;
  [ | destruct (Lab.get_current_iteration s <? Lab.get_max_iterations s - 1) eqn:Hmid;
      [ fold (lab_recent s); fold (lab_missing order s);
        destruct (Lab.responses_missing (Lab.needed_responses (lab_recent s))
                                        (Lab.received_responses (lab_recent s))) eqn:Hmiss;
        [ | destruct (Lab.get_current_iteration s mod 3 =? 0) eqn:Hp0;
            [ | destruct (Lab.get_current_iteration s mod 3 =? 1) eqn:Hp1 ] ]
      | ] ].

Lemma lab_worker_fields time_time fmt order role (s : Lab.MultiAgentState) :
  role <> COORDINATOR ->
  let s' := Lab.node time_time fmt order role s in
  Lab.task s' = Lab.task s /\ Lab.max_iterations s' = Lab.max_iterations s /\
  Lab.current_iteration s' = Lab.current_iteration s /\
  Lab.artifacts s' = Lab.artifacts s /\ Lab.solution s' = Lab.solution s.
Proof.
  intros Hrole. destruct role; [done|..]; cbn [Lab.node].
  - by destruct (lab_researcher_turn time_time s) as [? ->].
  - by destruct (lab_critic_turn time_time s) as [? ->].
  - by destruct (lab_executor_turn time_time s) as [? ->].
  - by destruct (lab_evaluator_turn time_time fmt s) as [? ->].
Qed.

Lemma adv_worker_fields time_time fmt role (s : Adv.MultiAgentState) :
  role <> COORDINATOR ->
  let s' := Adv.node time_time fmt role s in
  Adv.task s' = Adv.task s /\ Adv.max_iterations s' = Adv.max_iterations s /\
  Adv.current_iteration s' = Adv.current_iteration s /\
  Adv.artifacts s' = Adv.artifacts s /\ Adv.solution s' = Adv.solution s /\
  Adv.current_phase s' = Adv.current_phase s /\
  Adv.current_agent s' = COORDINATOR.
Proof.
  intros Hrole. destruct role; [done|..]; cbn [Adv.node].
  - by destruct (adv_researcher_turn time_time s) as [? ->].
  - by destruct (adv_critic_turn time_time s) as [? ->].
  - by destruct (adv_executor_turn time_time s) as [? ->].
  - by destruct (adv_evaluator_turn time_time fmt s) as (? & ? & ->).
Qed.

(** X1: no agent of either file changes [task] or [max_iterations]; a turn of
    the Coordinator adds one to [current_iteration], whatever branch it takes,
    and a turn of any other agent leaves the counter as it is. *)
Theorem iteration_counter_is_the_coordinators
    (time_time : nat -> float) (fmt : nat -> float -> string) (order : SetOrder) :
  (forall role (s : Lab.MultiAgentState),
     let s' := Lab.node time_time fmt order role s in
     Lab.task s' = Lab.task s /\
     Lab.max_iterations s' = Lab.max_iterations s /\
     Lab.get_current_iteration s' =
     Lab.get_current_iteration s + (if bool_decide (role = COORDINATOR) then 1 else 0)) /\
  (forall role (s : Adv.MultiAgentState),
     let s' := Adv.node time_time fmt role s in
     Adv.task s' = Adv.task s /\
     Adv.max_iterations s' = Adv.max_iterations s /\
     Adv.get_current_iteration s' =
     Adv.get_current_iteration s + (if bool_decide (role = COORDINATOR) then 1 else 0)).
Proof.
  split; intros role s s'; subst s'; case_bool_decide as Hrole.
  - subst role. cbn [Lab.node].
    destruct (lab_coordinator_frame time_time order s) as (_ & Hmax & _ & Htask).
    split_and!; [done..|].
    unfold Lab.get_current_iteration at 1. by rewrite lab_coordinator_iteration.
  - destruct (lab_worker_fields time_time fmt order role s Hrole) as (Ht & Hm & Hi & _).
    split_and!; [done..|]. unfold Lab.get_current_iteration. rewrite Hi. lia.
  - subst role. cbn [Adv.node].
    destruct (adv_coordinator_frame time_time s) as (_ & Hmax & _ & Htask).
    split_and!; [done..|].
    unfold Adv.get_current_iteration at 1. by rewrite adv_coordinator_iteration.
  - destruct (adv_worker_fields time_time fmt role s Hrole) as (Ht & Hm & Hi & _).
    split_and!; [done..|]. unfold Adv.get_current_iteration. rewrite Hi. lia.
Qed.

Lemma lab_coordinator_artifacts time_time order (s : Lab.MultiAgentState) :
  Lab.artifacts (Lab.coordinator_agent time_time order s) =
  if Lab.get_current_iteration s =? 0
  then <["plan" := initial_plan]> (Lab.artifacts s) else Lab.artifacts s.
Proof. lab_coordinator_split order s; reflexivity. Qed.

Lemma adv_coordinator_artifacts time_time (s : Adv.MultiAgentState) :
  Adv.artifacts (Adv.coordinator_agent time_time s) =
  if Adv.get_current_iteration s =? 0
  then <["plan" := initial_plan]> (Adv.artifacts s) else Adv.artifacts s.
Proof. adv_coordinator_split s; reflexivity. Qed.

(** X2: the one write to [artifacts] is the Coordinator's first turn
    ([current_iteration = 0]), which files the plan under "plan" and keeps every
    other key; every other turn of every agent returns the artifacts it was
    given. *)
Theorem artifacts_hold_the_plan
    (time_time : nat -> float) (fmt : nat -> float -> string) (order : SetOrder) :
  (forall s : Lab.MultiAgentState,
     Lab.get_current_iteration s = 0 ->
     Lab.artifacts (Lab.coordinator_agent time_time order s) !! "plan" = Some initial_plan /\
     forall key, key <> "plan" ->
       Lab.artifacts (Lab.coordinator_agent time_time order s) !! key =
       Lab.artifacts s !! key) /\
  (forall role (s : Lab.MultiAgentState),
     (role = COORDINATOR -> Lab.get_current_iteration s <> 0) ->
     Lab.artifacts (Lab.node time_time fmt order role s) = Lab.artifacts s) /\
  (forall s : Adv.MultiAgentState,
     Adv.get_current_iteration s = 0 ->
     Adv.artifacts (Adv.coordinator_agent time_time s) !! "plan" = Some initial_plan /\
     forall key, key <> "plan" ->
       Adv.artifacts (Adv.coordinator_agent time_time s) !! key =
       Adv.artifacts s !! key) /\
  (forall role (s : Adv.MultiAgentState),
     (role = COORDINATOR -> Adv.get_current_iteration s <> 0) ->
     Adv.artifacts (Adv.node time_time fmt role s) = Adv.artifacts s).
Proof.
  split_and!.
  - intros s Hit. rewrite lab_coordinator_artifacts, Hit. cbn. split.
    + apply lookup_insert_eq.
    + intros key Hkey. by apply lookup_insert_ne.
  - intros role s Hrole. destruct (decide (role = COORDINATOR)) as [->|Hw].
    + cbn [Lab.node]. rewrite lab_coordinator_artifacts.
      destruct (Z.eqb_spec (Lab.get_current_iteration s) 0); [by destruct Hrole|done].
    + apply (lab_worker_fields time_time fmt order role s Hw).
  - intros s Hit. rewrite adv_coordinator_artifacts, Hit. cbn. split.
    + apply lookup_insert_eq.
    + intros key Hkey. by apply lookup_insert_ne.
  - intros role s Hrole. destruct (decide (role = COORDINATOR)) as [->|Hw].
    + cbn [Adv.node]. rewrite adv_coordinator_artifacts.
      destruct (Z.eqb_spec (Adv.get_current_iteration s) 0); [by destruct Hrole|done].
    + apply (adv_worker_fields time_time fmt role s Hw).
Qed.

Lemma lab_coordinator_solution time_time order (s : Lab.MultiAgentState) :
  lab_branch s <> Final ->
  Lab.solution (Lab.coordinator_agent time_time order s) = Lab.solution s.
Proof. intros Hb. lab_coordinator_split order s; done. Qed.

Lemma adv_coordinator_solution time_time (s : Adv.MultiAgentState) :
  adv_branch s <> Final ->
  Adv.solution (Adv.coordinator_agent time_time s) = Adv.solution s.
Proof. intros Hb. adv_coordinator_split s; done. Qed.

Lemma lab_node_evaluation time_time fmt order role (s : Lab.MultiAgentState) :
  role <> EVALUATOR ->
  Lab.evaluation (Lab.node time_time fmt order role s) = Lab.evaluation s.
Proof.
  intros Hrole. destruct role; cbn [Lab.node]; [| | | |done].
  - apply lab_coordinator_frame.
  - by destruct (lab_researcher_turn time_time s) as [? ->].
  - by destruct (lab_critic_turn time_time s) as [? ->].
  - by destruct (lab_executor_turn time_time s) as [? ->].
Qed.

Lemma adv_node_evaluation time_time fmt role (s : Adv.MultiAgentState) :
  role <> EVALUATOR ->
  Adv.evaluation (Adv.node time_time fmt role s) = Adv.evaluation s.
Proof.
  intros Hrole. destruct role; cbn [Adv.node]; [| | | |done].
  - apply adv_coordinator_frame.
  - by destruct (adv_researcher_turn time_time s) as [? ->].
  - by destruct (adv_critic_turn time_time s) as [? ->].
  - by destruct (adv_executor_turn time_time s) as [? ->].
Qed.

(** X3: [solution] is written by the final branch of the Coordinator and by
    nothing else, and [evaluation] by the Evaluator and by nothing else; the
    Evaluator always leaves an evaluation behind. *)
Theorem solution_and_evaluation_have_one_writer
    (time_time : nat -> float) (fmt : nat -> float -> string) (order : SetOrder) :
  (forall role (s : Lab.MultiAgentState),
     (role = COORDINATOR -> lab_branch s <> Final) ->
     Lab.solution (Lab.node time_time fmt order role s) = Lab.solution s) /\
  (forall role (s : Lab.MultiAgentState),
     role <> EVALUATOR ->
     Lab.evaluation (Lab.node time_time fmt order role s) = Lab.evaluation s) /\
  (forall s : Lab.MultiAgentState,
     Lab.evaluation (Lab.evaluator_agent time_time fmt s) <> None) /\
  (forall role (s : Adv.MultiAgentState),
     (role = COORDINATOR -> adv_branch s <> Final) ->
     Adv.solution (Adv.node time_time fmt role s) = Adv.solution s) /\
  (forall role (s : Adv.MultiAgentState),
     role <> EVALUATOR ->
     Adv.evaluation (Adv.node time_time fmt role s) = Adv.evaluation s) /\
  (forall s : Adv.MultiAgentState,
     Adv.evaluation (Adv.evaluator_agent time_time fmt s) <> None).
Proof.
  split_and!.
  - intros role s Hrole. destruct (decide (role = COORDINATOR)) as [->|Hw].
    + by apply lab_coordinator_solution, Hrole.
    + apply (lab_worker_fields time_time fmt order role s Hw).
  - apply lab_node_evaluation.
  - done.
  - intros role s Hrole. destruct (decide (role = COORDINATOR)) as [->|Hw].
    + by apply adv_coordinator_solution, Hrole.
    + apply (adv_worker_fields time_time fmt role s Hw).
  - apply adv_node_evaluation.
  - done.
Qed.

(** ** Hand-over and retry *)

Lemma filter_all {A} (p : A -> bool) (l : list A) :
  Forall (fun x => p x = true) l -> List.filter p l = l.
Proof. induction 1 as [|x l Hx _ IH]; [done|]. cbn. by rewrite Hx, IH. Qed.

Lemma filter_none {A} (p : A -> bool) (l : list A) :
  Forall (fun x => p x = false) l -> List.filter p l = [].
Proof. induction 1 as [|x l Hx _ IH]; [done|]. cbn. by rewrite Hx. Qed.

Lemma needed_of_requests k (requests : list AgentMessage) :
  Forall (request_at k) requests ->
  Lab.needed_responses requests = list_to_set (List.map to_agent requests).
Proof.
  intros Hreq. unfold Lab.needed_responses. rewrite filter_all; [done|].
  eapply Forall_impl; [exact Hreq|]. intros m (Hf & Ht & _).
  unfold from_with_type. rewrite Hf, Ht. by rewrite bool_decide_eq_true_2.
Qed.

Lemma received_of_requests k (requests : list AgentMessage) :
  Forall (request_at k) requests -> Lab.received_responses requests = ∅.
Proof.
  intros Hreq. unfold Lab.received_responses. rewrite filter_none; [done|].
  eapply Forall_impl; [exact Hreq|]. intros m (_ & Ht & _). by rewrite Ht.
Qed.

Lemma needed_responses_app l1 l2 :
  Lab.needed_responses (l1 ++ l2) = Lab.needed_responses l1 ∪ Lab.needed_responses l2.
Proof.
  unfold Lab.needed_responses. rewrite List.filter_app, List.map_app.
  apply leibniz_equiv. by rewrite list_to_set_app.
Qed.

Lemma received_responses_app l1 l2 :
  Lab.received_responses (l1 ++ l2) =
  Lab.received_responses l1 ∪ Lab.received_responses l2.
Proof.
  unfold Lab.received_responses. rewrite List.filter_app, List.map_app.
  apply leibniz_equiv. by rewrite list_to_set_app.
Qed.

(** Outside the follow-up branch the Coordinator of the lab file appends one
    request and hands over to its addressee, which is not the Coordinator. *)
Lemma lab_coordinator_single time_time order (s : Lab.MultiAgentState) :
  Lab.responses_missing (Lab.needed_responses (lab_recent s))
                        (Lab.received_responses (lab_recent s)) = false \/
  lab_branch s <> Middle ->
  exists worker text,
    worker <> COORDINATOR /\
    Lab.messages (Lab.coordinator_agent time_time order s) =
    Lab.messages s ++
    [mkMessage COORDINATOR (Some worker) text (time_time (length (Lab.messages s)))
               "request" (Lab.get_current_iteration s)] /\
    Lab.current_agent (Lab.coordinator_agent time_time order s) = Some worker.
Proof.
  intros Hbranch. lab_coordinator_split order s;
    try (eexists; eexists; split; [|split; reflexivity]; discriminate).
  destruct Hbranch as [?|?]; congruence.
Qed.

(** In every branch the Coordinator of the lab file appends at least one
    request and hands over to the addressee of the first. *)
Lemma lab_coordinator_handover time_time order (s : Lab.MultiAgentState) :
  exists first rest,
    Lab.messages (Lab.coordinator_agent time_time order s) =
    Lab.messages s ++ first :: rest /\
    Forall (request_at (Lab.get_current_iteration s)) (first :: rest) /\
    Lab.current_agent (Lab.coordinator_agent time_time order s) = to_agent first.
Proof.
  destruct (Lab.responses_missing (Lab.needed_responses (lab_recent s))
              (Lab.received_responses (lab_recent s))) eqn:Hmiss.
  - assert (Hcase : lab_branch s = Middle \/ lab_branch s <> Middle)
      by (destruct (lab_branch s); [right|left|right]; done).
    destruct Hcase as [Hmid|Hnot].
    + pose proof (proj1 (responses_missing_true _ _) Hmiss) as [_ Hsub].
      destruct (lab_missing_nonempty order s Hsub) as (role & roles & Hmissing).
      destruct (follow_up_appends time_time (lab_missing order s)
                  (Lab.get_current_iteration s) (Lab.messages s))
        as (new & Hnew & Hto & Hall).
      rewrite Hmissing in Hto. destruct new as [|first rest]; [done|].
      injection Hto as Hfirst _.
      exists first, rest. split_and!.
      * rewrite <- Hnew. unfold lab_branch in Hmid.
        unfold Lab.coordinator_agent. cbv zeta.
        destruct (Lab.get_current_iteration s =? 0); [done|].
        destruct (Lab.get_current_iteration s <? Lab.get_max_iterations s - 1); [|done].
        fold (lab_recent s). fold (lab_missing order s). by rewrite Hmiss.
      * eapply Forall_impl; [exact Hall|]. by intros ? [? _].
      * unfold lab_branch in Hmid.
        unfold Lab.coordinator_agent. cbv zeta.
        destruct (Lab.get_current_iteration s =? 0); [done|].
        destruct (Lab.get_current_iteration s <? Lab.get_max_iterations s - 1); [|done].
        fold (lab_recent s). fold (lab_missing order s).
        rewrite Hmiss, Hmissing. by rewrite Hfirst.
    + destruct (lab_coordinator_single time_time order s (or_intror Hnot))
        as (worker & text & _ & Hlog & Hnext).
      eexists _, []. split; [exact Hlog|]. split; [by repeat constructor|exact Hnext].
  - destruct (lab_coordinator_single time_time order s (or_introl Hmiss))
      as (worker & text & _ & Hlog & Hnext).
    eexists _, []. split; [exact Hlog|]. split; [by repeat constructor|exact Hnext].
Qed.

(** X4: every turn of the Coordinator appends at least one request of its own,
    tagged with the current iteration, and hands over to the addressee of the
    first request it appended; in the advanced file the request is the only
    message appended and its addressee is never the Coordinator. *)
Theorem coordinator_hands_over_to_the_addressee
    (time_time : nat -> float) (order : SetOrder) :
  (forall s : Lab.MultiAgentState,
     exists first rest,
       Lab.messages (Lab.coordinator_agent time_time order s) =
       Lab.messages s ++ first :: rest /\
       Forall (request_at (Lab.get_current_iteration s)) (first :: rest) /\
       Lab.current_agent (Lab.coordinator_agent time_time order s) = to_agent first) /\
  (forall s : Adv.MultiAgentState,
     exists request,
       Adv.messages (Adv.coordinator_agent time_time s) = Adv.messages s ++ [request] /\
       request_at (Adv.get_current_iteration s) request /\
       to_agent request = Some (Adv.current_agent (Adv.coordinator_agent time_time s)) /\
       Adv.current_agent (Adv.coordinator_agent time_time s) <> COORDINATOR).
Proof.
  split; intros s.
  - apply lab_coordinator_handover.
  - destruct (adv_coordinator_request time_time s) as (to & text & Hlog & Hnext & Hto).
    exists (adv_request time_time to text s).
    rewrite Hnext. by split_and!.
Qed.

(** X5: in the lab file, when the Coordinator has sent a single request (it
    did not take the follow-up branch) and the agent it handed over to has taken
    its turn, the next turn of the Coordinator finds no response missing: the
    roles asked and the roles that answered are both the one worker. *)
Theorem answered_request_is_not_missing
    (time_time : nat -> float) (fmt : nat -> float -> string) (order : SetOrder)
    (s : Lab.MultiAgentState) (worker : AgentRole) :
  tags_below_counter s ->
  Lab.responses_missing (Lab.needed_responses (lab_recent s))
                        (Lab.received_responses (lab_recent s)) = false \/
  lab_branch s <> Middle ->
  Lab.current_agent (Lab.coordinator_agent time_time order s) = Some worker ->
  let s' := Lab.node time_time fmt order worker (Lab.coordinator_agent time_time order s) in
  Lab.needed_responses (lab_recent s') = {[ Some worker ]} /\
  Lab.received_responses (lab_recent s') = {[ Some worker ]} /\
  Lab.responses_missing (Lab.needed_responses (lab_recent s'))
                        (Lab.received_responses (lab_recent s')) = false.
Proof.
  intros Hlog Hbranch Hnext s'.
  destruct (lab_coordinator_single time_time order s Hbranch)
    as (worker' & text & Hworker & Hreq & Hnext').
  assert (worker' = worker) as -> by congruence.
  pose proof (lab_coordinator_iteration time_time order s) as Hit.
  set (s1 := Lab.coordinator_agent time_time order s) in *.
  destruct (lab_worker_appends time_time fmt order worker s1 Hworker)
    as (answer & Hresp & Hit2).
  fold s' in Hresp, Hit2.
  assert (Hk : Lab.get_current_iteration s' - 1 = Lab.get_current_iteration s).
  { unfold Lab.get_current_iteration at 1. rewrite Hit2, Hit. cbn. lia. }
  assert (Hk1 : Lab.get_current_iteration s1 - 1 = Lab.get_current_iteration s).
  { unfold Lab.get_current_iteration at 1. rewrite Hit. cbn. lia. }
  set (request := mkMessage COORDINATOR (Some worker) text
                            (time_time (length (Lab.messages s))) "request"
                            (Lab.get_current_iteration s)) in *.
  assert (Hrecent : lab_recent s' = [request; lab_response time_time worker answer s1]).
  { unfold lab_recent. rewrite Hk, Hresp, Hreq.
    apply (cycle_tags _ _ [request] _ Hlog); [by repeat constructor|].
    cbn. lia. }
  assert (Hneeded : Lab.needed_responses (lab_recent s') = {[ Some worker ]}).
  { rewrite Hrecent. unfold Lab.needed_responses, from_with_type. cbn.
    rewrite bool_decide_eq_true_2 by done. cbn.
    destruct (bool_decide (worker = COORDINATOR)); cbn;
      apply (right_id_L ∅ (∪)). }
  assert (Hreceived : Lab.received_responses (lab_recent s') = {[ Some worker ]}).
  { rewrite Hrecent. unfold Lab.received_responses. cbn.
    rewrite bool_decide_eq_true_2 by done. cbn. apply (right_id_L ∅ (∪)). }
  split_and!; [done..|].
  apply responses_missing_false. by rewrite Hneeded, Hreceived.
Qed.

Lemma answered_request_is_not_missing_witness :
  tags_below_counter (Lab.initial_state "X" 5) /\
  (Lab.responses_missing (Lab.needed_responses (lab_recent (Lab.initial_state "X" 5)))
     (Lab.received_responses (lab_recent (Lab.initial_state "X" 5))) = false \/
   lab_branch (Lab.initial_state "X" 5) <> Middle) /\
  Lab.current_agent lab_asked = Some RESEARCHER /\
  Lab.needed_responses (lab_recent lab_answered) = {[ Some RESEARCHER ]} /\
  Lab.received_responses (lab_recent lab_answered) = {[ Some RESEARCHER ]} /\
  Lab.responses_missing (Lab.needed_responses (lab_recent lab_answered))
                        (Lab.received_responses (lab_recent lab_answered)) = false.
Proof.
  assert (H1 : tags_below_counter (Lab.initial_state "X" 5)) by constructor.
  assert (H2 : Lab.responses_missing
                 (Lab.needed_responses (lab_recent (Lab.initial_state "X" 5)))
                 (Lab.received_responses (lab_recent (Lab.initial_state "X" 5))) = false \/
               lab_branch (Lab.initial_state "X" 5) <> Middle) by (right; discriminate).
  assert (H3 : Lab.current_agent lab_asked = Some RESEARCHER) by reflexivity.
  split; [exact H1|]. split; [exact H2|]. split; [exact H3|].
  exact (answered_request_is_not_missing clock0 fmt0 order0 (Lab.initial_state "X" 5)
           RESEARCHER H1 H2 H3).
Defined.

(** After a turn of the Coordinator on a log with smaller tags, the messages
    of the previous iteration are the requests of that turn, none of them
    answered. *)
Lemma lab_after_coordinator time_time order (s : Lab.MultiAgentState) :
  tags_below_counter s ->
  exists requests,
    Lab.messages (Lab.coordinator_agent time_time order s) = Lab.messages s ++ requests /\
    lab_recent (Lab.coordinator_agent time_time order s) = requests /\
    Lab.responses_missing
      (Lab.needed_responses (lab_recent (Lab.coordinator_agent time_time order s)))
      (Lab.received_responses (lab_recent (Lab.coordinator_agent time_time order s))) = true /\
    forall role,
      role ∈ lab_missing order (Lab.coordinator_agent time_time order s) <->
      role ∈ List.map to_agent requests.
Proof.
  intros Hlog.
  destruct (lab_coordinator_handover time_time order s) as (first & rest & Hmsgs & Hreq & _).
  pose proof (lab_coordinator_iteration time_time order s) as Hit.
  set (s1 := Lab.coordinator_agent time_time order s) in *.
  assert (Hrecent : lab_recent s1 = first :: rest).
  { assert (Hk : Lab.get_current_iteration s1 - 1 = Lab.get_current_iteration s).
    { unfold Lab.get_current_iteration at 1. rewrite Hit. cbn. lia. }
    unfold lab_recent. rewrite Hk, Hmsgs.
    rewrite with_iteration_app, (with_iteration_older _ _ Hlog).
    apply with_iteration_same.
    eapply Forall_impl; [exact Hreq|]. by intros ? (_ & _ & ?). }
  assert (Hneeded : Lab.needed_responses (lab_recent s1) =
                    list_to_set (List.map to_agent (first :: rest)))
    by (rewrite Hrecent; by eapply needed_of_requests).
  assert (Hreceived : Lab.received_responses (lab_recent s1) = ∅)
    by (rewrite Hrecent; by eapply received_of_requests).
  exists (first :: rest). split_and!; [done..| |].
  - apply responses_missing_true. rewrite Hneeded, Hreceived. cbn. split.
    + intros Hempty. apply (not_elem_of_empty (C := gset (option AgentRole)) (to_agent first)).
      rewrite <- Hempty. apply elem_of_union_l. by apply elem_of_singleton.
    + intros Hsub. apply (not_elem_of_empty (C := gset (option AgentRole)) (to_agent first)).
      apply Hsub. apply elem_of_union_l. by apply elem_of_singleton.
  - intros role. rewrite (proj2 (lab_missing_spec order s1)), Hneeded, Hreceived.
    rewrite elem_of_list_to_set. split; [by intros [? _]|].
    intros Hin. split; [done|]. apply not_elem_of_empty.
Qed.

(** X6: in the lab file, when the Coordinator takes a second turn in a row and
    that turn is a middle iteration, it finds every request of its previous turn
    unanswered and does nothing but follow up: it appends follow-up requests, and
    their addressees are the addressees of the requests of the previous turn. *)
Theorem unanswered_request_is_followed_up
    (time_time : nat -> float) (order : SetOrder) (s : Lab.MultiAgentState) :
  tags_below_counter s ->
  lab_branch (Lab.coordinator_agent time_time order s) = Middle ->
  exists requests followups,
    Lab.messages (Lab.coordinator_agent time_time order s) = Lab.messages s ++ requests /\
    Lab.messages (Lab.coordinator_agent time_time order
                    (Lab.coordinator_agent time_time order s)) =
    (Lab.messages s ++ requests) ++ followups /\
    Forall (fun m => content m = "Following up on my previous request. Please respond.")
           followups /\
    forall role, role ∈ List.map to_agent followups <-> role ∈ List.map to_agent requests.
Proof.
  intros Hlog Hmid.
  destruct (lab_after_coordinator time_time order s Hlog)
    as (requests & Hmsgs & _ & Hmiss & Hroles).
  set (s1 := Lab.coordinator_agent time_time order s) in *.
  destruct (follow_up_appends time_time (lab_missing order s1)
              (Lab.get_current_iteration s1) (Lab.messages s1))
    as (followups & Hnew & Hto & Hall).
  exists requests, followups. split_and!; [done| | |].
  - rewrite <- Hmsgs, <- Hnew. unfold lab_branch in Hmid.
    unfold Lab.coordinator_agent at 1. cbv zeta.
    destruct (Lab.get_current_iteration s1 =? 0); [done|].
    destruct (Lab.get_current_iteration s1 <? Lab.get_max_iterations s1 - 1); [|done].
    fold (lab_recent s1). fold (lab_missing order s1). by rewrite Hmiss.
  - eapply Forall_impl; [exact Hall|]. by intros ? [_ ?].
  - intros role. by rewrite Hto, Hroles.
Qed.

Lemma unanswered_request_is_followed_up_witness :
  tags_below_counter (Lab.initial_state "X" 5) /\
  lab_branch lab_asked = Middle /\
  exists requests followups,
    Lab.messages lab_asked = Lab.messages (Lab.initial_state "X" 5) ++ requests /\
    Lab.messages (Lab.coordinator_agent clock0 order0 lab_asked) =
    (Lab.messages (Lab.initial_state "X" 5) ++ requests) ++ followups /\
    Forall (fun m => content m = "Following up on my previous request. Please respond.")
           followups /\
    forall role, role ∈ List.map to_agent followups <-> role ∈ List.map to_agent requests.
Proof.
  assert (H1 : tags_below_counter (Lab.initial_state "X" 5)) by constructor.
  assert (H2 : lab_branch lab_asked = Middle) by reflexivity.
  split; [exact H1|]. split; [exact H2|].
  exact (unanswered_request_is_followed_up clock0 order0 (Lab.initial_state "X" 5) H1 H2).
Defined.

(** ** Reachable states of the lab file *)

Lemma lab_invoked_evaluation time_time fmt order task iterations s :
  Lab.invoked time_time fmt order task iterations s ->
  Lab.evaluation s <> None <-> Lab.convergence_score s = Some 1.0%float.
Proof.
  induction 1 as [|role s _ IH]; [done|].
  destruct (decide (role = EVALUATOR)) as [->|Hrole].
  - cbn [Lab.node]. by destruct (lab_evaluator_turn time_time fmt s) as [? ->].
  - by rewrite (lab_node_evaluation _ _ _ _ _ Hrole), (lab_node_frame _ _ _ _ _ Hrole).
Qed.

(** X7: in the lab file a turn of the Evaluator always finishes the run, and
    in every state reachable from the initial state of [main] the run is
    finished exactly when an evaluation is stored, that is when the score is
    [1.0]: the iteration budget alone never ends a run. *)
Theorem lab_run_ends_with_the_evaluation
    (time_time : nat -> float) (fmt : nat -> float -> string) (order : SetOrder) :
  (forall s : Lab.MultiAgentState,
     Lab.decide_if_finished (Lab.evaluator_agent time_time fmt s) = true) /\
  (forall task iterations s,
     Lab.invoked time_time fmt order task iterations s ->
     (Lab.decide_if_finished s = true <-> Lab.evaluation s <> None) /\
     (Lab.decide_if_finished s = true <-> Lab.convergence_score s = Some 1.0%float)).
Proof.
  split.
  - intros s. by destruct (lab_evaluator_turn time_time fmt s) as [? ->].
  - intros task iterations s Hs.
    pose proof (lab_invoked_evaluation _ _ _ _ _ _ Hs) as Heval.
    pose proof (lab_invoked_score _ _ _ _ _ _ Hs) as Hscore.
    assert (Hfin : Lab.decide_if_finished s = true <->
                   Lab.convergence_score s = Some 1.0%float).
    { rewrite lab_decide_if_finished_iff. unfold Lab.get_convergence_score. split.
      - intros [Hreach|[_ Hev]]; [|by apply Heval].
        destruct Hscore as [Hs0|Hs1]; [|done]. by rewrite Hs0 in Hreach.
      - intros ->. by left. }
    split; [|done]. by rewrite Hfin, Heval.
Qed.

(** ** Order of the tags in the log *)

Lemma tags_in_order_same k (l : list AgentMessage) :
  Forall (fun m => iteration m = k) l -> tags_in_order l.
Proof.
  induction 1 as [|m l Hm Hl IH]; [constructor|].
  constructor; [done|]. eapply Forall_impl; [exact Hl|]. cbn. intros; lia.
Qed.

Lemma tags_in_order_app k (log new : list AgentMessage) :
  tags_in_order log ->
  Forall (fun m => iteration m <= k) log ->
  Forall (fun m => iteration m = k) new ->
  tags_in_order (log ++ new).
Proof.
  intros Hsorted Hlog Hnew. apply StronglySorted_app_2.
  - intros m1 m2 H1 H2.
    rewrite Forall_forall in Hlog. rewrite Forall_forall in Hnew.
    specialize (Hlog m1 H1). specialize (Hnew m2 H2). cbn in *. lia.
  - done.
  - by eapply tags_in_order_same.
Qed.

Lemma lab_node_tags_in_order time_time fmt order role (s : Lab.MultiAgentState) :
  tags_below_counter s -> tags_in_order (Lab.messages s) ->
  tags_in_order (Lab.messages (Lab.node time_time fmt order role s)).
Proof.
  intros Hlog Hsorted. destruct (decide (role = COORDINATOR)) as [->|Hrole].
  - cbn [Lab.node].
    destruct (lab_coordinator_requests time_time order s) as (new & -> & Hnew).
    apply (tags_in_order_app (Lab.get_current_iteration s)); [done| |].
    + eapply Forall_impl; [exact Hlog|]. intros; cbn in *; lia.
    + eapply Forall_impl; [exact Hnew|]. by intros ? (_ & _ & ?).
  - destruct (lab_worker_appends time_time fmt order role s Hrole) as (text & -> & _).
    apply (tags_in_order_app (Lab.get_current_iteration s - 1)); [done| |].
    + eapply Forall_impl; [exact Hlog|]. intros; cbn in *; lia.
    + by repeat constructor.
Qed.

Lemma adv_node_tags_in_order time_time fmt role (s : Adv.MultiAgentState) :
  Forall (fun m => iteration m < Adv.get_current_iteration s) (Adv.messages s) ->
  tags_in_order (Adv.messages s) ->
  tags_in_order (Adv.messages (Adv.node time_time fmt role s)).
Proof.
  intros Hlog Hsorted. destruct (decide (role = COORDINATOR)) as [->|Hrole].
  - cbn [Adv.node].
    destruct (adv_coordinator_request time_time s) as (to & text & -> & _).
    apply (tags_in_order_app (Adv.get_current_iteration s)); [done| |].
    + eapply Forall_impl; [exact Hlog|]. intros; cbn in *; lia.
    + by repeat constructor.
  - destruct (adv_worker_appends time_time fmt role s Hrole) as (text & -> & _).
    apply (tags_in_order_app (Adv.get_current_iteration s - 1)); [done| |].
    + eapply Forall_impl; [exact Hlog|]. intros; cbn in *; lia.
    + by repeat constructor.
Qed.

(** X8: in every state a run reaches (the loop of [run_multi_agent_system]; any
    sequence of node invocations from the initial state of the lab file) the
    iteration tags of the log never decrease from one message to a later one,
    and all of them are below [current_iteration]. *)
Theorem log_tags_never_decrease
    (time_time : nat -> float) (fmt : nat -> float -> string) (order : SetOrder) :
  (forall task iterations s,
     Lab.invoked time_time fmt order task iterations s ->
     tags_in_order (Lab.messages s) /\
     Forall (fun m => iteration m < Lab.get_current_iteration s) (Lab.messages s)) /\
  (forall task max_iterations s,
     Adv.visited time_time fmt task max_iterations s ->
     tags_in_order (Adv.messages s) /\
     Forall (fun m => iteration m < Adv.get_current_iteration s) (Adv.messages s)).
Proof.
  split.
  - intros task iterations s Hs. split; [|by eapply lab_invoked_tags_below].
    induction Hs as [|role s Hs IH]; [constructor|].
    apply lab_node_tags_in_order; [|done]. by eapply lab_invoked_tags_below.
  - intros task m s Hs. split; [|by eapply adv_visited_tags_below].
    induction Hs as [|s Hs IH Hnot]; [constructor|].
    rewrite adv_turn_node. apply adv_node_tags_in_order; [|done].
    by eapply adv_visited_tags_below.
Qed.

(** ** Shape of a run of the advanced file *)

Section AdvRunShape.

Context (time_time : nat -> float) (fmt : nat -> float -> string).

Abbreviation run_loop' := (Adv.run_loop time_time fmt).
Abbreviation turn' := (Adv.turn time_time fmt).

Lemma adv_turn_appends s :
  exists m, Adv.messages (turn' s) = Adv.messages s ++ [m] /\
            from_agent m = Adv.current_agent s.
Proof.
  rewrite adv_turn_node. destruct (decide (Adv.current_agent s = COORDINATOR)) as [Hc|Hw].
  - rewrite Hc. cbn [Adv.node].
    destruct (adv_coordinator_request time_time s) as (to & text & -> & _). by eexists.
  - destruct (adv_worker_appends time_time fmt _ s Hw) as (text & -> & _). by eexists.
Qed.

Lemma run_loop_same_result fuel1 fuel2 s trace r1 r2 :
  run_loop' fuel1 s trace = Some r1 -> run_loop' fuel2 s trace = Some r2 -> r1 = r2.
Proof.
  intros H1 H2.
  apply (run_loop_more_fuel _ _ _ (fuel1 `max` fuel2)%nat) in H1; [|lia].
  apply (run_loop_more_fuel _ _ _ (fuel1 `max` fuel2)%nat) in H2; [|lia].
  congruence.
Qed.

(** The loop only returns states it has visited, and those are finished. *)
Lemma run_loop_visited task m fuel s trace final trace' :
  Adv.visited time_time fmt task m s ->
  run_loop' fuel s trace = Some (final, trace') ->
  Adv.visited time_time fmt task m final /\ Adv.decide_if_finished final = true.
Proof.
  revert s trace. induction fuel as [|fuel IH]; intros s trace Hs Hrun; cbn in Hrun;
    destruct (Adv.decide_if_finished s) eqn:Hfin; try discriminate.
  - by injection Hrun as <- <-.
  - by injection Hrun as <- <-.
  - eapply IH; [|exact Hrun]. by constructor.
Qed.

(** Each turn appends one message, sent by the agent that took the turn. *)
Lemma run_loop_log_mirrors_trace fuel s trace final trace' :
  List.map from_agent (Adv.messages s) = trace ->
  run_loop' fuel s trace = Some (final, trace') ->
  List.map from_agent (Adv.messages final) = trace'.
Proof.
  revert s trace. induction fuel as [|fuel IH]; intros s trace Hs Hrun; cbn in Hrun;
    destruct (Adv.decide_if_finished s) eqn:Hfin; try discriminate.
  - by injection Hrun as <- <-.
  - by injection Hrun as <- <-.
  - eapply IH; [|exact Hrun].
    destruct (adv_turn_appends s) as (m & -> & Hfrom).
    rewrite List.map_app, Hs. cbn. by rewrite Hfrom.
Qed.

Lemma run_loop_alternates m d :
  forall k s trace,
    within_budget m k s -> Adv.current_agent s = COORDINATOR ->
    0 <= k -> m = k + Z.of_nat (S d) ->
    exists final trace',
      run_loop' (2 * d + 1) s trace = Some (final, trace ++ trace') /\
      alternates trace' /\
      length trace' = (2 * d + 1)%nat /\
      within_budget m m final.
Proof.
  induction d as [|d IH]; intros k s trace Hinv Hagent Hk Hm.
  - assert (Hnot : Adv.decide_if_finished s = false).
    { rewrite (within_budget_finished _ _ _ Hinv). apply Z.leb_gt. lia. }
    pose proof (within_budget_coordinator time_time m k s Hinv ltac:(lia)) as Hinv'.
    replace (k + 1) with m in Hinv' by lia.
    exists (Adv.coordinator_agent time_time s), [COORDINATOR].
    change (2 * 0 + 1)%nat with 1%nat.
    rewrite run_loop_turn by done.
    unfold Adv.turn at 1, Adv.router. rewrite Hagent.
    rewrite run_loop_finished.
    + split_and!; try done. constructor.
    + rewrite (within_budget_finished _ _ _ Hinv'). apply Z.leb_le. lia.
  - assert (Hnot : Adv.decide_if_finished s = false).
    { rewrite (within_budget_finished _ _ _ Hinv). apply Z.leb_gt. lia. }
    pose proof (within_budget_coordinator time_time m k s Hinv ltac:(lia)) as Hinv1.
    set (s1 := Adv.coordinator_agent time_time s) in *.
    assert (Hworker : Adv.current_agent s1 <> COORDINATOR).
    { destruct (adv_coordinator_request time_time s) as (to & ? & _ & Hto & Hne).
      subst s1. by rewrite Hto. }
    assert (Hnot1 : Adv.decide_if_finished s1 = false).
    { rewrite (within_budget_finished _ _ _ Hinv1). apply Z.leb_gt. lia. }
    destruct (within_budget_worker time_time fmt m (k + 1) s1 Hinv1 ltac:(lia) Hworker)
      as [Hinv2 Hagent2].
    destruct (IH (k + 1) (turn' s1) ((trace ++ [COORDINATOR]) ++ [Adv.current_agent s1])
                Hinv2 Hagent2 ltac:(lia) ltac:(lia))
      as (final & trace' & Hrun & Halt & Hlen & Hfinal).
    exists final, ([COORDINATOR; Adv.current_agent s1] ++ trace').
    replace (2 * S d + 1)%nat with (S (S (2 * d + 1))) by lia.
    rewrite run_loop_turn by done.
    assert (Hs1 : turn' s = s1).
    { unfold Adv.turn at 1, Adv.router. by rewrite Hagent. }
    rewrite Hs1, Hagent.
    rewrite run_loop_turn by done.
    rewrite Hrun. split_and!.
    + f_equal. f_equal. by rewrite <- !app_assoc.
    + by constructor.
    + rewrite length_app, Hlen. cbn. lia.
    + done.
Qed.

End AdvRunShape.

(** X9: the [while] loop of [run_multi_agent_system], started at the function's
    initial state.  Whatever state it exits with, the log of that state records
    the trace: the i-th message was sent by the i-th agent that took a turn.
    With [max_iterations <= 0] no agent takes a turn and the loop exits with the
    initial state; with [max_iterations >= 1] the Coordinator and the workers
    alternate over [2 * max_iterations - 1] turns, the Coordinator first and
    last, and the counter ends at [max_iterations].  (The function reaches the
    loop only where [build_multi_agent_graph] returns, see
    [run_multi_agent_system_built] and [run_multi_agent_system_raised].) *)
Theorem loop_log_mirrors_alternating_trace
    (time_time : nat -> float) (fmt : nat -> float -> string)
    (fuel : nat) (task : string) (max_iterations : Z)
    (final : Adv.MultiAgentState) (trace : list AgentRole) :
  Adv.run_loop time_time fmt fuel (Adv.initial_state task max_iterations) [] =
  Some (final, trace) ->
  List.map from_agent (Adv.messages final) = trace /\
  (max_iterations <= 0 -> final = Adv.initial_state task max_iterations /\ trace = []) /\
  (1 <= max_iterations ->
   alternates trace /\
   length trace = Z.to_nat (2 * max_iterations - 1) /\
   Adv.get_current_iteration final = max_iterations).
Proof.
  intros Hrun. split_and!.
  - eapply run_loop_log_mirrors_trace; [|exact Hrun]. reflexivity.
  - intros Hm.
    rewrite run_loop_finished in Hrun; [by injection Hrun as <- <-|].
    apply adv_decide_if_finished_iff. right. cbn. lia.
  - intros Hm.
    destruct (run_loop_alternates time_time fmt max_iterations
                (Z.to_nat (max_iterations - 1)) 0
                (Adv.initial_state task max_iterations) []
                (within_budget_initial task max_iterations) eq_refl ltac:(lia) ltac:(lia))
      as (final' & trace' & Hrun' & Halt & Hlen & Hfinal).
    pose proof (run_loop_same_result _ _ _ _ _ _ _ _ Hrun Hrun') as Heq.
    injection Heq as -> ->. cbn. split_and!; [done|lia|].
    destruct Hfinal as (_ & Hit & _). unfold Adv.get_current_iteration. by rewrite Hit.
Qed.

Lemma loop_log_mirrors_alternating_trace_witness :
  exists final trace,
    Adv.run_loop clock0 fmt0 5 (Adv.initial_state "X" 3) [] = Some (final, trace) /\
    List.map from_agent (Adv.messages final) = trace /\
    (3 <= 0 -> final = Adv.initial_state "X" 3 /\ trace = []) /\
    (1 <= 3 ->
     alternates trace /\
     length trace = Z.to_nat (2 * 3 - 1) /\
     Adv.get_current_iteration final = 3).
Proof.
  destruct (Adv.run_loop clock0 fmt0 5 (Adv.initial_state "X" 3) [])
    as [[final trace]|] eqn:Hrun; [|vm_compute in Hrun; discriminate Hrun].
  exists final, trace. split; [reflexivity|].
  exact (loop_log_mirrors_alternating_trace clock0 fmt0 5 "X" 3 final trace Hrun).
Defined.

(** ** The state the loop of the advanced file exits with *)

Section AdvFinalState.

Context (time_time : nat -> float) (fmt : nat -> float -> string).

Lemma adv_branch_cases (s : Adv.MultiAgentState) :
  (adv_branch s = Bootstrap /\ Adv.get_current_iteration s = 0) \/
  (adv_branch s = Middle /\ Adv.get_current_iteration s <> 0 /\
   Adv.get_current_iteration s < Adv.get_max_iterations s - 1) \/
  (adv_branch s = Final /\ Adv.get_current_iteration s <> 0 /\
   Adv.get_max_iterations s - 1 <= Adv.get_current_iteration s).
Proof.
  unfold adv_branch.
  destruct (Z.eqb_spec (Adv.get_current_iteration s) 0); [by left|].
  destruct (Z.ltb_spec (Adv.get_current_iteration s) (Adv.get_max_iterations s - 1));
    [right; left|right; right]; done.
Qed.

Lemma executor_responses_nil_rev messages :
  rev (contents_where (from_with_type EXECUTOR "response") messages) = [] <->
  executor_responses messages = [].
Proof.
  unfold executor_responses. split; [|by intros ->].
  intros H. apply (f_equal (@rev _)) in H. by rewrite rev_involutive in H.
Qed.

(** Whom the Coordinator hands over to, branch by branch. *)
Lemma adv_coordinator_next (s : Adv.MultiAgentState) :
  Adv.current_agent (Adv.coordinator_agent time_time s) =
  match adv_branch s with
  | Bootstrap => RESEARCHER
  | Final => EVALUATOR
  | Middle =>
      if Adv.get_current_iteration s mod 4 =? 0 then RESEARCHER
      else if Adv.get_current_iteration s mod 4 =? 1 then CRITIC
      else if Adv.get_current_iteration s mod 4 =? 2 then EXECUTOR
      else match executor_responses (Adv.messages s) with
           | [] => RESEARCHER
           | _ :: _ => EVALUATOR
           end
  end.
Proof.
  adv_coordinator_split s; try reflexivity.
  - apply executor_responses_nil_rev in Hexec. by rewrite Hexec.
  - destruct (executor_responses (Adv.messages s)) eqn:Hnil; [|reflexivity].
    apply executor_responses_nil_rev in Hnil. congruence.
Qed.

(** The final branch of the Coordinator. *)
Lemma adv_coordinator_final (s : Adv.MultiAgentState) :
  adv_branch s = Final ->
  exists request,
    Adv.messages (Adv.coordinator_agent time_time s) = Adv.messages s ++ [request] /\
    request_at (Adv.get_current_iteration s) request /\
    to_agent request = Some EVALUATOR /\
    is_final_draft (Adv.messages s) (Adv.solution (Adv.coordinator_agent time_time s)) /\
    Adv.solution (Adv.coordinator_agent time_time s) <> None /\
    Adv.current_agent (Adv.coordinator_agent time_time s) = EVALUATOR /\
    Adv.current_phase (Adv.coordinator_agent time_time s) = Some "final_evaluation".
Proof.
  intros Hb. unfold adv_branch in Hb. unfold Adv.coordinator_agent. cbv zeta.
  destruct (Adv.get_current_iteration s =? 0); [done|].
  destruct (Adv.get_current_iteration s <? Adv.get_max_iterations s - 1); [done|].
  eexists. split; [reflexivity|]. split_and!; try done.
  apply final_draft_shape.
Qed.

Lemma within_budget_readings m k s :
  within_budget m k s ->
  Adv.get_max_iterations s = m /\ Adv.get_current_iteration s = k.
Proof.
  intros (Hm & Hk & _). unfold Adv.get_max_iterations, Adv.get_current_iteration.
  by rewrite Hm, Hk.
Qed.

(** While the loop goes on, no solution has been drafted. *)
Lemma visited_unsolved task m s :
  Adv.visited time_time fmt task m s ->
  Adv.decide_if_finished s = false -> Adv.solution s = None.
Proof.
  induction 1 as [|s Hs IH Hnot]; [done|]. intros Hnot'.
  specialize (IH Hnot). rewrite adv_turn_node in *.
  destruct (decide (Adv.current_agent s = COORDINATOR)) as [Hc|Hw].
  - rewrite Hc in *. cbn [Adv.node] in *.
    rewrite adv_coordinator_solution; [done|]. intros Hfinal.
    destruct (visited_within_budget _ _ _ _ _ Hs) as (k & Hinv & Hk).
    destruct (within_budget_readings _ _ _ Hinv) as [Hmax Hit].
    rewrite (within_budget_finished _ _ _ Hinv) in Hnot. apply Z.leb_gt in Hnot.
    pose proof (within_budget_coordinator time_time m k s Hinv ltac:(lia)) as Hinv'.
    rewrite (within_budget_finished _ _ _ Hinv') in Hnot'. apply Z.leb_gt in Hnot'.
    destruct (adv_branch_cases s) as [[Hb _]|[[Hb _]|(_ & _ & Hge)]]; [congruence..|].
    lia.
  - by rewrite (proj1 (proj2 (proj2 (proj2 (proj2
         (adv_worker_fields time_time fmt _ s Hw)))))).
Qed.

(** The state the loop returns is the result of a turn of the Coordinator at
    iteration [m - 1]. *)
Lemma visited_last_turn task m final :
  1 <= m ->
  Adv.visited time_time fmt task m final ->
  Adv.decide_if_finished final = true ->
  exists previous,
    Adv.visited time_time fmt task m previous /\
    Adv.decide_if_finished previous = false /\
    within_budget m (m - 1) previous /\
    Adv.current_agent previous = COORDINATOR /\
    final = Adv.coordinator_agent time_time previous.
Proof.
  intros Hm Hvis Hfin. destruct Hvis as [|previous Hprev Hnot].
  - rewrite (within_budget_finished _ _ _ (within_budget_initial task m)) in Hfin.
    apply Z.leb_le in Hfin. lia.
  - destruct (visited_within_budget _ _ _ _ _ Hprev) as (k & Hinv & Hk).
    pose proof Hnot as Hlt.
    rewrite (within_budget_finished _ _ _ Hinv) in Hlt. apply Z.leb_gt in Hlt.
    destruct (decide (Adv.current_agent previous = COORDINATOR)) as [Hc|Hw].
    + assert (Hturn : Adv.turn time_time fmt previous =
                      Adv.coordinator_agent time_time previous)
        by (unfold Adv.turn, Adv.router; by rewrite Hc).
      rewrite Hturn in *.
      pose proof (within_budget_coordinator time_time m k previous Hinv ltac:(lia)) as Hinv'.
      rewrite (within_budget_finished _ _ _ Hinv') in Hfin. apply Z.leb_le in Hfin.
      assert (k = m - 1) as -> by lia.
      by exists previous.
    + destruct (within_budget_worker time_time fmt m k previous Hinv Hlt Hw) as [Hinv' _].
      rewrite (within_budget_finished _ _ _ Hinv') in Hfin. apply Z.leb_le in Hfin. lia.
Qed.

End AdvFinalState.

(** X10: for [max_iterations >= 1] a state of the [while] loop of
    [run_multi_agent_system] at which the loop exits ([decide_if_finished] is
    true) is the one the Coordinator left at its last turn.  With
    [max_iterations = 1] that turn is the bootstrap: no solution is stored and
    the Researcher, just asked, never answers.  With [max_iterations >= 2] it is
    the final branch: the solution is the final draft of the log before it, the
    last message of the log is the request to the Evaluator tagged
    [max_iterations - 1], which stays unanswered, and the score is below
    [0.9].  (The function reaches the loop only where [build_multi_agent_graph]
    returns.) *)
Theorem loop_exits_on_the_coordinators_last_turn
    (time_time : nat -> float) (fmt : nat -> float -> string)
    (task : string) (max_iterations : Z) (final : Adv.MultiAgentState) :
  1 <= max_iterations ->
  Adv.visited time_time fmt task max_iterations final ->
  Adv.decide_if_finished final = true ->
  (max_iterations = 1 ->
   Adv.solution final = None /\ Adv.current_agent final = RESEARCHER) /\
  (2 <= max_iterations ->
   exists log request,
     Adv.messages final = log ++ [request] /\
     request_at (max_iterations - 1) request /\
     to_agent request = Some EVALUATOR /\
     is_final_draft log (Adv.solution final) /\
     Adv.solution final <> None /\
     Adv.current_agent final = EVALUATOR /\
     Adv.current_phase final = Some "final_evaluation" /\
     reaches_threshold (Adv.get_convergence_score final) = false).
Proof.
  intros Hm Hvis Hfin.
  destruct (visited_last_turn time_time fmt task max_iterations final Hm Hvis Hfin)
    as (previous & Hprev & Hnot & Hinv & Hagent & ->).
  destruct (within_budget_readings _ _ _ Hinv) as [Hmax Hit].
  split.
  - intros ->.
    assert (Hb : adv_branch previous = Bootstrap)
      by (unfold adv_branch; by rewrite Hit).
    split.
    + rewrite adv_coordinator_solution by congruence.
      by eapply visited_unsolved.
    + by rewrite adv_coordinator_next, Hb.
  - intros Hm2.
    assert (Hb : adv_branch previous = Final).
    { destruct (adv_branch_cases previous) as [[_ H0]|[(_ & _ & Hlt)|[Hb _]]];
        [lia|lia|done]. }
    destruct (adv_coordinator_final time_time previous Hb)
      as (request & Hlog & Hreq & Hto & Hdraft & Hsol & Hnext & Hphase).
    exists (Adv.messages previous), request. rewrite Hit in Hreq.
    split_and!; try done.
    pose proof (within_budget_coordinator time_time max_iterations _ previous Hinv
                  ltac:(lia)) as Hinv'.
    by eapply within_budget_score.
Qed.

Lemma loop_exits_on_the_coordinators_last_turn_witness :
  exists final,
    1 <= 3 /\
    Adv.visited clock0 fmt0 "X" 3 final /\
    Adv.decide_if_finished final = true /\
    (3 = 1 -> Adv.solution final = None /\ Adv.current_agent final = RESEARCHER) /\
    (2 <= 3 ->
     exists log request,
       Adv.messages final = log ++ [request] /\
       request_at (3 - 1) request /\
       to_agent request = Some EVALUATOR /\
       is_final_draft log (Adv.solution final) /\
       Adv.solution final <> None /\
       Adv.current_agent final = EVALUATOR /\
       Adv.current_phase final = Some "final_evaluation" /\
       reaches_threshold (Adv.get_convergence_score final) = false).
Proof.
  destruct (Adv.run_loop clock0 fmt0 5 (Adv.initial_state "X" 3) [])
    as [[final trace]|] eqn:Hrun; [|vm_compute in Hrun; discriminate Hrun].
  destruct (run_loop_visited clock0 fmt0 "X" 3 _ _ _ _ _
              (Adv.visited_initial _ _ _ _) Hrun) as [Hvis Hfin].
  exists final. split; [discriminate|]. split; [exact Hvis|]. split; [exact Hfin|].
  apply (loop_exits_on_the_coordinators_last_turn clock0 fmt0 "X" 3 final);
    [discriminate|exact Hvis|exact Hfin].
Defined.

(** ** When the loop of the advanced file stores an evaluation *)

Section AdvEvaluation.

Context (time_time : nat -> float) (fmt : nat -> float -> string).

Lemma executor_responses_snoc log (m : AgentMessage) :
  from_agent m = EXECUTOR -> msg_type m = "response" ->
  executor_responses (log ++ [m]) = executor_responses log ++ [content m].
Proof.
  intros Hf Ht. unfold executor_responses, contents_where.
  rewrite List.filter_app, List.map_app. cbn. unfold from_with_type.
  by rewrite Hf, Ht, bool_decide_eq_true_2.
Qed.

Lemma staged_initial task m : staged m (Adv.initial_state task m).
Proof.
  exists 0. split; [apply within_budget_initial|]. split; [lia|].
  split; [done|]. split.
  - intros _ _. split; [lia|]. cbn. split; [done|lia].
  - intros _ Hw. by destruct Hw.
Qed.

Lemma staged_coordinator m s :
  staged m s -> Adv.decide_if_finished s = false ->
  Adv.current_agent s = COORDINATOR ->
  staged m (Adv.coordinator_agent time_time s).
Proof.
  intros (k & Hinv & Hk & Hsync & Hcoord & _) Hnot Hagent.
  rewrite (within_budget_finished _ _ _ Hinv) in Hnot. apply Z.leb_gt in Hnot.
  destruct (Hcoord Hnot Hagent) as [Hexec Heval].
  destruct (within_budget_readings _ _ _ Hinv) as [Hmax Hit].
  destruct (adv_coordinator_frame time_time s) as (Fs & _ & Fe & _).
  destruct (adv_coordinator_request time_time s) as (to & ? & _ & Hto & Hne).
  exists (k + 1). split; [by apply within_budget_coordinator|]. split; [lia|].
  split; [by rewrite Fs, Fe|]. split.
  - intros _ Hc. by rewrite Hto in Hc.
  - intros Hlt _. rewrite Fe, adv_coordinator_next. unfold adv_branch.
    rewrite Hit, Hmax.
    destruct (Z.eqb_spec k 0) as [->|Hk0].
    + split_and!; try done; lia.
    + destruct (Z.ltb_spec k (m - 1)); [|lia].
      pose proof (Z.mod_pos_bound k 4 ltac:(lia)) as Hbound.
      split_and!.
      * intros ?. assert (k = 2) as -> by lia. reflexivity.
      * intros ?. assert (k = 3) as -> by lia. cbn.
        destruct (executor_responses (Adv.messages s)); [by destruct Hexec|done].
      * destruct (Z.eqb_spec (k mod 4) 0); [done|].
        destruct (Z.eqb_spec (k mod 4) 1); [done|].
        destruct (Z.eqb_spec (k mod 4) 2); [done|].
        intros _. assert (k mod 4 = 3) as Hmod by lia.
        pose proof (Z.div_mod k 4 ltac:(lia)).
        pose proof (Z.div_pos k 4 Hk ltac:(lia)). lia.
      * rewrite Heval. lia.
Qed.

Lemma staged_worker m s :
  staged m s -> Adv.decide_if_finished s = false ->
  Adv.current_agent s <> COORDINATOR ->
  staged m (Adv.node time_time fmt (Adv.current_agent s) s).
Proof.
  intros (k & Hinv & Hk & Hsync & _ & Hworker) Hnot Hagent.
  rewrite (within_budget_finished _ _ _ Hinv) in Hnot. apply Z.leb_gt in Hnot.
  destruct (Hworker Hnot Hagent) as (Hexec & Heval4 & Hlate & Heval).
  destruct (within_budget_worker time_time fmt m k s Hinv Hnot Hagent) as [Hinv' Hnext].
  rewrite adv_turn_node in Hinv', Hnext.
  exists k. split; [done|]. split; [done|].
  destruct (decide (Adv.current_agent s = EVALUATOR)) as [He|Hne].
  - rewrite He in *. cbn [Adv.node] in *.
    destruct (adv_evaluator_turn time_time fmt s) as (? & ? & ->). cbn.
    split; [done|]. split.
    + intros _ _. split; [intros ->; specialize (Hlate eq_refl); lia|].
      split; [intros _; by apply Hlate|done].
    + intros _ Hc. by destruct Hc.
  - rewrite (adv_node_frame _ _ _ _ Hne), (adv_node_evaluation _ _ _ _ Hne).
    split; [done|]. split.
    + intros _ _. split.
      * intros ->. rewrite (Hexec eq_refl). cbn [Adv.node].
        destruct (adv_executor_turn time_time s) as [text ->].
        unfold Adv.set_current_agent, Adv.set_messages. cbn [Adv.messages].
        rewrite executor_responses_snoc by done.
        by destruct (executor_responses (Adv.messages s)).
      * rewrite Heval. split; [lia|]. intros H4.
        destruct (decide (k = 4)) as [->|]; [by specialize (Heval4 eq_refl)|lia].
    + intros _ Hc. by rewrite Hnext in Hc.
Qed.

Lemma visited_staged task m s :
  Adv.visited time_time fmt task m s -> staged m s.
Proof.
  induction 1 as [|s Hs IH Hnot]; [apply staged_initial|].
  rewrite adv_turn_node.
  destruct (decide (Adv.current_agent s = COORDINATOR)) as [Hc|Hw].
  - rewrite Hc. by apply staged_coordinator.
  - by apply staged_worker.
Qed.

End AdvEvaluation.

(** X11: a state of the [while] loop of [run_multi_agent_system] at which the
    loop exits ([decide_if_finished] is true) holds an evaluation exactly when
    [max_iterations >= 5] (the first Evaluator turn answers the request of
    iteration 3, which needs an Executor response from iteration 2 and a budget
    that makes iteration 3 a middle iteration); the score is then [0.5], and it
    is absent otherwise.  (The function reaches the loop only where
    [build_multi_agent_graph] returns.) *)
Theorem loop_stores_an_evaluation_from_five_iterations
    (time_time : nat -> float) (fmt : nat -> float -> string)
    (task : string) (max_iterations : Z) (final : Adv.MultiAgentState) :
  Adv.visited time_time fmt task max_iterations final ->
  Adv.decide_if_finished final = true ->
  (Adv.evaluation final <> None <-> 5 <= max_iterations) /\
  (Adv.convergence_score final = Some 0.5%float <-> 5 <= max_iterations) /\
  (Adv.convergence_score final = None <-> max_iterations < 5).
Proof.
  intros Hvis Hfin.
  assert (Heval : Adv.evaluation final <> None <-> 5 <= max_iterations).
  { destruct (Z.le_gt_cases max_iterations 0) as [Hm0|Hm1].
    - destruct Hvis as [|previous Hprev Hnot].
      + cbn. split; [done|lia].
      + destruct (visited_within_budget time_time fmt _ _ _ Hprev) as (k & Hinv & Hk).
        rewrite (within_budget_finished _ _ _ Hinv) in Hnot.
        apply Z.leb_gt in Hnot. lia.
    - destruct (visited_last_turn time_time fmt task max_iterations final
                  ltac:(lia) Hvis Hfin)
        as (previous & Hprev & Hnot & Hinv & Hagent & ->).
      destruct (visited_staged time_time fmt _ _ _ Hprev)
        as (k & Hinv' & Hk & _ & Hcoord & _).
      destruct (within_budget_readings _ _ _ Hinv) as [_ Hit].
      destruct (within_budget_readings _ _ _ Hinv') as [_ Hit'].
      assert (k = max_iterations - 1) as -> by congruence.
      destruct (Hcoord ltac:(lia) Hagent) as [_ Hev].
      rewrite (proj1 (proj2 (proj2 (adv_coordinator_frame time_time previous)))).
      rewrite Hev. lia. }
  destruct (visited_staged time_time fmt _ _ _ Hvis) as (k & Hinv & _ & Hsync & _).
  destruct Hinv as (_ & _ & Hscore & _).
  split; [done|]. split.
  - rewrite <- Heval. split.
    + intros Hs He. apply Hsync in He. congruence.
    + intros He. destruct Hscore as [Hnone|Hhalf]; [|done].
      by apply Hsync in Hnone.
  - split.
    + intros Hs. apply Hsync in Hs.
      destruct (Z.lt_ge_cases max_iterations 5); [done|].
      by apply Heval in Hs.
    + intros Hlt. apply Hsync.
      destruct (Adv.evaluation final) eqn:He; [|done].
      assert (5 <= max_iterations) by (apply Heval; done). lia.
Qed.

Lemma loop_stores_an_evaluation_from_five_iterations_witness :
  exists final,
    Adv.visited clock0 fmt0 "X" 6 final /\
    Adv.decide_if_finished final = true /\
    (Adv.evaluation final <> None <-> 5 <= 6) /\
    (Adv.convergence_score final = Some 0.5%float <-> 5 <= 6) /\
    (Adv.convergence_score final = None <-> 6 < 5).
Proof.
  destruct (Adv.run_loop clock0 fmt0 11 (Adv.initial_state "X" 6) [])
    as [[final trace]|] eqn:Hrun; [|vm_compute in Hrun; discriminate Hrun].
  destruct (run_loop_visited clock0 fmt0 "X" 6 _ _ _ _ _
              (Adv.visited_initial _ _ _ _) Hrun) as [Hvis Hfin].
  exists final. split; [exact Hvis|]. split; [exact Hfin|].
  exact (loop_stores_an_evaluation_from_five_iterations clock0 fmt0 "X" 6 final Hvis Hfin).
Defined.

(** ** What the requests of a middle iteration quote *)

Lemma latest_content_snoc p log (m : AgentMessage) :
  latest_content p (log ++ [m]) = if p m then content m else latest_content p log.
Proof.
  unfold latest_content. rewrite rev_app_distr. cbn. by destruct (p m).
Qed.

Lemma most_recent_snoc p log (m : AgentMessage) text :
  p m = false -> most_recent p log text -> most_recent p (log ++ [m]) text.
Proof.
  intros Hm [(before & x & after & -> & Hx & Hafter & ->)|[Hnone ->]].
  - left. exists before, x, (after ++ [m]). rewrite <- app_assoc. split_and!; try done.
    apply Forall_app. split; [done|]. by repeat constructor.
  - right. split; [|done]. apply Forall_app. split; [done|]. by repeat constructor.
Qed.

Lemma latest_content_most_recent p log : most_recent p log (latest_content p log).
Proof.
  induction log as [|m log IH] using rev_ind.
  - right. by split.
  - rewrite latest_content_snoc. destruct (p m) eqn:Hm.
    + left. exists log, m, []. by split_and!.
    + by apply most_recent_snoc.
Qed.

(** The last element of a comprehension is its most recent match. *)
Lemma last_content_most_recent p log latest earlier :
  rev (contents_where p log) = latest :: earlier -> most_recent p log latest.
Proof.
  unfold contents_where. induction log as [|m log IH] using rev_ind; [done|].
  rewrite List.filter_app, List.map_app, rev_app_distr. cbn.
  destruct (p m) eqn:Hm; cbn.
  - intros [= <- _]. left. exists log, m, []. by split_and!.
  - intros H. by apply most_recent_snoc, IH.
Qed.

(** X12: the request of a middle iteration quotes the latest work of the
    previous phase.  Phase 0 asks the Researcher to continue; phase 1 asks the
    Critic and quotes the most recent response of the Researcher; phase 2 asks
    the Executor and quotes the most recent response of the Critic; a role that
    has not responded yet is quoted as the empty string, the request is sent all
    the same.  In the advanced file phase 3 asks the Evaluator and quotes the
    most recent response of the Executor, and asks the Researcher instead when
    there is none.  (Lab file: when no response is missing.) *)
Theorem middle_requests_quote_the_latest_response
    (time_time : nat -> float) (order : SetOrder) :
  (forall s : Lab.MultiAgentState,
     lab_branch s = Middle ->
     Lab.needed_responses (lab_recent s) ⊆ Lab.received_responses (lab_recent s) ->
     exists request,
       Lab.messages (Lab.coordinator_agent time_time order s) =
       Lab.messages s ++ [request] /\
       (Lab.get_current_iteration s mod 3 = 0 ->
        to_agent request = Some RESEARCHER /\
        content request =
        "Please continue researching and provide additional information.") /\
       (Lab.get_current_iteration s mod 3 = 1 ->
        quotes_latest request CRITIC RESEARCHER
          "Please critique this research and suggest improvements:" (Lab.messages s)) /\
       (Lab.get_current_iteration s mod 3 = 2 ->
        quotes_latest request EXECUTOR CRITIC
          "Based on our research and critique, please develop a solution:"
          (Lab.messages s))) /\
  (forall s : Adv.MultiAgentState,
     adv_branch s = Middle ->
     exists request,
       Adv.messages (Adv.coordinator_agent time_time s) = Adv.messages s ++ [request] /\
       (Adv.get_current_iteration s mod 4 = 0 ->
        to_agent request = Some RESEARCHER /\
        content request =
        "Please continue researching and provide additional information.") /\
       (Adv.get_current_iteration s mod 4 = 1 ->
        quotes_latest request CRITIC RESEARCHER
          "Please critique this research and suggest improvements:" (Adv.messages s)) /\
       (Adv.get_current_iteration s mod 4 = 2 ->
        quotes_latest request EXECUTOR CRITIC
          "Based on our research and critique, please develop a solution:"
          (Adv.messages s)) /\
       (Adv.get_current_iteration s mod 4 = 3 ->
        (executor_responses (Adv.messages s) = [] ->
         to_agent request = Some RESEARCHER /\
         content request =
         "Let's explore the problem space further. Please provide more detailed research.") /\
        (executor_responses (Adv.messages s) <> [] ->
         quotes_latest request EVALUATOR EXECUTOR
           "Please evaluate this solution draft:" (Adv.messages s)))).
Proof.
  split.
  - intros s Hmid Hall. apply responses_missing_false in Hall.
    pose proof (Z.mod_pos_bound (Lab.get_current_iteration s) 3 ltac:(lia)) as Hphase.
    unfold lab_branch in Hmid. unfold Lab.coordinator_agent. cbv zeta.
    fold (lab_recent s). rewrite Hall.
    destruct (Lab.get_current_iteration s =? 0); [done|].
    destruct (Lab.get_current_iteration s <? Lab.get_max_iterations s - 1); [|done].
    destruct (Z.eqb_spec (Lab.get_current_iteration s mod 3) 0);
      [|destruct (Z.eqb_spec (Lab.get_current_iteration s mod 3) 1)];
      (eexists; split; [reflexivity|]); split_and!; intros; try lia; try done.
    + split; [done|]. eexists. split; [reflexivity|]. apply latest_content_most_recent.
    + split; [done|]. eexists. split; [reflexivity|]. apply latest_content_most_recent.
  - intros s Hmid.
    pose proof (Z.mod_pos_bound (Adv.get_current_iteration s) 4 ltac:(lia)) as Hphase.
    unfold adv_branch in Hmid. unfold Adv.coordinator_agent. cbv zeta.
    destruct (Adv.get_current_iteration s =? 0); [done|].
    destruct (Adv.get_current_iteration s <? Adv.get_max_iterations s - 1); [|done].
    destruct (Z.eqb_spec (Adv.get_current_iteration s mod 4) 0);
      [|destruct (Z.eqb_spec (Adv.get_current_iteration s mod 4) 1);
        [|destruct (Z.eqb_spec (Adv.get_current_iteration s mod 4) 2);
          [|destruct (rev (contents_where (from_with_type EXECUTOR "response")
                                          (Adv.messages s))) eqn:Hexec]]];
      (eexists; split; [reflexivity|]); split_and!; intros; try lia; try done.
    + split; [done|]. eexists. split; [reflexivity|]. apply latest_content_most_recent.
    + split; [done|]. eexists. split; [reflexivity|]. apply latest_content_most_recent.
    + split; [done|]. intros Hne. by apply executor_responses_nil_rev in Hexec.
    + split.
      * intros Hnil. apply executor_responses_nil_rev in Hnil. congruence.
      * intros _. split; [done|]. eexists. split; [reflexivity|].
        by eapply last_content_most_recent.
Qed.

Lemma middle_requests_quote_the_latest_response_witness :
  (lab_branch lab_answered = Middle /\
   Lab.needed_responses (lab_recent lab_answered) ⊆
   Lab.received_responses (lab_recent lab_answered) /\
   Lab.get_current_iteration lab_answered mod 3 = 1 /\
   exists request,
     Lab.messages (Lab.coordinator_agent clock0 order0 lab_answered) =
     Lab.messages lab_answered ++ [request] /\
     quotes_latest request CRITIC RESEARCHER
       "Please critique this research and suggest improvements:"
       (Lab.messages lab_answered)) /\
  (adv_branch (adv_sample 6 3) = Middle /\
   Adv.get_current_iteration (adv_sample 6 3) mod 4 = 3 /\
   executor_responses (Adv.messages (adv_sample 6 3)) <> [] /\
   exists request,
     Adv.messages (Adv.coordinator_agent clock0 (adv_sample 6 3)) =
     Adv.messages (adv_sample 6 3) ++ [request] /\
     quotes_latest request EVALUATOR EXECUTOR
       "Please evaluate this solution draft:" (Adv.messages (adv_sample 6 3))).
Proof.
  destruct (middle_requests_quote_the_latest_response clock0 order0) as [Hlab Hadv].
  assert (Hall : Lab.needed_responses (lab_recent lab_answered) ⊆
                 Lab.received_responses (lab_recent lab_answered))
    by (refine (bool_decide_unpack _ _); vm_compute; exact I).
  assert (Hexec : executor_responses (Adv.messages (adv_sample 6 3)) <> [])
    by discriminate.
  split.
  - destruct (Hlab lab_answered eq_refl Hall) as (request & Hlog & _ & Hquote & _).
    split; [reflexivity|]. split; [exact Hall|]. split; [reflexivity|].
    exists request. split; [exact Hlog|]. exact (Hquote eq_refl).
  - destruct (Hadv (adv_sample 6 3) eq_refl) as (request & Hlog & _ & _ & _ & Hcheck).
    split; [reflexivity|]. split; [reflexivity|]. split; [exact Hexec|].
    exists request. split; [exact Hlog|].
    exact (proj2 (Hcheck eq_refl) Hexec).
Defined.

(** ** How the Researcher of the lab file answers *)

Lemma latest_content_app_new p log new text :
  Forall (fun m : AgentMessage => content m = text) new ->
  Exists (fun m => p m = true) new ->
  latest_content p (log ++ new) = text.
Proof.
  induction new as [|m new IH] using rev_ind; [by inversion 2|].
  intros Hall Hex. rewrite app_assoc, latest_content_snoc.
  apply Forall_app in Hall as [Hnew Hm]. inversion Hm as [|? ? Hc _]; subst.
  destruct (p m) eqn:Hp; [done|].
  apply IH; [done|]. apply Exists_app in Hex as [Hex|Hex]; [done|].
  inversion Hex as [? ? Hpm|? ? Habs]; [congruence|inversion Habs].
Qed.

Lemma prefix_app p rest : String.prefix p (p +:+ rest) = true.
Proof.
  induction p as [|a p IH]; [by destruct rest|].
  change (String a p +:+ rest) with (String a (p +:+ rest)). cbn [String.prefix].
  by destruct (ascii_dec a a).
Qed.

Lemma string_app_assoc (a b c : string) : (a +:+ b) +:+ c = a +:+ (b +:+ c).
Proof.
  induction a as [|x a IH]; [done|].
  change ((String x a +:+ b) +:+ c) with (String x ((a +:+ b) +:+ c)).
  change (String x a +:+ (b +:+ c)) with (String x (a +:+ (b +:+ c))).
  by rewrite IH.
Qed.

(** A text built from pieces starts with what its first line starts with. *)
Lemma prefix_cat_ln2 p t piece pieces :
  String.prefix p (cat (ln2 (p +:+ t) :: piece :: pieces)) = true.
Proof.
  unfold cat, ln2. cbn [String.concat].
  rewrite !string_app_assoc. apply prefix_app.
Qed.

(** X13: what the Researcher of the lab file answers when the Coordinator has
    just handed over to it depends on the request.  After the bootstrap request
    or the request of phase 0 the response is the research of the iteration
    ("Initial research" up to iteration 1, "Additional research" after); after a
    follow-up request, which mentions neither research nor information, it is
    the generic "Research findings" text. *)
Theorem lab_researcher_answers_by_request
    (time_time : nat -> float) (order : SetOrder) (s : Lab.MultiAgentState) :
  Lab.current_agent (Lab.coordinator_agent time_time order s) = Some RESEARCHER ->
  exists response,
    Lab.messages (Lab.researcher_agent time_time (Lab.coordinator_agent time_time order s)) =
    Lab.messages (Lab.coordinator_agent time_time order s) ++ [response] /\
    let follows_up :=
      lab_branch s = Middle /\
      Lab.responses_missing (Lab.needed_responses (lab_recent s))
                            (Lab.received_responses (lab_recent s)) = true in
    (follows_up ->
     String.prefix "Research findings for task '" (content response) = true) /\
    (~ follows_up -> Lab.get_current_iteration s + 1 <= 1 ->
     String.prefix "Initial research on '" (content response) = true) /\
    (~ follows_up -> 1 < Lab.get_current_iteration s + 1 ->
     String.prefix "Additional research on '" (content response) = true).
Proof.
  intros Hnext.
  pose proof (lab_coordinator_iteration time_time order s) as Hit.
  assert (Hk : Lab.get_current_iteration (Lab.coordinator_agent time_time order s) =
               Lab.get_current_iteration s + 1)
    by (unfold Lab.get_current_iteration at 1; by rewrite Hit).
  eexists. split; [reflexivity|]. cbv zeta. cbn [content]. rewrite Hk.
  set (request := latest_content (to_with_type RESEARCHER "request")
                    (Lab.messages (Lab.coordinator_agent time_time order s))).
  assert (Hcase :
    (lab_branch s = Middle /\
     Lab.responses_missing (Lab.needed_responses (lab_recent s))
                           (Lab.received_responses (lab_recent s)) = true /\
     request = "Following up on my previous request. Please respond.") \/
    (~ (lab_branch s = Middle /\
        Lab.responses_missing (Lab.needed_responses (lab_recent s))
                              (Lab.received_responses (lab_recent s)) = true) /\
     contains "research" (lower request) = true)).
  { subst request. revert Hnext. clear Hit Hk.
    lab_coordinator_split order s; intros Hnext; try discriminate Hnext.
    - right. split; [by intros [? _]|].
      unfold Lab.send_request. cbn [Lab.messages Lab.set_messages Lab.set_artifacts
        Lab.set_current_iteration Lab.set_current_agent].
      rewrite latest_content_snoc. reflexivity.
    - left. split; [done|]. split; [done|].
      destruct (follow_up_appends time_time (lab_missing order s)
                  (Lab.get_current_iteration s) (Lab.messages s))
        as (new & Hnew & Hto & Hall).
      cbn [Lab.messages Lab.set_messages Lab.set_current_iteration Lab.set_current_agent].
      rewrite Hnew. apply latest_content_app_new.
      + eapply Forall_impl; [exact Hall|]. by intros ? [_ ?].
      + cbn [Lab.current_agent Lab.set_messages Lab.set_current_iteration
             Lab.set_current_agent] in Hnext.
        rewrite <- Hto in Hnext. destruct new as [|first rest]; [done|].
        cbn in Hnext. apply Forall_cons in Hall as [[(_ & Htype & _) _] _].
        apply Exists_cons_hd. unfold to_with_type.
        by rewrite Hnext, Htype, bool_decide_eq_true_2.
    - right. split; [intros [_ ?]; congruence|].
      unfold Lab.send_request. cbn [Lab.messages Lab.set_messages
        Lab.set_current_iteration Lab.set_current_agent].
      rewrite latest_content_snoc. reflexivity. }
  destruct Hcase as [(Hmid & Hmiss & ->)|[Hnot Hres]].
  - replace (contains "research"
               (lower "Following up on my previous request. Please respond.") ||
             contains "information"
               (lower "Following up on my previous request. Please respond."))
      with false by (vm_compute; reflexivity).
    split_and!; [intros _; apply prefix_cat_ln2|intros Hn; by destruct Hn..].
  - rewrite Hres. cbn [orb]. split_and!.
    + intros Hf. by destruct Hnot.
    + intros _ Hle. apply Z.leb_le in Hle. rewrite Hle. apply prefix_cat_ln2.
    + intros _ Hgt. apply Z.leb_gt in Hgt. rewrite Hgt. apply prefix_cat_ln2.
Qed.

Lemma lab_researcher_answers_by_request_witness :
  Lab.current_agent (Lab.coordinator_agent clock0 order0 lab_asked) = Some RESEARCHER /\
  exists response,
    Lab.messages (Lab.researcher_agent clock0 (Lab.coordinator_agent clock0 order0 lab_asked)) =
    Lab.messages (Lab.coordinator_agent clock0 order0 lab_asked) ++ [response] /\
    let follows_up :=
      lab_branch lab_asked = Middle /\
      Lab.responses_missing (Lab.needed_responses (lab_recent lab_asked))
                            (Lab.received_responses (lab_recent lab_asked)) = true in
    (follows_up ->
     String.prefix "Research findings for task '" (content response) = true) /\
    (~ follows_up -> Lab.get_current_iteration lab_asked + 1 <= 1 ->
     String.prefix "Initial research on '" (content response) = true) /\
    (~ follows_up -> 1 < Lab.get_current_iteration lab_asked + 1 ->
     String.prefix "Additional research on '" (content response) = true).
Proof.
  assert (H1 : Lab.current_agent (Lab.coordinator_agent clock0 order0 lab_asked) =
               Some RESEARCHER) by (vm_compute; reflexivity).
  split; [exact H1|].
  exact (lab_researcher_answers_by_request clock0 order0 lab_asked H1).
Defined.

(** ** The rotation of the workers in a run of the advanced file *)

Section AdvRotation.

Context (time_time : nat -> float) (fmt : nat -> float -> string).

Lemma executor_responses_snoc_other log (m : AgentMessage) :
  from_agent m <> EXECUTOR ->
  executor_responses (log ++ [m]) = executor_responses log.
Proof.
  intros Hf. unfold executor_responses, contents_where.
  rewrite List.filter_app, List.map_app. cbn. unfold from_with_type.
  rewrite bool_decide_eq_false_2 by done. cbn. by rewrite app_nil_r.
Qed.

Lemma executor_responses_grow log (m : AgentMessage) :
  executor_responses log <> [] -> executor_responses (log ++ [m]) <> [].
Proof.
  unfold executor_responses, contents_where.
  rewrite List.filter_app, List.map_app.
  destruct (List.map content (List.filter (from_with_type EXECUTOR "response") log));
    [done|discriminate].
Qed.

Lemma in_rotation_initial task m : in_rotation m (Adv.initial_state task m).
Proof.
  exists 0. split; [apply within_budget_initial|]. split; [lia|]. split.
  - intros _ _ ?. lia.
  - intros _ Hw. by destruct Hw.
Qed.

Lemma in_rotation_coordinator m s :
  in_rotation m s -> Adv.decide_if_finished s = false ->
  Adv.current_agent s = COORDINATOR ->
  in_rotation m (Adv.coordinator_agent time_time s).
Proof.
  intros (k & Hinv & Hk & Hcoord & _) Hnot Hagent.
  rewrite (within_budget_finished _ _ _ Hinv) in Hnot. apply Z.leb_gt in Hnot.
  specialize (Hcoord Hnot Hagent).
  destruct (within_budget_readings _ _ _ Hinv) as [Hmax Hit].
  destruct (adv_coordinator_request time_time s) as (to & text & Hlog & Hto & Hne).
  exists (k + 1). split; [by apply within_budget_coordinator|]. split; [lia|]. split.
  - intros _ Hc. by rewrite Hto in Hc.
  - intros Hlt _. split; [lia|]. split.
    + rewrite adv_coordinator_next. unfold adv_branch, phase_role.
      rewrite Hit, Hmax. replace (k + 1 - 1) with k by lia.
      destruct (Z.eqb_spec k 0) as [->|Hk0]; [reflexivity|].
      destruct (Z.ltb_spec k (m - 1)); [|lia].
      destruct (Z.eqb_spec (k mod 4) 0); [done|].
      destruct (Z.eqb_spec (k mod 4) 1); [done|].
      destruct (Z.eqb_spec (k mod 4) 2); [done|].
      pose proof (Z.mod_pos_bound k 4 ltac:(lia)).
      pose proof (Z.div_mod k 4 ltac:(lia)).
      pose proof (Z.div_pos k 4 Hk ltac:(lia)).
      destruct (executor_responses (Adv.messages s)) eqn:Hexec; [|done].
      destruct Hcoord; [lia|done].
    + intros Hk4. rewrite Hlog. apply executor_responses_grow. apply Hcoord. lia.
Qed.

Lemma in_rotation_worker m s :
  in_rotation m s -> Adv.decide_if_finished s = false ->
  Adv.current_agent s <> COORDINATOR ->
  in_rotation m (Adv.node time_time fmt (Adv.current_agent s) s).
Proof.
  intros (k & Hinv & Hk & _ & Hworker) Hnot Hagent.
  rewrite (within_budget_finished _ _ _ Hinv) in Hnot. apply Z.leb_gt in Hnot.
  destruct (Hworker Hnot Hagent) as (Hk1 & Hrole & Hexec).
  destruct (within_budget_worker time_time fmt m k s Hinv Hnot Hagent) as [Hinv' Hnext].
  rewrite adv_turn_node in Hinv', Hnext.
  exists k. split; [done|]. split; [done|]. split.
  - intros _ _ Hk3.
    destruct (adv_worker_appends time_time fmt _ s Hagent) as (text & -> & _).
    destruct (decide (k = 3)) as [->|Hne].
    + change ((3 - 1) mod 4) with 2 in Hrole. change (phase_role 2) with EXECUTOR in Hrole.
      rewrite Hrole, executor_responses_snoc by done.
      by destruct (executor_responses (Adv.messages s)).
    + apply executor_responses_grow, Hexec. lia.
  - intros _ Hc. by rewrite Hnext in Hc.
Qed.

Lemma visited_in_rotation task m s :
  Adv.visited time_time fmt task m s -> in_rotation m s.
Proof.
  induction 1 as [|s Hs IH Hnot]; [apply in_rotation_initial|].
  rewrite adv_turn_node.
  destruct (decide (Adv.current_agent s = COORDINATOR)) as [Hc|Hw].
  - rewrite Hc. by apply in_rotation_coordinator.
  - by apply in_rotation_worker.
Qed.

End AdvRotation.

(** X14: the loop of [run_multi_agent_system] is a fixed rotation.  Whenever it
    is about to give the turn to a worker, the Coordinator has taken at least
    one turn and the worker is the one of phase [(current_iteration - 1) mod 4]:
    Researcher, Critic, Executor, Evaluator, in this order.  In particular the
    fallback of phase 3 (no Executor response yet, ask the Researcher) is never
    taken in a run. *)
Theorem run_rotates_through_the_workers
    (time_time : nat -> float) (fmt : nat -> float -> string)
    (task : string) (max_iterations : Z) (s : Adv.MultiAgentState) :
  Adv.visited time_time fmt task max_iterations s ->
  Adv.decide_if_finished s = false ->
  Adv.router s <> COORDINATOR ->
  1 <= Adv.get_current_iteration s /\
  Adv.router s = phase_role ((Adv.get_current_iteration s - 1) mod 4).
Proof.
  intros Hs Hnot Hw. unfold Adv.router in *.
  destruct (visited_in_rotation time_time fmt _ _ _ Hs) as (k & Hinv & Hk & _ & Hworker).
  destruct (within_budget_readings _ _ _ Hinv) as [_ Hit].
  rewrite (within_budget_finished _ _ _ Hinv) in Hnot. apply Z.leb_gt in Hnot.
  destruct (Hworker Hnot Hw) as (Hk1 & Hrole & _). by rewrite Hit.
Qed.

Lemma run_rotates_through_the_workers_witness :
  Adv.visited clock0 fmt0 "X" 5 (Adv.turn clock0 fmt0 (Adv.initial_state "X" 5)) /\
  Adv.decide_if_finished (Adv.turn clock0 fmt0 (Adv.initial_state "X" 5)) = false /\
  Adv.router (Adv.turn clock0 fmt0 (Adv.initial_state "X" 5)) <> COORDINATOR /\
  1 <= Adv.get_current_iteration (Adv.turn clock0 fmt0 (Adv.initial_state "X" 5)) /\
  Adv.router (Adv.turn clock0 fmt0 (Adv.initial_state "X" 5)) =
  phase_role ((Adv.get_current_iteration (Adv.turn clock0 fmt0 (Adv.initial_state "X" 5)) - 1)
              mod 4).
Proof.
  assert (H1 : Adv.visited clock0 fmt0 "X" 5 (Adv.turn clock0 fmt0 (Adv.initial_state "X" 5)))
    by (apply Adv.visited_turn; [apply Adv.visited_initial|reflexivity]).
  assert (H2 : Adv.decide_if_finished (Adv.turn clock0 fmt0 (Adv.initial_state "X" 5)) = false)
    by reflexivity.
  assert (H3 : Adv.router (Adv.turn clock0 fmt0 (Adv.initial_state "X" 5)) <> COORDINATOR)
    by discriminate.
  split; [exact H1|]. split; [exact H2|]. split; [exact H3|].
  exact (run_rotates_through_the_workers clock0 fmt0 "X" 5 _ H1 H2 H3).
Defined.
